(** * update_prebuilts.py: a shallow embedding and its verified properties

    The embedding comes first and follows [update_prebuilts.py]:
    - [Py]: the operations on [str] and [os.path.join];
    - [Config]: the static tables ([maven_to_make], [deps_rewrite],
      [blacklist_files]) with the name and path derivations;
    - [GMaven]: the class [GMavenArtifact];
    - [Fs], [Os]: the file system as a tree of directories, and [os],
      [os.path], [shutil.rmtree] and [zipfile] on it, in a monad that
      threads the world and raises exceptions;
    - [Re]: [artifact_pattern];
    - [Platform]: what stays outside ([LooseVersion], [glob.glob],
      [shutil.move], the [pom2bp] child process);
    - [Emit]: the argument list handed to [pom2bp];
    - [Discovery]: [detect_artifacts];
    - [Pipeline]: [rm], [mv], [process_aar], [transform_maven_lib] and
      [transform_maven_repos];
    - [Demo]: a platform and worlds to run the embedding on;
    - [Script]: the rest of the script, in a monad that adds standard
      output, the version cache and the network to the world: [path],
      [flatten], [append], [cp], [GMavenArtifact.get_latest_version],
      [_DownloadFileToDisk], [fetch_gmaven_artifact], [update_gmaven]
      and [uncommittedChangesExist];
    - [DemoHost]: a network, a parser and a shell to run [Script] on.

    The modules whose names end in [Facts] hold the properties. *)

From Stdlib Require Import Ascii String List Bool Arith Lia Permutation Sorted.
Import ListNotations.

Local Open Scope string_scope.
Local Open Scope list_scope.

Infix "+:+" := String.append (at level 60, right associativity).

(* ===================================================================== *)
(** * Python strings *)
(* ===================================================================== *)

Module Py.

(** Truthiness of a [str]: the empty string is falsy. *)
Definition truthy (s : string) : bool :=
  match s with EmptyString => false | String _ _ => true end.

(** [s.replace(old, new)]: non-overlapping occurrences of a non-empty [old]
    are replaced scanning from the left.  [skip] counts the characters of
    a match that still have to be dropped. *)
Fixpoint replace_from (old new s : string) (skip : nat) : string :=
  match s with
  | EmptyString => EmptyString
  | String c s' =>
      match skip with
      | S k => replace_from old new s' k
      | O =>
          if String.prefix old s
          then new +:+ replace_from old new s' (String.length old - 1)
          else String c (replace_from old new s' 0)
      end
  end.

Definition replace (old new s : string) : string := replace_from old new s 0.

(** Character-wise substitution; [replace] with one-character arguments
    coincides with it ([replace_char_spec]). *)
Fixpoint subst_char (a b : ascii) (s : string) : string :=
  match s with
  | EmptyString => EmptyString
  | String c s' => String (if Ascii.eqb c a then b else c) (subst_char a b s')
  end.

(** [s.split(sep)] for a one-character separator: the fields between the
    separators, always at least one field. *)
Fixpoint split (sep : ascii) (s : string) : list string :=
  match s with
  | EmptyString => [EmptyString]
  | String c s' =>
      if Ascii.eqb c sep then EmptyString :: split sep s'
      else match split sep s' with
           | f :: fs => String c f :: fs
           | [] => [String c EmptyString]
           end
  end.

(** [sep.join(fields)]. *)
Fixpoint join (sep : string) (fields : list string) : string :=
  match fields with
  | [] => EmptyString
  | [f] => f
  | f :: fs => f +:+ sep +:+ join sep fs
  end.

(** [c in s] for a one-character [c]. *)
Fixpoint contains (c : ascii) (s : string) : bool :=
  match s with
  | EmptyString => false
  | String d s' => Ascii.eqb d c || contains c s'
  end.

(** Slices.  [s[:n]], [s[n:]], [s[-n:]] and [s[:-n]] for a literal [n > 0];
    Python clamps out-of-range bounds instead of failing. *)
Fixpoint take (n : nat) (s : string) : string :=
  match n, s with
  | S k, String c s' => String c (take k s')
  | _, _ => EmptyString
  end.

Fixpoint drop (n : nat) (s : string) : string :=
  match n, s with
  | S k, String _ s' => drop k s'
  | _, _ => s
  end.

Definition take_last (n : nat) (s : string) : string :=
  drop (String.length s - n) s.

Definition drop_last (n : nat) (s : string) : string :=
  take (String.length s - n) s.

(** [s[a:-b]]. *)
Definition slice_between (a b : nat) (s : string) : string :=
  drop a (drop_last b s).

(** [os.path.join(a, b)] on POSIX. *)
Definition os_path_join (a b : string) : string :=
  if String.prefix "/" b then b
  else if negb (truthy a) || String.eqb (take_last 1 a) "/" then a +:+ b
  else a +:+ "/" +:+ b.

End Py.

(* ===================================================================== *)
(** * Exceptions *)
(* ===================================================================== *)

Inductive exn : Type :=
| ValueError (msg : string)
| AttributeError (msg : string)
| KeyError (msg : string)
| OSError (msg : string)
| CalledProcessError (msg : string)
| BadZipFile (msg : string).

Inductive result (A : Type) : Type :=
| Ok (a : A)
| Raise (e : exn).
Arguments Ok {A} a.
Arguments Raise {A} e.

Definition raises {A} (r : result A) : Prop :=
  match r with Ok _ => False | Raise _ => True end.

(* ===================================================================== *)
(** * Static configuration *)
(* ===================================================================== *)

Module Config.

Definition GMAVEN_BASE_URL : string := "https://dl.google.com/dl/android/maven2".

(** One value of [maven_to_make]: a dict in which every field is optional. *)
Record make_entry : Type := MakeEntry {
  name : option string;
  path : option string;
  extra_static_libs : option (list string);
  optional_uses_libs : option (list string);
  host : option bool;
  host_and_device : option bool
}.

(** A Python dict keeps insertion order: it is an association list whose
    keys are pairwise distinct. *)
Definition dict (V : Type) : Type := list (string * V).

Fixpoint dict_get {V} (d : dict V) (k : string) : option V :=
  match d with
  | [] => None
  | (k', v) :: d' => if String.eqb k' k then Some v else dict_get d' k
  end.

Definition dict_mem {V} (d : dict V) (k : string) : bool :=
  match dict_get d k with Some _ => true | None => false end.

Definition dict_keys {V} (d : dict V) : list string := map fst d.

Definition deps_rewrite : dict string :=
  [ ("auto-common", "auto_common");
    ("auto-value-annotations", "auto_value_annotations");
    ("com.google.auto.value:auto-value", "libauto_value_plugin");
    ("monitor", "androidx.test.monitor");
    ("rules", "androidx.test.rules");
    ("runner", "androidx.test.runner");
    ("androidx.test:core", "androidx.test.core");
    ("com.squareup:javapoet", "javapoet");
    ("com.google.guava:listenablefuture", "guava-listenablefuture-prebuilt-jar");
    ("sqlite-jdbc", "xerial-sqlite-jdbc");
    ("gson", "gson-prebuilt-jar");
    ("com.intellij:annotations", "jetbrains-annotations");
    ("javax.annotation:javax.annotation-api", "javax-annotation-api-prebuilt-host-jar");
    ("org.robolectric:robolectric", "Robolectric_all-target");
    ("org.jetbrains.kotlin:kotlin-stdlib-common", "kotlin-stdlib");
    ("org.jetbrains.kotlinx:kotlinx-coroutines-core", "kotlinx_coroutines");
    ("org.jetbrains.kotlinx:kotlinx-coroutines-android", "kotlinx_coroutines_android");
    ("org.jetbrains.kotlinx:kotlinx-metadata-jvm", "kotlinx_metadata_jvm") ].

Definition name_for_artifact (group_artifact : string) : string :=
  Py.replace ":" "_" group_artifact.

Definition path_for_artifact (group_artifact : string) : string :=
  Py.replace ":" "/" (Py.replace "." "/" group_artifact).

(** The loop that adds the automatic entries to [maven_to_make]. *)
Definition populate_entry (key : string) (e : make_entry) : make_entry :=
  let e1 :=
    match name e with
    | None => MakeEntry (Some (name_for_artifact key)) (path e)
                (extra_static_libs e) (optional_uses_libs e)
                (host e) (host_and_device e)
    | Some _ => e
    end in
  match path e1 with
  | None => MakeEntry (name e1) (Some (path_for_artifact key))
              (extra_static_libs e1) (optional_uses_libs e1)
              (host e1) (host_and_device e1)
  | Some _ => e1
  end.

Definition populate (maven_to_make : dict make_entry) : dict make_entry :=
  map (fun kv => (fst kv, populate_entry (fst kv) (snd kv))) maven_to_make.

(** Always remove these files. *)
Definition blacklist_files : list string :=
  [ "annotations.zip"; "public.txt"; "R.txt"; "AndroidManifest.xml";
    Py.os_path_join "libs" "noto-emoji-compat-java.jar" ].

End Config.

(* ===================================================================== *)
(** * GMaven coordinates *)
(* ===================================================================== *)

Module GMaven.

Record GMavenArtifact : Type := {
  group : string;
  group_path : string;
  library : string;
  key : string;
  version : string;
  ext : string
}.

Definition format_error (artifact_glob : string) : exn :=
  ValueError ("Error in " +:+ artifact_glob +:+ " expected: group:library:version:ext").

(** [GMavenArtifact.__init__]: unpacking the split into four names raises
    [ValueError] unless there are exactly four fields. *)
Definition init (artifact_glob : string) : result GMavenArtifact :=
  match Py.split ":" artifact_glob with
  | [g; l; v; e] =>
      if negb (Py.truthy g) || negb (Py.truthy l)
         || negb (Py.truthy v) || negb (Py.truthy e)
      then Raise (format_error artifact_glob)
      else Ok {| group := g;
                 group_path := Py.replace "." "/" g;
                 library := l;
                 key := g +:+ ":" +:+ l;
                 version := v;
                 ext := e |}
  | _ => Raise (format_error artifact_glob)
  end.

Definition get_pom_file_url (self : GMavenArtifact) : string :=
  Config.GMAVEN_BASE_URL +:+ "/" +:+ group_path self +:+ "/" +:+ library self
    +:+ "/" +:+ version self +:+ "/" +:+ library self +:+ "-" +:+ version self
    +:+ ".pom".

Definition get_artifact_url (self : GMavenArtifact) : string :=
  Config.GMAVEN_BASE_URL +:+ "/" +:+ group_path self +:+ "/" +:+ library self
    +:+ "/" +:+ version self +:+ "/" +:+ library self +:+ "-" +:+ version self
    +:+ "." +:+ ext self.

End GMaven.

(* ===================================================================== *)
(** * The file system *)
(* ===================================================================== *)

Module Fs.

(** A regular file holds text, or a zip archive given by its members
    (member name, member data); a member whose name ends in [/] is a
    directory entry. *)
Inductive content : Type :=
| Text (s : string)
| Archive (members : list (string * string)).

(** A directory lists its entries in the order [os.scandir] reports them. *)
#[warnings="-register-all"]
Inductive node : Type :=
| File (c : content)
| Dir (entries : list (string * node)).

Definition path : Type := list string.

Fixpoint entry_get (x : string) (es : list (string * node)) : option node :=
  match es with
  | [] => None
  | (y, n) :: es' => if String.eqb y x then Some n else entry_get x es'
  end.

Fixpoint entry_del (x : string) (es : list (string * node)) : list (string * node) :=
  match es with
  | [] => []
  | (y, n) :: es' => if String.eqb y x then entry_del x es' else (y, n) :: entry_del x es'
  end.

(** Replace the entry in place, or add it at the end. *)
Fixpoint entry_put (x : string) (v : node) (es : list (string * node)) : list (string * node) :=
  match es with
  | [] => [(x, v)]
  | (y, n) :: es' => if String.eqb y x then (y, v) :: es' else (y, n) :: entry_put x v es'
  end.

Fixpoint lookup (p : path) (n : node) : option node :=
  match p with
  | [] => Some n
  | x :: p' =>
      match n with
      | Dir es => match entry_get x es with Some c => lookup p' c | None => None end
      | File _ => None
      end
  end.

(** [put p v n]: the tree [n] in which the entry at the non-empty path [p]
    is [v] ([None]: no entry); nothing changes when the parent of [p] is
    not a directory of [n]. *)
Fixpoint put (p : path) (v : option node) (n : node) : node :=
  match p with
  | [] => n
  | x :: p' =>
      match n with
      | File _ => n
      | Dir es =>
          match p' with
          | [] => Dir (match v with Some c => entry_put x c es | None => entry_del x es end)
          | _ :: _ =>
              match entry_get x es with
              | Some c => Dir (entry_put x (put p' v c) es)
              | None => n
              end
          end
      end
  end.

Definition is_dir (n : option node) : bool :=
  match n with Some (Dir _) => true | _ => false end.

Definition is_empty_dir (n : node) : bool :=
  match n with Dir [] => true | _ => false end.

Fixpoint height (n : node) : nat :=
  match n with
  | File _ => 0
  | Dir es =>
      S ((fix hs (l : list (string * node)) : nat :=
            match l with
            | [] => 0
            | (_, c) :: l' => Nat.max (height c) (hs l')
            end) es)
  end.

(** Names of the sub-directories and of the other entries of a directory. *)
Definition dir_names (es : list (string * node)) : list string :=
  map fst (filter (fun e => is_dir (Some (snd e))) es).

Definition file_names (es : list (string * node)) : list string :=
  map fst (filter (fun e => negb (is_dir (Some (snd e)))) es).

(** A name the kernel accepts for a directory entry. *)
Definition valid_name (s : string) : bool :=
  Py.truthy s && negb (Py.contains "/" s)
  && negb (String.eqb s ".") && negb (String.eqb s "..").

(** Path resolution without symbolic links: empty components and [.] are
    dropped, [..] steps back (also out of a directory that does not
    exist, where the kernel would fail). *)
Fixpoint norm (acc : path) (comps : list string) : path :=
  match comps with
  | [] => acc
  | c :: cs =>
      if String.eqb c "" || String.eqb c "." then norm acc cs
      else if String.eqb c ".." then norm (removelast acc) cs
      else norm (acc ++ [c]) cs
  end.

Definition resolve (cwd : path) (p : string) : path :=
  norm (if String.prefix "/" p then [] else cwd) (Py.split "/" p).

(** Entry names are valid and pairwise distinct, all the way down. *)
Fixpoint wf (n : node) : Prop :=
  match n with
  | File _ => True
  | Dir es =>
      NoDup (map fst es) /\
      (fix all (l : list (string * node)) : Prop :=
         match l with
         | [] => True
         | (x, c) :: l' => valid_name x = true /\ wf c /\ all l'
         end) es
  end.

(** The same, as a test. *)
Fixpoint nodupb (l : list string) : bool :=
  match l with
  | [] => true
  | x :: l' => negb (existsb (String.eqb x) l') && nodupb l'
  end.

Fixpoint wfb (n : node) : bool :=
  match n with
  | File _ => true
  | Dir es =>
      nodupb (map fst es)
      && (fix all (l : list (string * node)) : bool :=
            match l with
            | [] => true
            | (x, c) :: l' => valid_name x && wfb c && all l'
            end) es
  end.

End Fs.

(* ===================================================================== *)
(** * The machine: a state and exception monad over the world *)
(* ===================================================================== *)

Record world : Type := World {
  root : Fs.node;          (* the directory tree below [/] *)
  cwd : Fs.path;           (* [os.getcwd()] *)
  stderr : list string     (* lines printed by [print_e] *)
}.

Definition M (A : Type) : Type := world -> result A * world.

Definition ret {A} (a : A) : M A := fun w => (Ok a, w).
Definition raise {A} (e : exn) : M A := fun w => (Raise e, w).
Definition bind {A B} (m : M A) (k : A -> M B) : M B :=
  fun w => match m w with
           | (Ok a, w') => k a w'
           | (Raise e, w') => (Raise e, w')
           end.

Declare Scope machine_scope.
Delimit Scope machine_scope with M.
Notation "x <- m ;; k" := (bind m (fun x => k))
  (at level 100, m at next level, k at level 200, right associativity) : machine_scope.
Notation "m ;; k" := (bind m (fun _ => k))
  (at level 100, k at level 200, right associativity) : machine_scope.
Local Open Scope machine_scope.

(** [for x in l: body(x)]. *)
Fixpoint for_each {A} (l : list A) (body : A -> M unit) : M unit :=
  match l with
  | [] => ret tt
  | x :: l' => body x ;; for_each l' body
  end.

Definition get_world : M world := fun w => (Ok w, w).
Definition set_root (r : Fs.node) : M unit :=
  fun w => (Ok tt, World r (cwd w) (stderr w)).

Definition print_e (line : string) : M unit :=
  fun w => (Ok tt, World (root w) (cwd w) (stderr w ++ [line])).

Definition lift_result {A} (r : result A) : M A := fun w => (r, w).

(** [fold]-style loop that threads an accumulator through the body. *)
Fixpoint fold_each {A S} (l : list A) (body : S -> A -> M S) (s : S) : M S :=
  match l with
  | [] => ret s
  | x :: l' => s' <- body s x ;; fold_each l' body s'
  end.

(* ===================================================================== *)
(** * [os], [os.path], [shutil] and [zipfile] on the world *)
(* ===================================================================== *)

Module Os.

(** What [os.stat(p)] finds; the empty path names nothing. *)
Definition node_at (w : world) (p : string) : option Fs.node :=
  match p with
  | EmptyString => None
  | _ => Fs.lookup (Fs.resolve (cwd w) p) (root w)
  end.

Definition path_exists (w : world) (p : string) : bool :=
  match node_at w p with Some _ => true | None => false end.

Definition path_isdir (w : world) (p : string) : bool := Fs.is_dir (node_at w p).

Definition os_path_exists (p : string) : M bool := fun w => (Ok (path_exists w p), w).
Definition os_path_isdir (p : string) : M bool := fun w => (Ok (path_isdir w p), w).

Definition put_at (p : string) (v : option Fs.node) : M unit :=
  fun w => (Ok tt, World (Fs.put (Fs.resolve (cwd w) p) v (root w)) (cwd w) (stderr w)).

(** [os.listdir(p)]. *)
Definition os_listdir (p : string) : M (list string) :=
  fun w => match node_at w p with
           | Some (Fs.Dir es) => (Ok (map fst es), w)
           | Some (Fs.File _) => (Raise (OSError "NotADirectoryError"), w)
           | None => (Raise (OSError "FileNotFoundError"), w)
           end.

(** [os.remove(p)]: unlinks a file, refuses a directory (the root is
    one). *)
Definition os_remove (p : string) : M unit :=
  fun w => match node_at w p with
           | Some (Fs.File _) =>
               match Fs.resolve (cwd w) p with
               | [] => (Raise (OSError "IsADirectoryError"), w)
               | _ :: _ => put_at p None w
               end
           | Some (Fs.Dir _) => (Raise (OSError "IsADirectoryError"), w)
           | None => (Raise (OSError "FileNotFoundError"), w)
           end.

(** [os.rmdir(p)]: removes an empty directory only. *)
Definition os_rmdir (p : string) : M unit :=
  fun w => match node_at w p with
           | Some (Fs.Dir []) =>
               match Fs.resolve (cwd w) p with
               | [] => (Raise (OSError "PermissionError"), w)
               | _ :: _ => put_at p None w
               end
           | Some (Fs.Dir (_ :: _)) => (Raise (OSError "Directory not empty"), w)
           | Some (Fs.File _) => (Raise (OSError "NotADirectoryError"), w)
           | None => (Raise (OSError "FileNotFoundError"), w)
           end.

(** [shutil.rmtree(p)] on a directory. *)
Definition shutil_rmtree (p : string) : M unit :=
  fun w => match node_at w p with
           | Some (Fs.Dir _) =>
               match Fs.resolve (cwd w) p with
               | [] => (Raise (OSError "PermissionError"), w)
               | _ :: _ => put_at p None w
               end
           | Some (Fs.File _) => (Raise (OSError "NotADirectoryError"), w)
           | None => (Raise (OSError "FileNotFoundError"), w)
           end.

(** [os.mkdir] along a resolved path, creating the missing directories
    from the top; [exist_ok] tells whether an existing leaf is accepted. *)
Fixpoint mkdirs_from (done todo : Fs.path) (exist_ok : bool) (r : Fs.node) : result Fs.node :=
  match todo with
  | [] => Ok r
  | x :: todo' =>
      let here := done ++ [x] in
      match Fs.lookup here r with
      | Some (Fs.Dir _) =>
          match todo' with
          | [] => if exist_ok then Ok r else Raise (OSError "FileExistsError")
          | _ :: _ => mkdirs_from here todo' exist_ok r
          end
      | Some (Fs.File _) =>
          match todo' with
          | [] => Raise (OSError "FileExistsError")
          | _ :: _ => Raise (OSError "NotADirectoryError")
          end
      | None => mkdirs_from here todo' exist_ok (Fs.put here (Some (Fs.Dir [])) r)
      end
  end.

Definition makedirs_path (p : Fs.path) (exist_ok : bool) : M unit :=
  fun w => match p with
           | [] => if exist_ok then (Ok tt, w) else (Raise (OSError "FileExistsError"), w)
           | _ :: _ =>
               match mkdirs_from [] p exist_ok (root w) with
               | Ok r => (Ok tt, World r (cwd w) (stderr w))
               | Raise e => (Raise e, w)
               end
           end.

(** [os.makedirs(p)]. *)
Definition os_makedirs (p : string) : M unit :=
  fun w => match p with
           | EmptyString => (Raise (OSError "FileNotFoundError"), w)
           | _ => makedirs_path (Fs.resolve (cwd w) p) false w
           end.

(** [open(p, 'w')] followed by writing [c]: creates or truncates the file. *)
Definition write_path (p : Fs.path) (c : Fs.content) : M unit :=
  fun w => match p with
           | [] => (Raise (OSError "IsADirectoryError"), w)
           | _ :: _ =>
               match Fs.lookup p (root w), Fs.lookup (removelast p) (root w) with
               | Some (Fs.Dir _), _ => (Raise (OSError "IsADirectoryError"), w)
               | _, Some (Fs.Dir _) =>
                   (Ok tt, World (Fs.put p (Some (Fs.File c)) (root w)) (cwd w) (stderr w))
               | _, Some (Fs.File _) => (Raise (OSError "NotADirectoryError"), w)
               | _, None => (Raise (OSError "FileNotFoundError"), w)
               end
           end.

Definition write_file (p : string) (c : Fs.content) : M unit :=
  fun w => match p with
           | EmptyString => (Raise (OSError "FileNotFoundError"), w)
           | _ => write_path (Fs.resolve (cwd w) p) c w
           end.

(** The lines of a text as iterating over a file opened in text mode
    yields them: each line ends where a line feed, a carriage return or a
    carriage return with its line feed ends it, and carries one line feed
    as its terminator.  [after_cr] tells that a carriage return has just
    ended a line. *)
Fixpoint lines_from (after_cr : bool) (cur : string) (s : string) : list string :=
  match s with
  | EmptyString => match cur with EmptyString => [] | _ => [cur] end
  | String c s' =>
      if Ascii.eqb c "010"
      then if after_cr then lines_from false cur s'
           else (cur +:+ String "010" EmptyString) :: lines_from false EmptyString s'
      else if Ascii.eqb c "013"
      then (cur +:+ String "010" EmptyString) :: lines_from true EmptyString s'
      else lines_from false (cur +:+ String c EmptyString) s'
  end.

(** [open(p)] and iteration over the lines. *)
Definition read_lines (p : string) : M (list string) :=
  fun w => match node_at w p with
           | Some (Fs.File (Fs.Text s)) => (Ok (lines_from false EmptyString s), w)
           | Some (Fs.File (Fs.Archive _)) => (Raise (ValueError "UnicodeDecodeError"), w)
           | Some (Fs.Dir _) => (Raise (OSError "IsADirectoryError"), w)
           | None => (Raise (OSError "FileNotFoundError"), w)
           end.

(** [os.getcwd()]. *)
Definition getcwd (w : world) : string := "/" +:+ Py.join "/" (cwd w).

(** [os.path.dirname] and [os.path.basename]. *)
Fixpoint rstrip_slash (s : string) : string :=
  match s with
  | EmptyString => EmptyString
  | String c s' =>
      match rstrip_slash s' with
      | EmptyString => if Ascii.eqb c "/" then EmptyString else String c EmptyString
      | r => String c r
      end
  end.

Definition split_head (p : string) : string :=
  match Py.split "/" p with
  | [] | [_] => EmptyString
  | fields => Py.join "/" (removelast fields) +:+ "/"
  end.

Definition os_path_dirname (p : string) : string :=
  let head := split_head p in
  match rstrip_slash head with
  | EmptyString => head          (* empty, or slashes only *)
  | stripped => stripped
  end.

Definition os_path_basename (p : string) : string :=
  List.last (Py.split "/" p) EmptyString.

(** [os.path.normpath]. *)
Fixpoint normpath_comps (absolute : bool) (acc comps : list string) : list string :=
  match comps with
  | [] => acc
  | c :: cs =>
      if String.eqb c "" || String.eqb c "." then normpath_comps absolute acc cs
      else if negb (String.eqb c "..")
              || (negb absolute && match acc with [] => true | _ => false end)
              || String.eqb (List.last acc "") ".."
           then normpath_comps absolute (acc ++ [c]) cs
           else normpath_comps absolute (removelast acc) cs
  end.

Definition os_path_normpath (p : string) : string :=
  match p with
  | EmptyString => "."
  | _ =>
      let slashes :=
        if String.prefix "/" p
        then if String.prefix "//" p && negb (String.prefix "///" p) then "//" else "/"
        else "" in
      let body := Py.join "/" (normpath_comps (String.prefix "/" p) [] (Py.split "/" p)) in
      match slashes +:+ body with
      | EmptyString => "."
      | r => r
      end
  end.

(** [os.path.relpath(p, start)]. *)
Fixpoint strip_common (a b : list string) : list string * list string :=
  match a, b with
  | x :: a', y :: b' => if String.eqb x y then strip_common a' b' else (a, b)
  | _, _ => (a, b)
  end.

Definition os_path_relpath (p start : string) : M string :=
  fun w =>
    match p with
    | EmptyString => (Raise (ValueError "no path specified"), w)
    | _ =>
        let '(up, down) := strip_common (Fs.resolve (cwd w) start) (Fs.resolve (cwd w) p) in
        match map (fun _ => "..") up ++ down with
        | [] => (Ok ".", w)
        | rel => (Ok (Py.join "/" rel), w)
        end
    end.

(** [os.walk(top)] as the list of the triples it yields, top-down, for a
    caller that does not change the tree while it iterates. *)
Fixpoint walk_node (top : string) (n : Fs.node) : list (string * list string * list string) :=
  match n with
  | Fs.File _ => []
  | Fs.Dir es =>
      (top, Fs.dir_names es, Fs.file_names es)
      :: (fix sub (l : list (string * Fs.node)) :=
            match l with
            | [] => []
            | (x, c) :: l' => walk_node (Py.os_path_join top x) c ++ sub l'
            end) es
  end.

Definition os_walk (top : string) : M (list (string * list string * list string)) :=
  fun w => match node_at w top with
           | Some n => (Ok (walk_node top n), w)
           | None => (Ok [], w)
           end.

(** [os.walk(top)] driving a loop body that may change the tree: the
    directory is listed, the body runs on the triple, and only then each
    listed sub-directory is walked, as it is by then; one that can no
    longer be listed is passed over.  [fuel] bounds the nesting depth. *)
Fixpoint walk_do (fuel : nat) (top : string)
    (body : string -> list string -> list string -> M unit) : M unit :=
  w <- get_world ;;
  match node_at w top with
  | Some (Fs.Dir es) =>
      match fuel with
      | O => raise (OSError "RecursionError")
      | S fuel' =>
          let dirs := Fs.dir_names es in
          body top dirs (Fs.file_names es) ;;
          for_each dirs (fun d => walk_do fuel' (Py.os_path_join top d) body)
      end
  | _ => ret tt
  end.

(** [zipfile.ZipFile(p)]: the members of the archive. *)
Definition ZipFile (p : string) : M (list (string * string)) :=
  fun w => match node_at w p with
           | Some (Fs.File (Fs.Archive ms)) => (Ok ms, w)
           | Some (Fs.File (Fs.Text _)) => (Raise (BadZipFile "File is not a zip file"), w)
           | Some (Fs.Dir _) => (Raise (OSError "IsADirectoryError"), w)
           | None => (Raise (OSError "FileNotFoundError"), w)
           end.

Definition ends_with_slash (s : string) : bool := String.eqb (Py.take_last 1 s) "/".

(** Extraction of one member below [target]: the member name loses its
    empty, [.] and [..] components, missing parent directories are made,
    a directory entry makes its directory, any other entry writes its
    file. *)
Definition extract_member (target : string) (m : string * string) : M unit :=
  w <- get_world ;;
  let arcname := filter (fun c => Fs.valid_name c) (Py.split "/" (fst m)) in
  let targetpath := Fs.resolve (cwd w) target ++ arcname in
  let upperdirs := removelast targetpath in
  match Fs.lookup upperdirs (root w) with
  | Some _ => ret tt
  | None => makedirs_path upperdirs false
  end ;;
  if ends_with_slash (fst m)
  then (w' <- get_world ;;
        if Fs.is_dir (Fs.lookup targetpath (root w')) then ret tt
        else makedirs_path targetpath false)
  else write_path targetpath (Fs.Text (snd m)).

(** [zip.extractall(target)]. *)
Definition extractall (members : list (string * string)) (target : string) : M unit :=
  for_each members (extract_member target).

(** [zip.extract(member, target)]; of several members of one name the
    archive answers with the last. *)
Definition extract (members : list (string * string)) (member target : string) : M unit :=
  match find (fun m => String.eqb (fst m) member) (rev members) with
  | Some m => extract_member target m
  | None => raise (KeyError ("There is no item named " +:+ member +:+ " in the archive"))
  end.

End Os.

(* ===================================================================== *)
(** * Regular expressions: [re.match] without groups *)
(* ===================================================================== *)

Module Re.

Inductive re : Type :=
| Void
| Eps
| Chr (p : ascii -> bool)
| Cat (r1 r2 : re)
| Alt (r1 r2 : re)
| Star (r : re).

Definition Plus (r : re) : re := Cat r (Star r).
Definition Opt (r : re) : re := Alt r Eps.
Definition Lit (c : ascii) : re := Chr (Ascii.eqb c).

Fixpoint Str (s : string) : re :=
  match s with
  | EmptyString => Eps
  | String c s' => Cat (Lit c) (Str s')
  end.

Fixpoint nullable (r : re) : bool :=
  match r with
  | Void => false
  | Eps => true
  | Chr _ => false
  | Cat r1 r2 => nullable r1 && nullable r2
  | Alt r1 r2 => nullable r1 || nullable r2
  | Star _ => true
  end.

(** Brzozowski derivative. *)
Fixpoint deriv (c : ascii) (r : re) : re :=
  match r with
  | Void => Void
  | Eps => Void
  | Chr p => if p c then Eps else Void
  | Cat r1 r2 =>
      if nullable r1 then Alt (Cat (deriv c r1) r2) (deriv c r2)
      else Cat (deriv c r1) r2
  | Alt r1 r2 => Alt (deriv c r1) (deriv c r2)
  | Star r1 => Cat (deriv c r1) (Star r1)
  end.

(** Does the whole string belong to the language of [r]? *)
Fixpoint fullmatch (r : re) (s : string) : bool :=
  match s with
  | EmptyString => nullable r
  | String c s' => fullmatch (deriv c r) s'
  end.

Definition is_digit (c : ascii) : bool :=
  Nat.leb 48 (nat_of_ascii c) && Nat.leb (nat_of_ascii c) 57.

(** [\w] on ASCII text. *)
Definition is_word (c : ascii) : bool :=
  is_digit c
  || (Nat.leb 65 (nat_of_ascii c) && Nat.leb (nat_of_ascii c) 90)
  || (Nat.leb 97 (nat_of_ascii c) && Nat.leb (nat_of_ascii c) 122)
  || Ascii.eqb c "_".

(** [.]: any character but a newline. *)
Definition is_dot (c : ascii) : bool := negb (Ascii.eqb c "010").

(** A pattern closed by [$] also matches just before a final newline. *)
Definition Dollar : re := Opt (Lit "010").

End Re.

(** [artifact_pattern]: a name of one character or more, a dash, a
    version, a dot and [jar] or [aar]; the version is three runs of digits
    joined by dots, then optionally a dash with word characters and
    digits, then any number of dash-led runs of digits and dots. *)
Definition artifact_pattern : Re.re :=
  let d := Re.Chr Re.is_digit in
  let dot := Re.Lit "." in
  let dash := Re.Lit "-" in
  Re.Cat (Re.Plus (Re.Chr Re.is_dot))
 (Re.Cat dash
 (Re.Cat (Re.Cat (Re.Plus d) (Re.Cat dot (Re.Cat (Re.Plus d) (Re.Cat dot
         (Re.Cat (Re.Plus d)
         (Re.Cat (Re.Opt (Re.Cat dash (Re.Cat (Re.Plus (Re.Chr Re.is_word)) (Re.Plus d))))
                 (Re.Star (Re.Cat dash
                    (Re.Plus (Re.Chr (fun c => Re.is_digit c || Ascii.eqb c ".")))))))))))
 (Re.Cat dot
 (Re.Cat (Re.Alt (Re.Str "jar") (Re.Str "aar"))
         Re.Dollar)))).

(* ===================================================================== *)
(** * What the script takes from outside *)
(* ===================================================================== *)

(** [distutils.version.LooseVersion] with its [>], [glob.glob],
    [shutil.move] and the [pom2bp] child process
    ([subprocess.check_call], which hands back what the child wrote to its
    standard output).  [version_gt] always answers; the library's [>]
    raises [TypeError] when a number is compared with a run of letters. *)
Class Platform : Type := {
  version_t : Type;
  LooseVersion : string -> version_t;
  version_gt : version_t -> version_t -> bool;
  glob_glob : string -> world -> list string;
  shutil_move : string -> string -> M unit;
  subprocess_check_call : list string -> string -> M string
}.

(* ===================================================================== *)
(** * The [pom2bp] argument list *)
(* ===================================================================== *)

Module Emit.
Import Config.

(** [sorted] on strings, by code points. *)
Fixpoint insert_sorted (x : string) (l : list string) : list string :=
  match l with
  | [] => [x]
  | y :: l' => if String.leb x y then x :: l else y :: insert_sorted x l'
  end.

Definition sorted (l : list string) : list string := fold_right insert_sorted [] l.

Fixpoint map_result {A B} (f : A -> result B) (l : list A) : result (list B) :=
  match l with
  | [] => Ok []
  | x :: l' =>
      match f x with
      | Raise e => Raise e
      | Ok y => match map_result f l' with
                | Raise e => Raise e
                | Ok ys => Ok (y :: ys)
                end
      end
  end.

(** [maven_to_make[key]['name']] and [maven_to_make[key]['path']]. *)
Definition entry_of (maven_to_make : dict make_entry) (key : string) : result make_entry :=
  match dict_get maven_to_make key with
  | Some e => Ok e
  | None => Raise (KeyError key)
  end.

Definition field {A} (fname : string) (v : option A) : result A :=
  match v with
  | Some a => Ok a
  | None => Raise (KeyError fname)
  end.

Definition name_of (maven_to_make : dict make_entry) (key : string) : result string :=
  match entry_of maven_to_make key with
  | Ok e => field "name" (name e)
  | Raise e => Raise e
  end.

Definition path_of (maven_to_make : dict make_entry) (key : string) : result string :=
  match entry_of maven_to_make key with
  | Ok e => field "path" (path e)
  | Raise e => Raise e
  end.

Definition rewriteNames (maven_to_make : dict make_entry) : list string :=
  sorted (filter (fun name => Py.contains ":" name) (dict_keys maven_to_make)
          ++ filter (fun name => negb (Py.contains ":" name)) (dict_keys maven_to_make)).

Definition rewrite_rule (key target : string) : string :=
  "-rewrite=^" +:+ key +:+ "$=" +:+ target.

Definition mapping_rewrites (maven_to_make : dict make_entry) : result (list string) :=
  map_result (fun name =>
                match name_of maven_to_make name with
                | Ok target => Ok (rewrite_rule name target)
                | Raise e => Raise e
                end)
             (rewriteNames maven_to_make).

Definition override_rewrites : list string :=
  map (fun kv => rewrite_rule (fst kv) (snd kv)) deps_rewrite.

Definition libs_args (flag : string) (sel : make_entry -> option (list string))
    (maven_to_make : dict make_entry) : result (list string) :=
  map_result (fun kv =>
                match field "name" (name (snd kv)), sel (snd kv) with
                | Ok target, Some libs =>
                    Ok (flag +:+ target +:+ "=" +:+ Py.join "," (sorted libs))
                | Raise e, _ => Raise e
                | _, None => Raise (KeyError flag)
                end)
             (filter (fun kv => match sel (snd kv) with Some _ => true | None => false end)
                     maven_to_make).

Definition flag_args (flag : string) (sel : make_entry -> option bool)
    (maven_to_make : dict make_entry) : list string :=
  map (fun kv => flag +:+ fst kv)
      (filter (fun kv => match sel (snd kv) with Some true => true | _ => false end)
              maven_to_make).

(** The list [args] built in [transform_maven_repos]. *)
Definition pom2bp_args (maven_to_make : dict make_entry) : result (list string) :=
  match mapping_rewrites maven_to_make with
  | Raise e => Raise e
  | Ok rewrites =>
      match libs_args "-extra-static-libs=" extra_static_libs maven_to_make with
      | Raise e => Raise e
      | Ok extra =>
          match libs_args "-optional-uses-libs=" optional_uses_libs maven_to_make with
          | Raise e => Raise e
          | Ok optional =>
              Ok (["pom2bp"; "-sdk-version"; "31"; "-default-min-sdk-version"; "24";
                   "-static-deps"]
                  ++ rewrites ++ override_rewrites ++ extra ++ optional
                  ++ flag_args "-host=" host maven_to_make
                  ++ flag_args "-host-and-device=" host_and_device maven_to_make
                  ++ ["."])
          end
      end
  end.

End Emit.

(* ===================================================================== *)
(** * Artifact discovery *)
(* ===================================================================== *)

Module Discovery.
Import Config.

Section WithPlatform.
Context {P : Platform}.

Record MavenLibraryInfo : Type := {
  key : string;
  group_id : string;
  artifact_id : string;
  version : version_t;
  dir : string;
  repo_dir : string;
  file : string
}.

(** [d[k] = v]: an existing key keeps its place, a new one goes last. *)
Fixpoint dict_set {V} (k : string) (v : V) (d : dict V) : dict V :=
  match d with
  | [] => [(k, v)]
  | (k', v') :: d' => if String.eqb k' k then (k', v) :: d' else (k', v') :: dict_set k v d'
  end.

(** One line of the POM, read with the fixed column markers. *)
Definition read_pom_line (fields : string * string * string) (line : string)
    : string * string * string :=
  let '(group_id, artifact_id, version) := fields in
  if String.eqb (Py.take 11 line) "  <groupId>"
  then (Py.slice_between 11 11 line, artifact_id, version)
  else if String.eqb (Py.take 14 line) "  <artifactId>"
  then (group_id, Py.slice_between 14 14 line, version)
  else if String.eqb (Py.take 11 line) "  <version>"
  then (group_id, artifact_id, Py.slice_between 11 11 line)
  else fields.

Definition read_pom (lines : list string) : string * string * string :=
  fold_left read_pom_line lines ("", "", "").

Definition pom_diagnostic (file : string) : string :=
  "Failed to find Maven artifact data in " +:+ file.

(** The mapping-table key of an artifact: the full coordinate first, then
    the bare artifact id. *)
Definition find_mapping (maven_to_make : dict make_entry) (group_id artifact_id : string)
    : option string :=
  let group_artifact := group_id +:+ ":" +:+ artifact_id in
  if dict_mem maven_to_make group_artifact then Some group_artifact
  else if dict_mem maven_to_make artifact_id then Some artifact_id
  else None.

(** The part of the loop body before "Store the latest version": the
    record for the POM [file] found in [root], or [None] where the body
    runs into one of its [continue] statements. *)
Definition resolve_pom (maven_to_make : dict make_entry) (repo_dir root file : string)
    : M (option MavenLibraryInfo) :=
  let file := Py.os_path_join root file in
  lines <- Os.read_lines file ;;
  let '(group_id, artifact_id, version) := read_pom lines in
  if String.eqb group_id "" || String.eqb artifact_id "" || String.eqb version ""
  then print_e (pom_diagnostic file) ;; ret None
  else
    let artifact_file := Py.drop_last 4 file in
    jar <- Os.os_path_exists (artifact_file +:+ ".jar") ;;
    located <-
      (if jar then ret (Some (artifact_file +:+ ".jar"))
       else aar <- Os.os_path_exists (artifact_file +:+ ".aar") ;;
            if aar then ret (Some (artifact_file +:+ ".aar")) else ret None) ;;
    match located with
    | None => ret None
    | Some artifact_file =>
        let artifact_file := Py.drop (String.length root + 1) artifact_file in
        match find_mapping maven_to_make group_id artifact_id with
        | None => ret None
        | Some key =>
            ret (Some {| key := key; group_id := group_id; artifact_id := artifact_id;
                         version := LooseVersion version;
                         dir := root; repo_dir := repo_dir; file := artifact_file |})
        end
    end.

(** "Store the latest version". *)
Definition store_latest (maven_lib_info : dict MavenLibraryInfo) (info : MavenLibraryInfo)
    : dict MavenLibraryInfo :=
  match dict_get maven_lib_info (key info) with
  | None => dict_set (key info) info maven_lib_info
  | Some stored =>
      if version_gt (version info) (version stored)
      then dict_set (key info) info maven_lib_info
      else maven_lib_info
  end.

Definition visit_file (maven_to_make : dict make_entry) (repo_dir root : string)
    (maven_lib_info : dict MavenLibraryInfo) (file : string) : M (dict MavenLibraryInfo) :=
  if String.eqb (Py.take_last 4 file) ".pom"
  then found <- resolve_pom maven_to_make repo_dir root file ;;
       match found with
       | Some info => ret (store_latest maven_lib_info info)
       | None => ret maven_lib_info
       end
  else ret maven_lib_info.

Definition detect_artifacts (maven_to_make : dict make_entry) (maven_repo_dirs : list string)
    : M (dict MavenLibraryInfo) :=
  fold_each maven_repo_dirs
    (fun maven_lib_info repo_dir =>
       triples <- Os.os_walk repo_dir ;;
       fold_each triples
         (fun maven_lib_info triple =>
            let '(root, _, files) := triple in
            fold_each files (visit_file maven_to_make repo_dir root) maven_lib_info)
         maven_lib_info)
    [].

End WithPlatform.
End Discovery.

(* ===================================================================== *)
(** * Archive transformation and the pipeline *)
(* ===================================================================== *)

Module Pipeline.
Import Config.

Section WithPlatform.
Context {P : Platform}.

Definition when (b : bool) (m : M unit) : M unit := if b then m else ret tt.

Definition rm (path : string) : M unit :=
  isdir <- Os.os_path_isdir path ;;
  if isdir then Os.shutil_rmtree path
  else ex <- Os.os_path_exists path ;; when ex (Os.os_remove path).

Definition mv (src_path dst_path : string) : M unit :=
  ex <- Os.os_path_exists dst_path ;;
  when ex (rm dst_path) ;;
  ex <- Os.os_path_exists (Os.os_path_dirname dst_path) ;;
  when (negb ex) (Os.os_makedirs (Os.os_path_dirname dst_path)) ;;
  w <- get_world ;;
  for_each (glob_glob src_path w)
    (fun f =>
       let dst :=
         if Py.contains "*" dst_path
         then Py.os_path_join (Os.os_path_dirname dst_path) (Os.os_path_basename f)
         else dst_path in
       shutil_move f dst).

(** The body of the loop over [os.walk(target_dir)] in [process_aar]. *)
Definition remove_empty_dirs (root : string) (dirs files : list string) : M unit :=
  for_each dirs
    (fun dir =>
       let dir_path := Py.os_path_join root dir in
       listing <- Os.os_listdir dir_path ;;
       match listing with
       | [] => Os.os_rmdir dir_path
       | _ :: _ => ret tt
       end).

Definition remove_cruft (target_dir : string) : M unit :=
  for_each blacklist_files
    (fun file =>
       let file_path := Py.os_path_join target_dir file in
       ex <- Os.os_path_exists file_path ;;
       when ex (Os.os_remove file_path)).

Definition process_aar (artifact_file target_dir : string) : M unit :=
  (* Extract AAR file to target_dir. *)
  zip <- Os.ZipFile artifact_file ;;
  Os.extractall zip target_dir ;;
  (* Remove classes.jar *)
  let classes_jar := Py.os_path_join target_dir "classes.jar" in
  ex <- Os.os_path_exists classes_jar ;;
  when ex (Os.os_remove classes_jar) ;;
  (* Remove or preserve empty dirs. *)
  w <- get_world ;;
  Os.walk_do (Fs.height (root w)) target_dir remove_empty_dirs ;;
  (* Remove top-level cruft. *)
  remove_cruft target_dir.

Definition temp_dir (w : world) : string := Py.os_path_join (Os.getcwd w) "support_tmp".

Definition transform_maven_lib (maven_to_make : dict make_entry) (working_dir : string)
    (artifact_info : Discovery.MavenLibraryInfo) (extract_res : bool) : M unit :=
  (* Move library into working dir *)
  rel <- Os.os_path_relpath (Discovery.dir artifact_info) (Discovery.repo_dir artifact_info) ;;
  let new_dir := Os.os_path_normpath (Py.os_path_join working_dir rel) in
  mv (Discovery.dir artifact_info) new_dir ;;
  (* matcher.group(2) fails on a file name the pattern rejects *)
  (if Re.fullmatch artifact_pattern (Discovery.file artifact_info) then ret tt
   else raise (AttributeError "'NoneType' object has no attribute 'group'")) ;;
  let maven_lib_type := Py.take_last 3 (Discovery.file artifact_info) in
  let group_artifact := Discovery.key artifact_info in
  make_lib_name <- lift_result (Emit.name_of maven_to_make group_artifact) ;;
  make_dir_name <- lift_result (Emit.path_of maven_to_make group_artifact) ;;
  let artifact_file := Py.os_path_join new_dir (Discovery.file artifact_info) in
  if String.eqb maven_lib_type "aar"
  then
    (if extract_res
     then
       let target_dir := Py.os_path_join working_dir make_dir_name in
       ex <- Os.os_path_exists target_dir ;;
       when (negb ex) (Os.os_makedirs target_dir) ;;
       process_aar artifact_file target_dir
     else ret tt) ;;
    zip <- Os.ZipFile artifact_file ;;
    let manifests_dir := Py.os_path_join working_dir "manifests" in
    Os.extract zip "AndroidManifest.xml" (Py.os_path_join manifests_dir make_lib_name)
  else ret tt.

Definition transform_maven_repos (maven_to_make : dict make_entry)
    (maven_repo_dirs : list string) (transformed_dir : string) (extract_res : bool)
    : M bool :=
  w <- get_world ;;
  let cwd := Os.getcwd w in
  let working_dir := temp_dir w in
  (* Parse artifacts. *)
  maven_lib_info <- Discovery.detect_artifacts maven_to_make maven_repo_dirs ;;
  match maven_lib_info with
  | [] => print_e "Failed to detect artifacts" ;; ret false
  | _ :: _ =>
      (* Move libraries into the working directory, performing any necessary
         transformations. *)
      for_each (map snd maven_lib_info)
        (fun info => transform_maven_lib maven_to_make working_dir info extract_res) ;;
      (* Generate a single Android.bp that specifies to use all of the above
         artifacts. *)
      let makefile := Py.os_path_join working_dir "Android.bp" in
      Os.write_file makefile (Fs.Text "") ;;
      args <- lift_result (Emit.pom2bp_args maven_to_make) ;;
      out <- subprocess_check_call args working_dir ;;
      Os.write_file makefile (Fs.Text out) ;;
      (* Replace the old directory. *)
      let local_repo := Py.os_path_join cwd transformed_dir in
      mv working_dir local_repo ;;
      ret true
  end.

End WithPlatform.
End Pipeline.

(* ===================================================================== *)
(** * Example platform and example worlds *)
(* ===================================================================== *)

Module Demo.

(** Versions made of digits and dots, compared as lists of numbers, which
    is what [LooseVersion] does on such strings. *)
Definition digit_value (c : ascii) : nat := nat_of_ascii c - 48.

Definition parse_nat (s : string) : nat :=
  fold_left (fun n c => 10 * n + digit_value c) (list_ascii_of_string s) 0.

Definition numeric_version (s : string) : list nat := map parse_nat (Py.split "." s).

Fixpoint list_gt (a b : list nat) : bool :=
  match a, b with
  | [], _ => false
  | _ :: _, [] => true
  | x :: a', y :: b' =>
      if Nat.ltb y x then true
      else if Nat.ltb x y then false
      else list_gt a' b'
  end.

(** [glob.glob] on a pattern without wildcard characters. *)
Definition plain_glob (p : string) (w : world) : list string :=
  if Os.path_exists w p then [p] else [].

(** [shutil.move] onto a destination that does not exist: a rename. *)
Definition rename (src dst : string) : M unit :=
  fun w =>
    match Os.node_at w src, Fs.resolve (cwd w) src with
    | Some n, _ :: _ =>
        let r := Fs.put (Fs.resolve (cwd w) src) None (root w) in
        (Ok tt, World (Fs.put (Fs.resolve (cwd w) dst) (Some n) r) (cwd w) (stderr w))
    | _, _ => (Raise (OSError "FileNotFoundError"), w)
    end.

(** A [pom2bp] that prints its own argument list. *)
Definition echo_args (args : list string) (dir : string) : M string :=
  ret (Py.join " " args).

#[local] Instance platform : Platform := {|
  version_t := list nat;
  LooseVersion := numeric_version;
  version_gt := list_gt;
  glob_glob := plain_glob;
  shutil_move := rename;
  subprocess_check_call := echo_args
|}.



Definition nl : string := String "010" "".

Definition pom_text (group_id artifact_id version : string) : string :=
  "<project>" +:+ nl
  +:+ "  <groupId>" +:+ group_id +:+ "</groupId>" +:+ nl
  +:+ "  <artifactId>" +:+ artifact_id +:+ "</artifactId>" +:+ nl
  +:+ "  <version>" +:+ version +:+ "</version>" +:+ nl
  +:+ "</project>" +:+ nl.

Definition lib_aar : Fs.content :=
  Fs.Archive [ ("AndroidManifest.xml", "<manifest/>");
               ("classes.jar", "PK");
               ("R.txt", "");
               ("res/", "");
               ("libs/noto-emoji-compat-java.jar", "PK");
               ("jni/arm/", "") ].

(** A local repository with [g:lib] in two versions (the older one ships
    both a jar and an aar) and a POM that lacks its [artifactId]. *)
Definition repo_world : world :=
  {| root := Fs.Dir
       [ ("gmaven", Fs.Dir
           [ ("g", Fs.Dir
               [ ("lib", Fs.Dir
                   [ ("1.0.0", Fs.Dir
                       [ ("lib-1.0.0.pom", Fs.File (Fs.Text (pom_text "g" "lib" "1.0.0")));
                         ("lib-1.0.0.jar", Fs.File (Fs.Text "PK"));
                         ("lib-1.0.0.aar", Fs.File lib_aar) ]);
                     ("1.2.0", Fs.Dir
                       [ ("lib-1.2.0.pom", Fs.File (Fs.Text (pom_text "g" "lib" "1.2.0")));
                         ("lib-1.2.0.aar", Fs.File lib_aar) ]) ]);
                 ("broken", Fs.Dir
                   [ ("broken-1.0.0.pom",
                      Fs.File (Fs.Text ("  <groupId>g</groupId>" +:+ nl
                                        +:+ "  <version>1.0.0</version>" +:+ nl)));
                     ("broken-1.0.0.jar", Fs.File (Fs.Text "PK")) ]) ]) ]) ];
     cwd := [];
     stderr := [] |}.

Definition table : Config.dict Config.make_entry :=
  Config.populate [ ("g:lib", Config.MakeEntry None None None None None None);
                    ("broken", Config.MakeEntry None None None None None None) ].

(** A working directory that holds one archive. *)
Definition aar_world : world :=
  {| root := Fs.Dir [ ("work", Fs.Dir [ ("lib.aar", Fs.File lib_aar) ]) ];
     cwd := [];
     stderr := [] |}.

Definition lib_aar_members : list (string * string) :=
  match lib_aar with Fs.Archive ms => ms | Fs.Text _ => [] end.

End Demo.

(* ===================================================================== *)
(** * The rest of the script: helpers, downloads and the update *)
(* ===================================================================== *)

Module Script.

(** ** What can end a call *)

(** Besides the exceptions above: the [TypeError] of [reduce] on an empty
    sequence, the [ParseError] of [xml.etree.ElementTree], and
    [SystemExit]. *)
Inductive signal : Type :=
| Exception (e : exn)
| TypeError (msg : string)
| ParseError (msg : string)
| SystemExit (code : nat).

Inductive outcome (A : Type) : Type :=
| Done (a : A)
| Raised (s : signal).
Arguments Done {A} a.
Arguments Raised {A} s.

(** ** Small helpers *)

(** [path], on the tuple of its arguments: [reduce] without an initial
    value raises on an empty sequence. *)
Definition path (path_parts : list string) : outcome string :=
  match path_parts with
  | [] => Raised (TypeError "reduce() of empty iterable with no initial value")
  | x :: rest => Done (fold_left (fun x y => Py.os_path_join x y) rest x)
  end.

(** [flatten(list)], on strings. *)
Definition flatten (list : list string) : outcome string :=
  match list with
  | [] => Raised (TypeError "reduce() of empty iterable with no initial value")
  | x :: rest => Done (fold_left (fun x y => x +:+ " " +:+ y) rest x)
  end.

(** [append(text, more_text)]; [text] may be [None]. *)
Definition append (text : option string) (more_text : string) : string :=
  match text with
  | Some t => if Py.truthy t then t +:+ ", " +:+ more_text else more_text
  | None => more_text
  end.

(** ** The process around the file system *)

(** What [print] writes: a line of text, or (for [print(artifacts)]) a
    list of objects, shown by their addresses. *)
Inductive printed : Type :=
| Line (s : string)
| Objects (artifacts : list GMaven.GMavenArtifact).

(** An XML element as [ElementTree] hands it out. *)
#[warnings="-register-all"]
Inductive element : Type :=
| Element (tag : string) (attrib : Config.dict string) (children : list element).

Definition tag (e : element) : string := match e with Element t _ _ => t end.
Definition attrib (e : element) : Config.dict string := match e with Element _ a _ => a end.
Definition children (e : element) : list element := match e with Element _ _ c => c end.

(** The world with standard output, the class attribute
    [GMavenArtifact.key_versions_map] and the state [N] of the network. *)
Record process (N : Type) : Type := Process {
  disk : world;
  stdout : list printed;
  key_versions_map : Config.dict string;
  net : N
}.
Arguments Process {N} disk stdout key_versions_map net.
Arguments disk {N} p.
Arguments stdout {N} p.
Arguments key_versions_map {N} p.
Arguments net {N} p.

(** What the rest of the script takes from outside: [urllib.request.urlopen]
    with the body it serves ([URLError] is an [OSError]),
    [ElementTree.parse], [shutil.copytree] and [shutil.copy], and the shell
    ([subprocess.check_call] with [shell=True], which hands back what
    the child wrote to its standard output). *)
Class Host : Type := {
  net_t : Type;
  urlopen : string -> net_t -> result Fs.content * net_t;
  ET_parse : Fs.content -> outcome element;
  shutil_copytree : string -> string -> M unit;
  shutil_copy : string -> string -> M unit;
  subprocess_shell : string -> M (list string)
}.

Section WithHost.
Context {P : Platform} {H : Host}.


(** *** The monad of the process *)

Definition IO (A : Type) : Type := process net_t -> outcome A * process net_t.

Definition io_ret {A} (a : A) : IO A := fun p => (Done a, p).
Definition io_raise {A} (s : signal) : IO A := fun p => (Raised s, p).
Definition io_bind {A B} (m : IO A) (k : A -> IO B) : IO B :=
  fun p => match m p with
           | (Done a, p') => k a p'
           | (Raised s, p') => (Raised s, p')
           end.

(** A step of the first part, run on the disk. *)
Definition on_disk {A} (m : M A) : IO A :=
  fun p => match m (disk p) with
           | (Ok a, w) => (Done a, Process w (stdout p) (key_versions_map p) (net p))
           | (Raise e, w) =>
               (Raised (Exception e), Process w (stdout p) (key_versions_map p) (net p))
           end.

(** A request to the network. *)
Definition request (url : string) : IO Fs.content :=
  fun p => match urlopen url (net p) with
           | (Ok c, n) => (Done c, Process (disk p) (stdout p) (key_versions_map p) n)
           | (Raise e, n) =>
               (Raised (Exception e), Process (disk p) (stdout p) (key_versions_map p) n)
           end.

(** An outcome computed without the process. *)
Definition io_lift {A} (o : outcome A) : IO A := fun p => (o, p).

Definition of_result {A} (r : result A) : outcome A :=
  match r with
  | Ok a => Done a
  | Raise e => Raised (Exception e)
  end.

Definition print (x : printed) : IO unit :=
  fun p => (Done tt, Process (disk p) (stdout p ++ [x]) (key_versions_map p) (net p)).

Definition get_versions : IO (Config.dict string) :=
  fun p => (Done (key_versions_map p), p).

Definition set_version (key value : string) : IO unit :=
  fun p => (Done tt, Process (disk p) (stdout p)
                       (Discovery.dict_set key value (key_versions_map p)) (net p)).

(** [try: m except: handler]; the handler sees what was raised. *)
Definition try_except {A} (m : IO A) (handler : signal -> IO A) : IO A :=
  fun p => match m p with
           | (Done a, p') => (Done a, p')
           | (Raised s, p') => handler s p'
           end.

End WithHost.

Declare Scope io_scope.
Delimit Scope io_scope with IO.
Notation "x <- m ;; k" := (io_bind m (fun x => k))
  (at level 100, m at next level, k at level 200, right associativity) : io_scope.
Notation "m ;; k" := (io_bind m (fun _ => k))
  (at level 100, k at level 200, right associativity) : io_scope.

Section WithHost.
Context {P : Platform} {H : Host}.
Local Open Scope io_scope.

Fixpoint io_for_each {A} (l : list A) (body : A -> IO unit) : IO unit :=
  match l with
  | [] => io_ret tt
  | x :: l' => body x ;; io_for_each l' body
  end.

(** A list comprehension whose element expression has effects. *)
Fixpoint io_map {A B} (f : A -> IO B) (l : list A) : IO (list B) :=
  match l with
  | [] => io_ret []
  | x :: l' => y <- f x ;; ys <- io_map f l' ;; io_ret (y :: ys)
  end.

(** ** [GMavenArtifact.get_latest_version] *)

Definition group_index_url (self : GMaven.GMavenArtifact) : string :=
  Config.GMAVEN_BASE_URL +:+ "/" +:+ GMaven.group_path self +:+ "/group-index.xml".

(** [root.findall('./*[@versions]')]. *)
Definition libraries_of (root : element) : list element :=
  filter (fun library => Config.dict_mem (attrib library) "versions") (children root).

(** [library.get('versions').split(',')[-1]]. *)
Definition last_version (library : element) : string :=
  match Config.dict_get (attrib library) "versions" with
  | Some versions => List.last (Py.split "," versions) ""
  | None => ""
  end.

Definition fetch_versions (self : GMaven.GMavenArtifact) : IO string :=
  print (Line ("Fetching latest version for " +:+ GMaven.key self)) ;;
  response <- request (group_index_url self) ;;
  root <- io_lift (ET_parse response) ;;
  io_for_each (libraries_of root)
    (fun library => set_version (tag root +:+ ":" +:+ tag library) (last_version library)) ;;
  versions <- get_versions ;;
  match Config.dict_get versions (GMaven.key self) with
  | Some latest_version => io_ret latest_version
  | None => io_raise (Exception (KeyError (GMaven.key self)))
  end.

Definition get_latest_version (self : GMaven.GMavenArtifact) : IO string :=
  versions <- get_versions ;;
  match Config.dict_get versions (GMaven.key self) with
  | Some latest_version =>
      if Py.truthy latest_version then io_ret latest_version else fetch_versions self
  | None => fetch_versions self
  end.

(** ** Downloads *)

Definition _DownloadFileToDisk (url filepath : string) : IO unit :=
  print (Line ("Downloading URL: " +:+ url)) ;;
  file_data <- request url ;;
  try_except (on_disk (Os.os_makedirs (Os.os_path_dirname filepath)))
    (fun s => match s with
              | Exception (OSError _) => io_ret tt
              | _ => io_raise s
              end) ;;
  try_except (on_disk (Os.write_file filepath file_data))
    (fun s => on_disk (Os.os_remove (Os.os_path_dirname filepath)) ;; io_raise s).

Definition file_name (artifact : GMaven.GMavenArtifact) (ext : string) : string :=
  GMaven.library artifact +:+ "-" +:+ GMaven.version artifact +:+ "." +:+ ext.

Definition download_dir (artifact : GMaven.GMavenArtifact) : string :=
  Py.os_path_join
    (Py.os_path_join (Py.os_path_join "gmaven" (GMaven.group artifact))
                     (GMaven.library artifact))
    (GMaven.version artifact).

Definition fetch_gmaven_artifact (artifact : GMaven.GMavenArtifact) : IO string :=
  let download_to := download_dir artifact in
  _DownloadFileToDisk (GMaven.get_pom_file_url artifact)
    (Py.os_path_join download_to (file_name artifact "pom")) ;;
  _DownloadFileToDisk (GMaven.get_artifact_url artifact)
    (Py.os_path_join download_to (file_name artifact (GMaven.ext artifact))) ;;
  io_ret download_to.

(** ** [update_gmaven] *)

Definition gmaven_dir : string := "gmaven".

(** [artifact.version = value]. *)
Definition with_version (artifact : GMaven.GMavenArtifact) (value : string)
    : GMaven.GMavenArtifact :=
  {| GMaven.group := GMaven.group artifact;
     GMaven.group_path := GMaven.group_path artifact;
     GMaven.library := GMaven.library artifact;
     GMaven.key := GMaven.key artifact;
     GMaven.version := value;
     GMaven.ext := GMaven.ext artifact |}.

Definition resolve_latest (artifact : GMaven.GMavenArtifact) : IO GMaven.GMavenArtifact :=
  if String.eqb (GMaven.version artifact) "latest"
  then latest <- get_latest_version artifact ;; io_ret (with_version artifact latest)
  else io_ret artifact.

Definition update_gmaven (maven_to_make : Config.dict Config.make_entry)
    (gmaven_artifacts : list string) : IO (list string) :=
  artifacts <- io_lift (of_result (Emit.map_result GMaven.init gmaven_artifacts)) ;;
  artifacts <- io_map resolve_latest artifacts ;;
  artifact_dirs <- io_map fetch_gmaven_artifact artifacts ;;
  print (Objects artifacts) ;;
  ok <- on_disk (Pipeline.transform_maven_repos maven_to_make ["gmaven"] gmaven_dir false) ;;
  if negb ok then io_ret []
  else io_ret (map GMaven.key artifacts).

(** ** [uncommittedChangesExist] *)

Definition check_call_shell (command : string) : IO unit :=
  out <- on_disk (subprocess_shell command) ;;
  io_for_each out (fun line => print (Line line)).

(** [git_dir], the working directory the script was started in. *)
Definition git_dir (w : world) : string := Os.getcwd w.

Definition diffCommand (w : world) : string :=
  "cd " +:+ git_dir w +:+ " && git diff --quiet".

Definition uncommittedChangesExist : IO bool :=
  fun p =>
    try_except
      (check_call_shell (diffCommand (disk p)) ;;
       check_call_shell (diffCommand (disk p) +:+ " --cached") ;;
       io_ret false)
      (fun s => match s with
                | Exception (CalledProcessError _) => io_ret true
                | _ => io_raise s
                end) p.

End WithHost.

End Script.

(* ===================================================================== *)
(** * An example host *)
(* ===================================================================== *)

Module DemoHost.
Import Script.

(** A repository that serves [g:lib] in version [1.2.0] and the index of
    the group [g]. *)
Definition index_xml : string := "<g><lib versions='1.0.0,1.2.0'/><doc/></g>".

Definition served : Config.dict Fs.content :=
  [ ("https://dl.google.com/dl/android/maven2/g/lib/1.2.0/lib-1.2.0.pom",
     Fs.Text (Demo.pom_text "g" "lib" "1.2.0"));
    ("https://dl.google.com/dl/android/maven2/g/lib/1.2.0/lib-1.2.0.aar", Demo.lib_aar);
    ("https://dl.google.com/dl/android/maven2/g/group-index.xml", Fs.Text index_xml) ].

(** The state of the network: the requests made so far. *)
Definition serve (url : string) (log : list string) : result Fs.content * list string :=
  (match Config.dict_get served url with
   | Some body => Ok body
   | None => Raise (OSError "HTTP Error 404: Not Found")
   end, log ++ [url]).

(** A parser that knows the one document. *)
Definition parse (body : Fs.content) : outcome element :=
  match body with
  | Fs.Text s =>
      if String.eqb s index_xml
      then Done (Element "g" []
                   [ Element "lib" [("versions", "1.0.0,1.2.0")] [];
                     Element "doc" [] [] ])
      else Raised (ParseError "syntax error")
  | Fs.Archive _ => Raised (ParseError "not well-formed")
  end.

(** [shutil.copytree] of a directory onto a path that does not exist, and
    [shutil.copy] of a file onto a file path. *)
Definition copytree (src dst : string) : M unit :=
  w <- get_world ;;
  match Os.node_at w src with
  | Some (Fs.Dir es) => Os.os_makedirs dst ;; Os.put_at dst (Some (Fs.Dir es))
  | Some (Fs.File _) => raise (OSError "NotADirectoryError")
  | None => raise (OSError "FileNotFoundError")
  end.

Definition copy (src dst : string) : M unit :=
  w <- get_world ;;
  match Os.node_at w src with
  | Some (Fs.File body) => Os.write_file dst body
  | Some (Fs.Dir _) => raise (OSError "IsADirectoryError")
  | None => raise (OSError "FileNotFoundError")
  end.

(** A work tree counts as changed while the file [CHANGED] is there. *)
Definition git_diff (command : string) : M (list string) :=
  ex <- Os.os_path_exists "CHANGED" ;;
  if ex then raise (CalledProcessError command) else ret [].

#[local] Instance host : Host := {|
  net_t := list string;
  urlopen := serve;
  ET_parse := parse;
  shutil_copytree := copytree;
  shutil_copy := copy;
  subprocess_shell := git_diff
|}.

Definition empty_disk : world := {| root := Fs.Dir []; cwd := []; stderr := [] |}.

Definition start : process (list string) :=
  Process empty_disk [] [] [].

Definition lib_latest : GMaven.GMavenArtifact :=
  {| GMaven.group := "g"; GMaven.group_path := "g"; GMaven.library := "lib";
     GMaven.key := "g:lib"; GMaven.version := "latest"; GMaven.ext := "aar" |}.

Definition lib_pinned : GMaven.GMavenArtifact :=
  {| GMaven.group := "g"; GMaven.group_path := "g"; GMaven.library := "lib";
     GMaven.key := "g:lib"; GMaven.version := "1.2.0"; GMaven.ext := "aar" |}.

End DemoHost.

(* ===================================================================== *)
(** * Properties of the string operations *)
(* ===================================================================== *)

Module PyFacts.

Lemma append_nil_r (s : string) : s +:+ "" = s.
Proof. induction s as [|c s IH]; simpl; [reflexivity | now rewrite IH]. Qed.

Lemma append_assoc (a b c : string) : (a +:+ b) +:+ c = a +:+ (b +:+ c).
Proof. induction a as [|x a IH]; simpl; [reflexivity | now rewrite IH]. Qed.

Lemma length_append (a b : string) :
  String.length (a +:+ b) = String.length a + String.length b.
Proof. induction a as [|x a IH]; simpl; [reflexivity | now rewrite IH]. Qed.

(** [replace] with one-character arguments substitutes character by
    character. *)
Lemma replace_char_spec (a b : ascii) (s : string) :
  Py.replace (String a "") (String b "") s = Py.subst_char a b s.
Proof.
  unfold Py.replace.
  induction s as [|c s IH]; simpl; [reflexivity|].
  destruct (ascii_dec a c) as [->|Hne].
  - rewrite Ascii.eqb_refl.
    replace (String.prefix "" s) with true by (now destruct s).
    simpl. now rewrite IH.
  - destruct (Ascii.eqb_spec c a) as [->|_]; [congruence|]. now rewrite IH.
Qed.

Lemma subst_char_length (a b : ascii) (s : string) :
  String.length (Py.subst_char a b s) = String.length s.
Proof. induction s as [|c s IH]; simpl; [reflexivity | now rewrite IH]. Qed.

Lemma subst_char_get (a b : ascii) (s : string) (i : nat) :
  String.get i (Py.subst_char a b s)
  = option_map (fun c => if Ascii.eqb c a then b else c) (String.get i s).
Proof.
  revert i. induction s as [|c s IH]; intros [|i]; simpl; auto.
Qed.

Lemma subst_char_clean (a b : ascii) (s : string) :
  a <> b -> Py.contains a (Py.subst_char a b s) = false.
Proof.
  intros Hab. induction s as [|c s IH]; simpl; [reflexivity|].
  rewrite IH, orb_false_r.
  destruct (Ascii.eqb_spec c a) as [->|Hc].
  - apply Ascii.eqb_neq. congruence.
  - now apply Ascii.eqb_neq.
Qed.

Lemma split_nonempty (sep : ascii) (s : string) : Py.split sep s <> [].
Proof.
  induction s as [|c s IH]; simpl; [discriminate|].
  destruct (Ascii.eqb c sep); [discriminate|].
  destruct (Py.split sep s); discriminate.
Qed.

(** Joining the fields with the separator gives the string back. *)
Lemma join_split (sep : ascii) (s : string) :
  Py.join (String sep "") (Py.split sep s) = s.
Proof.
  induction s as [|c s IH]; simpl; [reflexivity|].
  destruct (Ascii.eqb_spec c sep) as [->|Hc].
  - pose proof (split_nonempty sep s) as Hne.
    destruct (Py.split sep s) as [|f fs]; [congruence|].
    simpl. f_equal. exact IH.
  - pose proof (split_nonempty sep s) as Hne.
    destruct (Py.split sep s) as [|f fs]; [congruence|].
    destruct fs as [|f' fs]; simpl in *; now rewrite <- IH.
Qed.

(** No field holds the separator. *)
Lemma split_fields_clean (sep : ascii) (s f : string) :
  In f (Py.split sep s) -> Py.contains sep f = false.
Proof.
  revert f. induction s as [|c s IH]; simpl; intros f Hin.
  - destruct Hin as [<-|[]]. reflexivity.
  - destruct (Ascii.eqb_spec c sep) as [->|Hc].
    + destruct Hin as [<-|Hin]; [reflexivity | now apply IH].
    + pose proof (split_nonempty sep s) as Hne.
      destruct (Py.split sep s) as [|g gs]; [congruence|].
      destruct Hin as [<-|Hin].
      * simpl. rewrite (IH g (or_introl eq_refl)), orb_false_r.
        now apply Ascii.eqb_neq.
      * apply IH. now right.
Qed.

Lemma split_clean (sep : ascii) (s : string) :
  Py.contains sep s = false -> Py.split sep s = [s].
Proof.
  induction s as [|c s IH]; simpl; [reflexivity|].
  intros H. apply orb_false_iff in H as [Hc Hs].
  rewrite Hc, (IH Hs). reflexivity.
Qed.

Lemma split_app (sep : ascii) (a b : string) :
  Py.split sep (a +:+ String sep b) = Py.split sep a ++ Py.split sep b.
Proof.
  induction a as [|c a IH]; simpl.
  - now rewrite Ascii.eqb_refl.
  - destruct (Ascii.eqb c sep); [now rewrite IH|].
    rewrite IH.
    pose proof (split_nonempty sep a) as Hne.
    destruct (Py.split sep a); [congruence | reflexivity].
Qed.

Lemma split_subst (a b : ascii) (s : string) :
  Py.contains b s = false ->
  Py.split b (Py.subst_char a b s) = Py.split a s.
Proof.
  induction s as [|c s IH]; simpl; [reflexivity|].
  intros H. apply orb_false_iff in H as [Hc Hs]. rewrite (IH Hs).
  destruct (Ascii.eqb_spec c a) as [->|Hca].
  - now rewrite Ascii.eqb_refl.
  - now rewrite Hc.
Qed.

End PyFacts.

(* ===================================================================== *)
(** * Name and path derivation (mapping table) *)
(* ===================================================================== *)

Module ConfigFacts.
Import Config.

Lemma dict_get_populate (d : dict make_entry) (k : string) :
  dict_get (populate d) k = option_map (populate_entry k) (dict_get d k).
Proof.
  induction d as [|[k' e] d IH]; simpl; [reflexivity|].
  destruct (String.eqb_spec k' k) as [->|Hne]; [reflexivity | exact IH].
Qed.

Lemma name_for_artifact_spec (k : string) :
  name_for_artifact k = Py.subst_char ":" "_" k.
Proof. apply PyFacts.replace_char_spec. Qed.

Lemma path_for_artifact_spec (k : string) :
  path_for_artifact k = Py.subst_char ":" "/" (Py.subst_char "." "/" k).
Proof.
  unfold path_for_artifact. now rewrite !PyFacts.replace_char_spec.
Qed.

(** The derived name differs from the key only where the key has a colon,
    so every dot stays. *)
Lemma name_for_artifact_get (k : string) (i : nat) :
  String.get i (name_for_artifact k)
  = option_map (fun c => if Ascii.eqb c ":" then "_"%char else c) (String.get i k).
Proof. rewrite name_for_artifact_spec. apply PyFacts.subst_char_get. Qed.

Lemma path_for_artifact_get (k : string) (i : nat) :
  String.get i (path_for_artifact k)
  = option_map (fun c => if Ascii.eqb c "." || Ascii.eqb c ":" then "/"%char else c)
      (String.get i k).
Proof.
  rewrite path_for_artifact_spec, !PyFacts.subst_char_get.
  destruct (String.get i k) as [c|]; simpl; [|reflexivity].
  f_equal. destruct (Ascii.eqb_spec c ".") as [->|H1]; [reflexivity|].
  simpl. reflexivity.
Qed.

(** C10.  After the automatic entries are added, a key of the mapping
    table that declared no ['name'] is named by the key with each colon
    turned into an underscore, and one that declared no ['path'] has the
    key with each dot and each colon turned into a slash as its path; a
    declared name or path, and every other field, is kept as it was. *)
Theorem populate_derives_name_and_path
    (maven_to_make : dict make_entry) (key : string) (e : make_entry) :
  dict_get maven_to_make key = Some e ->
  exists e',
    dict_get (populate maven_to_make) key = Some e'
    /\ name e' = Some (match name e with
                       | Some declared => declared
                       | None => Py.subst_char ":" "_" key
                       end)
    /\ path e' = Some (match path e with
                       | Some declared => declared
                       | None => Py.subst_char ":" "/" (Py.subst_char "." "/" key)
                       end)
    /\ extra_static_libs e' = extra_static_libs e
    /\ optional_uses_libs e' = optional_uses_libs e
    /\ host e' = host e
    /\ host_and_device e' = host_and_device e.
Proof.
  intros Hget. exists (populate_entry key e).
  rewrite dict_get_populate, Hget. split; [reflexivity|].
  unfold populate_entry.
  rewrite <- name_for_artifact_spec, <- path_for_artifact_spec.
  destruct e as [[n|] [p|] x o h hd]; simpl; repeat split; reflexivity.
Qed.

Definition sample_table : dict make_entry :=
  [ ("androidx.core:core", MakeEntry None None None None None None);
    ("com.example:widget",
     MakeEntry (Some "widget-lib") (Some "com/example/widget") None None None None) ].

Lemma populate_derives_name_and_path_witness :
  exists e',
    dict_get (populate sample_table) "androidx.core:core" = Some e'
    /\ name e' = Some "androidx.core_core"
    /\ path e' = Some "androidx/core/core".
Proof.
  destruct (populate_derives_name_and_path sample_table "androidx.core:core"
              (MakeEntry None None None None None None) eq_refl)
    as (e' & Hget & Hname & Hpath & _).
  exists e'. repeat split; assumption.
Defined.

End ConfigFacts.

(* ===================================================================== *)
(** * GMaven coordinates *)
(* ===================================================================== *)

Module GMavenFacts.
Import GMaven.

Lemma truthy_false (s : string) : Py.truthy s = false <-> s = "".
Proof. destruct s; simpl; split; congruence. Qed.

Lemma init_ok_split (s : string) (a : GMavenArtifact) :
  init s = Ok a ->
  Py.split ":" s = [group a; library a; version a; ext a]
  /\ Py.truthy (group a) = true /\ Py.truthy (library a) = true
  /\ Py.truthy (version a) = true /\ Py.truthy (ext a) = true
  /\ group_path a = Py.subst_char "." "/" (group a)
  /\ key a = group a +:+ ":" +:+ library a.
Proof.
  unfold init.
  destruct (Py.split ":" s) as [|g [|l [|v [|e [|x r]]]]]; try discriminate.
  destruct (Py.truthy g) eqn:Hg, (Py.truthy l) eqn:Hl,
           (Py.truthy v) eqn:Hv, (Py.truthy e) eqn:He; simpl; try discriminate.
  intros [= <-]. simpl. rewrite PyFacts.replace_char_spec. repeat split; assumption.
Qed.

(** C7.  Construction of a coordinate from its spec string raises exactly
    when the string does not have four colon-separated fields or one of
    the fields is empty; otherwise the coordinate carries the four fields
    of the string, unchanged and in order. *)
Theorem init_fails_iff (artifact_glob : string) :
  (raises (init artifact_glob)
   <-> (length (Py.split ":" artifact_glob) <> 4 \/ In "" (Py.split ":" artifact_glob)))
  /\ (forall a, init artifact_glob = Ok a ->
        Py.split ":" artifact_glob = [group a; library a; version a; ext a]
        /\ artifact_glob
           = group a +:+ ":" +:+ library a +:+ ":" +:+ version a +:+ ":" +:+ ext a).
Proof.
  split.
  - unfold init.
    destruct (Py.split ":" artifact_glob) as [|g [|l [|v [|e [|x r]]]]]; simpl;
      try (split; [intros _; left; lia | intros _; exact I]).
    destruct g, l, v, e; simpl; split; intros H;
      try exact I; try (right; tauto); try contradiction;
      try (destruct H as [H|H]; [lia | intuition discriminate]).
  - intros a Ha. destruct (init_ok_split _ _ Ha) as (Hsplit & _).
    split; [exact Hsplit|].
    rewrite <- (PyFacts.join_split ":" artifact_glob) at 1. rewrite Hsplit. reflexivity.
Qed.

Lemma init_fails_iff_witness :
  exists a, init "androidx.core:core:1.2.0:aar" = Ok a
            /\ Py.split ":" "androidx.core:core:1.2.0:aar"
               = [group a; library a; version a; ext a].
Proof.
  eexists. split; [reflexivity|].
  apply (proj2 (init_fails_iff "androidx.core:core:1.2.0:aar")). reflexivity.
Defined.

(** The path of a URL below the base URL, cut at the slashes. *)
Definition url_segments (url : string) : list string :=
  Py.split "/" (Py.drop (String.length Config.GMAVEN_BASE_URL) url).

Lemma drop_append (a b : string) : Py.drop (String.length a) (a +:+ b) = b.
Proof. induction a as [|c a IH]; simpl; [now destruct b | exact IH]. Qed.

Lemma contains_append (c : ascii) (a b : string) :
  Py.contains c (a +:+ b) = Py.contains c a || Py.contains c b.
Proof.
  induction a as [|x a IH]; simpl; [reflexivity|]. now rewrite IH, orb_assoc.
Qed.

Lemma segments_of (gp l v f : string) (gs : list string) :
  Py.split "/" gp = gs ->
  Py.contains "/" l = false -> Py.contains "/" v = false -> Py.contains "/" f = false ->
  url_segments (Config.GMAVEN_BASE_URL +:+ "/" +:+ gp +:+ "/" +:+ l +:+ "/" +:+ v
                +:+ "/" +:+ f)
  = "" :: gs ++ [l; v; f].
Proof.
  intros Hg Hl Hv Hf. unfold url_segments. rewrite drop_append.
  change ("/" +:+ gp +:+ "/" +:+ l +:+ "/" +:+ v +:+ "/" +:+ f)
    with ("" +:+ String "/" (gp +:+ String "/" (l +:+ String "/" (v +:+ String "/" f)))).
  rewrite !PyFacts.split_app, Hg.
  rewrite (PyFacts.split_clean _ _ Hl), (PyFacts.split_clean _ _ Hv),
          (PyFacts.split_clean _ _ Hf).
  reflexivity.
Qed.

(** C9.  For a coordinate built from a spec string, both URLs are the base
    URL followed by the group with each dot turned into a slash, the
    library, the version and the file name [library-version.pom]
    (respectively [library-version.ext]).  When no field holds a slash, the
    path segments below the base URL are therefore the dot-separated parts
    of the group, then the library, then the version, then the file
    name: each in its place, once. *)
Theorem urls_have_expected_shape (artifact_glob : string) (a : GMavenArtifact) :
  init artifact_glob = Ok a ->
  let pom_name := library a +:+ "-" +:+ version a +:+ ".pom" in
  let artifact_name := library a +:+ "-" +:+ version a +:+ "." +:+ ext a in
  get_pom_file_url a
  = Config.GMAVEN_BASE_URL +:+ "/" +:+ Py.subst_char "." "/" (group a) +:+ "/"
      +:+ library a +:+ "/" +:+ version a +:+ "/" +:+ pom_name
  /\ get_artifact_url a
     = Config.GMAVEN_BASE_URL +:+ "/" +:+ Py.subst_char "." "/" (group a) +:+ "/"
         +:+ library a +:+ "/" +:+ version a +:+ "/" +:+ artifact_name
  /\ (Py.contains "/" (group a) = false -> Py.contains "/" (library a) = false ->
      Py.contains "/" (version a) = false -> Py.contains "/" (ext a) = false ->
      url_segments (get_pom_file_url a)
      = "" :: Py.split "." (group a) ++ [library a; version a; pom_name]
      /\ url_segments (get_artifact_url a)
         = "" :: Py.split "." (group a) ++ [library a; version a; artifact_name]).
Proof.
  intros Ha pom_name artifact_name.
  destruct (init_ok_split _ _ Ha) as (_ & _ & _ & _ & _ & Hgp & _).
  unfold get_pom_file_url, get_artifact_url. rewrite Hgp.
  split; [reflexivity|]. split; [reflexivity|].
  intros Hg Hl Hv He.
  assert (Hsplit : Py.split "/" (Py.subst_char "." "/" (group a)) = Py.split "." (group a))
    by (now apply PyFacts.split_subst).
  split; apply segments_of; try assumption; subst pom_name artifact_name;
    rewrite !contains_append; simpl; rewrite ?Hl, ?Hv, ?He; reflexivity.
Qed.

Lemma urls_have_expected_shape_witness :
  exists a,
    init "androidx.core:core:1.2.0:aar" = Ok a
    /\ get_pom_file_url a
       = "https://dl.google.com/dl/android/maven2/androidx/core/core/1.2.0/core-1.2.0.pom"
    /\ url_segments (get_artifact_url a)
       = [""; "androidx"; "core"; "core"; "1.2.0"; "core-1.2.0.aar"].
Proof.
  eexists. split; [reflexivity|].
  pose proof (urls_have_expected_shape "androidx.core:core:1.2.0:aar" _ eq_refl)
    as (Hpom & _ & Hseg).
  split; [exact Hpom|].
  exact (proj2 (Hseg eq_refl eq_refl eq_refl eq_refl)).
Defined.

End GMavenFacts.

(* ===================================================================== *)
(** * Order of the rewrite rules *)
(* ===================================================================== *)

Module EmitFacts.
Import Config Emit.


Lemma insert_sorted_perm (x : string) (l : list string) :
  Permutation (x :: l) (insert_sorted x l).
Proof.
  induction l as [|y l IH]; simpl; [reflexivity|].
  destruct (String.leb x y); [reflexivity|].
  rewrite perm_swap. now constructor.
Qed.

Lemma sorted_perm (l : list string) : Permutation l (sorted l).
Proof.
  induction l as [|x l IH]; simpl; [constructor|].
  rewrite <- insert_sorted_perm. now constructor.
Qed.




(** Splitting the keys by the colon and concatenating loses no key. *)
Lemma partition_perm (f : string -> bool) (l : list string) :
  Permutation (filter f l ++ filter (fun x => negb (f x)) l) l.
Proof.
  induction l as [|x l IH]; simpl; [constructor|].
  destruct (f x); simpl; [now constructor|].
  rewrite <- Permutation_middle. now constructor.
Qed.

Lemma rewriteNames_perm (tbl : dict make_entry) :
  Permutation (rewriteNames tbl) (dict_keys tbl).
Proof.
  unfold rewriteNames. rewrite <- sorted_perm. apply partition_perm.
Qed.


Lemma map_result_ok {A B} (f : A -> result B) (l : list A) :
  (forall x, In x l -> exists y, f x = Ok y) ->
  exists ys, map_result f l = Ok ys /\ Forall2 (fun x y => f x = Ok y) l ys.
Proof.
  induction l as [|x l IH]; simpl; intros H.
  - exists []. split; [reflexivity | constructor].
  - destruct (H x (or_introl eq_refl)) as [y Hy].
    destruct IH as (ys & Hys & Hall); [intros; apply H; now right|].
    exists (y :: ys). rewrite Hy, Hys. split; [reflexivity|].
    constructor; assumption.
Qed.







End EmitFacts.

(* ===================================================================== *)
(** * Discovery *)
(* ===================================================================== *)

Module DiscoveryFacts.
Import Config Discovery.

Section WithPlatform.
Context {P : Platform}.

(** ** Dictionary updates *)

Lemma dict_get_set {V} (k k' : string) (v : V) (d : dict V) :
  dict_get (dict_set k v d) k' = if String.eqb k k' then Some v else dict_get d k'.
Proof.
  induction d as [|[k0 v0] d IH]; simpl.
  - reflexivity.
  - destruct (String.eqb_spec k0 k) as [->|Hne]; simpl.
    + destruct (String.eqb_spec k k'); reflexivity.
    + rewrite IH. destruct (String.eqb_spec k0 k') as [->|Hne'].
      * destruct (String.eqb_spec k k'); [congruence | reflexivity].
      * reflexivity.
Qed.

Lemma dict_keys_set {V} (k : string) (v : V) (d : dict V) :
  dict_keys (dict_set k v d)
  = if dict_mem d k then dict_keys d else dict_keys d ++ [k].
Proof.
  unfold dict_mem.
  induction d as [|[k0 v0] d IH]; simpl; [reflexivity|].
  destruct (String.eqb_spec k0 k) as [->|Hne]; simpl; [reflexivity|].
  rewrite IH. destruct (dict_get d k); reflexivity.
Qed.

Lemma dict_get_in_keys {V} (k : string) (d : dict V) :
  dict_get d k = None -> ~ In k (dict_keys d).
Proof.
  induction d as [|[k0 v0] d IH]; simpl; [tauto|].
  destruct (String.eqb_spec k0 k) as [->|Hne]; [discriminate|].
  intros H [Heq|Hin]; [congruence | now apply IH].
Qed.

Lemma dict_set_nodup {V} (k : string) (v : V) (d : dict V) :
  NoDup (dict_keys d) -> NoDup (dict_keys (dict_set k v d)).
Proof.
  intros Hnd. rewrite dict_keys_set. unfold dict_mem.
  destruct (dict_get d k) eqn:Hget; [exact Hnd|].
  apply NoDup_app; repeat split; [exact Hnd | repeat constructor; simpl; tauto |].
  intros x Hx [<-|[]]. now apply (dict_get_in_keys _ _ Hget).
Qed.

(** ** The candidates in visit order *)





Definition stored (seen : list MavenLibraryInfo) : dict MavenLibraryInfo :=
  fold_left store_latest seen [].




(** ** The [continue] statements of the loop body *)

Definition with_diagnostic (w : world) (line : string) : world :=
  World (root w) (cwd w) (stderr w ++ [line]).

Lemma resolve_pom_incomplete (tbl : dict make_entry) (repo_dir root file : string)
    (w : world) (lines : list string) (g a v : string) :
  Os.read_lines (Py.os_path_join root file) w = (Ok lines, w) ->
  read_pom lines = (g, a, v) ->
  g = "" \/ a = "" \/ v = "" ->
  resolve_pom tbl repo_dir root file w
  = (Ok None, with_diagnostic w (pom_diagnostic (Py.os_path_join root file))).
Proof.
  intros Hread Hpom Hempty. unfold resolve_pom, bind. rewrite Hread, Hpom.
  assert (Hcond : String.eqb g "" || String.eqb a "" || String.eqb v "" = true).
  { destruct Hempty as [-> | [-> | ->]]; simpl; rewrite ?orb_true_r; reflexivity. }
  rewrite Hcond. reflexivity.
Qed.

(** A line carries a marker when it starts with it. *)
Definition marked (marker line : string) : bool :=
  String.eqb (Py.take (String.length marker) line) marker.

Definition lacks (marker : string) (lines : list string) : Prop :=
  forall line, In line lines -> marked marker line = false.

Lemma read_pom_lacks (lines : list string) :
  (lacks "  <groupId>" lines -> fst (fst (read_pom lines)) = "")
  /\ (lacks "  <artifactId>" lines -> snd (fst (read_pom lines)) = "")
  /\ (lacks "  <version>" lines -> snd (read_pom lines) = "").
Proof.
  unfold read_pom.
  assert (H : forall acc,
    (lacks "  <groupId>" lines ->
       fst (fst (fold_left read_pom_line lines acc)) = fst (fst acc))
    /\ (lacks "  <artifactId>" lines ->
       snd (fst (fold_left read_pom_line lines acc)) = snd (fst acc))
    /\ (lacks "  <version>" lines ->
       snd (fold_left read_pom_line lines acc) = snd acc)).
  { induction lines as [|l lines IH]; intros acc; [simpl; auto|].
    cbn [fold_left].
    assert (Hl : forall m, lacks m (l :: lines) -> marked m l = false /\ lacks m lines).
    { intros m Hm. split; [apply Hm; now left | intros x Hx; apply Hm; now right]. }
    destruct (IH (read_pom_line acc l)) as (I1 & I2 & I3).
    destruct acc as [[g a] v].
    repeat split; intros Hm; apply Hl in Hm as [Hm Hrest].
    - change (String.eqb (Py.take 11 l) "  <groupId>" = false) in Hm.
      rewrite (I1 Hrest). unfold read_pom_line. rewrite Hm.
      destruct (String.eqb (Py.take 14 l) "  <artifactId>"); [reflexivity|].
      destruct (String.eqb (Py.take 11 l) "  <version>"); reflexivity.
    - change (String.eqb (Py.take 14 l) "  <artifactId>" = false) in Hm.
      rewrite (I2 Hrest). unfold read_pom_line. rewrite Hm.
      destruct (String.eqb (Py.take 11 l) "  <groupId>"); [reflexivity|].
      destruct (String.eqb (Py.take 11 l) "  <version>"); reflexivity.
    - change (String.eqb (Py.take 11 l) "  <version>" = false) in Hm.
      rewrite (I3 Hrest). unfold read_pom_line. rewrite Hm.
      destruct (String.eqb (Py.take 11 l) "  <groupId>"); [reflexivity|].
      destruct (String.eqb (Py.take 14 l) "  <artifactId>"); reflexivity. }
  apply (H ("", "", "")).
Qed.

(** C6.  A POM file in which the line of one of the three fields is not
    found makes the loop print its diagnostic, leaves [maven_lib_info] as
    it was, and goes on with the files that follow: nothing is raised. *)
Theorem incomplete_pom_is_skipped (maven_to_make : dict make_entry)
    (repo_dir root file : string) (rest : list string)
    (maven_lib_info : dict MavenLibraryInfo) (w : world) (lines : list string) :
  Py.take_last 4 file = ".pom" ->
  Os.read_lines (Py.os_path_join root file) w = (Ok lines, w) ->
  lacks "  <groupId>" lines \/ lacks "  <artifactId>" lines \/ lacks "  <version>" lines ->
  let w' := with_diagnostic w (pom_diagnostic (Py.os_path_join root file)) in
  visit_file maven_to_make repo_dir root maven_lib_info file w = (Ok maven_lib_info, w')
  /\ fold_each (file :: rest) (visit_file maven_to_make repo_dir root) maven_lib_info w
     = fold_each rest (visit_file maven_to_make repo_dir root) maven_lib_info w'.
Proof.
  intros Hpom Hread Hlacks w'.
  assert (Hvisit :
    visit_file maven_to_make repo_dir root maven_lib_info file w = (Ok maven_lib_info, w')).
  { unfold visit_file, bind. rewrite Hpom. simpl.
    destruct (read_pom lines) as [[g a] v] eqn:Hfields.
    rewrite (resolve_pom_incomplete _ _ _ _ _ lines g a v Hread Hfields); [reflexivity|].
    destruct (read_pom_lacks lines) as (H1 & H2 & H3). rewrite Hfields in *. simpl in *.
    destruct Hlacks as [H|[H|H]]; auto. }
  split; [exact Hvisit|].
  simpl. unfold bind. now rewrite Hvisit.
Qed.

(** C4 (as the code has it).  For a POM with its three fields, the payload
    is the sibling with the [.jar] extension when there is one, else the
    sibling with the [.aar] extension; when there is neither, the file is
    passed over: nothing is printed and [maven_lib_info] stays as it
    was. *)
Theorem payload_is_jar_then_aar (maven_to_make : dict make_entry)
    (repo_dir root file : string) (w : world) (lines : list string) (g a v : string) :
  Os.read_lines (Py.os_path_join root file) w = (Ok lines, w) ->
  read_pom lines = (g, a, v) ->
  g <> "" -> a <> "" -> v <> "" ->
  let stem := Py.drop_last 4 (Py.os_path_join root file) in
  let payload :=
    if Os.path_exists w (stem +:+ ".jar") then Some (stem +:+ ".jar")
    else if Os.path_exists w (stem +:+ ".aar") then Some (stem +:+ ".aar")
    else None in
  resolve_pom maven_to_make repo_dir root file w
  = (Ok match payload, find_mapping maven_to_make g a with
        | Some artifact_file, Some k =>
            Some {| key := k; group_id := g; artifact_id := a;
                    version := LooseVersion v; dir := root; repo_dir := repo_dir;
                    file := Py.drop (String.length root + 1) artifact_file |}
        | _, _ => None
        end, w)
  /\ (payload = None ->
      forall maven_lib_info,
        visit_file maven_to_make repo_dir root maven_lib_info file w
        = (Ok maven_lib_info, w)).
Proof.
  intros Hread Hpom Hg Ha Hv stem payload.
  assert (Hres : resolve_pom maven_to_make repo_dir root file w
    = (Ok match payload, find_mapping maven_to_make g a with
          | Some artifact_file, Some k =>
              Some {| key := k; group_id := g; artifact_id := a;
                      version := LooseVersion v; dir := root; repo_dir := repo_dir;
                      file := Py.drop (String.length root + 1) artifact_file |}
          | _, _ => None
          end, w)).
  { unfold resolve_pom, bind. rewrite Hread, Hpom.
    apply String.eqb_neq in Hg, Ha, Hv. rewrite Hg, Ha, Hv. simpl.
    unfold Os.os_path_exists. subst payload stem.
    destruct (Os.path_exists w (Py.drop_last 4 (Py.os_path_join root file) +:+ ".jar")).
    - simpl. destruct (find_mapping maven_to_make g a); reflexivity.
    - destruct (Os.path_exists w (Py.drop_last 4 (Py.os_path_join root file) +:+ ".aar")).
      + simpl. destruct (find_mapping maven_to_make g a); reflexivity.
      + reflexivity. }
  split; [exact Hres|].
  intros Hnone info. unfold visit_file.
  destruct (String.eqb (Py.take_last 4 file) ".pom"); [|reflexivity].
  unfold bind. rewrite Hres, Hnone. reflexivity.
Qed.

(** ** What [store_latest] keeps *)







Section Ordered.
(** [>] on versions is a strict weak order: it is asymmetric, and an
    element that is not below [a] and not above [b] cannot sit between
    them. *)
Hypothesis gt_asym : forall a b : version_t,
  version_gt a b = true -> version_gt b a = false.
Hypothesis gt_cotrans : forall a b c : version_t,
  version_gt a b = true -> version_gt a c = true \/ version_gt c b = true.







End Ordered.
End WithPlatform.

(** ** The example repository *)

#[local] Existing Instance Demo.platform.


Lemma incomplete_pom_is_skipped_witness :
  visit_file Demo.table "gmaven" "gmaven/g/broken" [] "broken-1.0.0.pom" Demo.repo_world
  = (Ok [], with_diagnostic Demo.repo_world
              "Failed to find Maven artifact data in gmaven/g/broken/broken-1.0.0.pom").
Proof.
  refine (proj1 (incomplete_pom_is_skipped Demo.table "gmaven" "gmaven/g/broken"
                   "broken-1.0.0.pom" [] [] Demo.repo_world _ eq_refl eq_refl _)).
  right; left. intros line Hin. vm_compute in Hin.
  destruct Hin as [<-|[<-|[]]]; reflexivity.
Defined.

Lemma payload_is_jar_then_aar_witness :
  exists info,
    resolve_pom Demo.table "gmaven" "gmaven/g/lib/1.0.0" "lib-1.0.0.pom" Demo.repo_world
    = (Ok (Some info), Demo.repo_world)
    /\ file info = "lib-1.0.0.jar".
Proof.
  destruct (payload_is_jar_then_aar Demo.table "gmaven" "gmaven/g/lib/1.0.0"
              "lib-1.0.0.pom" Demo.repo_world _ "g" "lib" "1.0.0" eq_refl eq_refl)
    as [Hres _]; try discriminate.
  eexists. split.
  - etransitivity; [exact Hres | vm_compute; reflexivity].
  - reflexivity.
Defined.

(** Both siblings of [lib-1.0.0.pom] exist, and the jar is taken. *)
Lemma payload_order_counterexample :
  Os.path_exists Demo.repo_world "gmaven/g/lib/1.0.0/lib-1.0.0.aar" = true
  /\ Os.path_exists Demo.repo_world "gmaven/g/lib/1.0.0/lib-1.0.0.jar" = true
  /\ exists info,
       fst (detect_artifacts Demo.table ["gmaven/g/lib/1.0.0"] Demo.repo_world)
       = Ok [("g:lib", info)]
       /\ file info = "lib-1.0.0.jar"
       /\ file info <> "lib-1.0.0.aar".
Proof.
  split; [reflexivity|]. split; [reflexivity|].
  eexists. split; [vm_compute; reflexivity|]. split; [reflexivity | discriminate].
Qed.

End DiscoveryFacts.
(* ===================================================================== *)
(** * Properties of the file system *)
(* ===================================================================== *)

Module FsFacts.
Import Fs.

Lemma entry_get_put (x y : string) (v : node) (es : list (string * node)) :
  entry_get x (entry_put y v es) = if String.eqb y x then Some v else entry_get x es.
Proof.
  induction es as [|[z n] es IH]; simpl.
  - reflexivity.
  - destruct (String.eqb_spec z y) as [->|Hzy]; simpl.
    + destruct (String.eqb_spec y x); reflexivity.
    + rewrite IH. destruct (String.eqb_spec z x) as [->|Hzx].
      * destruct (String.eqb_spec y x); [congruence | reflexivity].
      * reflexivity.
Qed.

Lemma entry_get_del (x y : string) (es : list (string * node)) :
  entry_get x (entry_del y es) = if String.eqb y x then None else entry_get x es.
Proof.
  induction es as [|[z n] es IH]; simpl.
  - now destruct (String.eqb y x).
  - destruct (String.eqb_spec z y) as [->|Hzy]; simpl.
    + rewrite IH. destruct (String.eqb_spec y x); reflexivity.
    + rewrite IH. destruct (String.eqb_spec z x) as [->|Hzx].
      * destruct (String.eqb_spec y x); [congruence | reflexivity].
      * reflexivity.
Qed.

Lemma lookup_app (p q : path) (n : node) :
  lookup (p ++ q) n = match lookup p n with Some c => lookup q c | None => None end.
Proof.
  revert n. induction p as [|x p IH]; intros n; simpl; [reflexivity|].
  destruct n as [c|es]; [reflexivity|].
  destruct (entry_get x es); [apply IH | reflexivity].
Qed.

Lemma lookup_snoc (p : path) (x : string) (n : node) (es : list (string * node)) :
  lookup p n = Some (Dir es) -> lookup (p ++ [x]) n = entry_get x es.
Proof.
  intros H. rewrite lookup_app, H. simpl. now destruct (entry_get x es).
Qed.

(** One path is an initial part of another. *)
Definition prefix_of (p q : path) : Prop := exists r, q = p ++ r.

Definition apart (p q : path) : Prop := ~ prefix_of p q /\ ~ prefix_of q p.

Lemma apart_cons (x : string) (p q : path) : apart (x :: p) (x :: q) -> apart p q.
Proof.
  intros [H1 H2]. split; intros [r ->]; [apply H1 | apply H2]; exists r; reflexivity.
Qed.

(** What [put] leaves alone. *)
Lemma lookup_put_apart (a q : path) (v : option node) (n : node) :
  apart a q -> lookup q (put a v n) = lookup q n.
Proof.
  revert q n. induction a as [|x a IH]; intros q n Hap; [reflexivity|].
  destruct q as [|y q]; [destruct Hap as [_ H]; destruct H; now exists (x :: a)|].
  destruct n as [c|es]; [reflexivity|]. simpl.
  destruct a as [|x' a].
  - assert (Hxy : x <> y).
    { intros ->. destruct Hap as [H _]. apply H. now exists q. }
    destruct v as [c|]; simpl.
    + rewrite entry_get_put. now destruct (String.eqb_spec x y).
    + rewrite entry_get_del. now destruct (String.eqb_spec x y).
  - destruct (entry_get x es) as [c|] eqn:Hx; [|reflexivity].
    simpl. rewrite entry_get_put.
    destruct (String.eqb_spec x y) as [<-|Hxy]; [|reflexivity].
    rewrite Hx. apply IH. now apply apart_cons in Hap.
Qed.

(** Deleting never brings a path into being, nor turns anything into a
    directory. *)
Lemma lookup_delete_none (a q : path) (n : node) :
  lookup q n = None -> lookup q (put a None n) = None.
Proof.
  revert q n. induction a as [|x a IH]; intros q n Hq; [exact Hq|].
  destruct q as [|y q]; [discriminate|].
  destruct n as [c|es]; [exact Hq|]. simpl in *.
  destruct a as [|x' a].
  - simpl. rewrite entry_get_del. destruct (String.eqb x y); [reflexivity | exact Hq].
  - destruct (entry_get x es) as [c|] eqn:Hx; [|exact Hq].
    simpl. rewrite entry_get_put.
    destruct (String.eqb_spec x y) as [<-|Hxy]; [|exact Hq].
    rewrite Hx in Hq. now apply IH.
Qed.

Lemma lookup_delete_self (a : path) (n : node) :
  a <> [] -> lookup a (put a None n) = None.
Proof.
  revert n. induction a as [|x a IH]; intros n Hne; [congruence|].
  destruct n as [c|es]; [reflexivity|]. simpl.
  destruct a as [|x' a].
  - simpl. rewrite entry_get_del, String.eqb_refl. reflexivity.
  - destruct (entry_get x es) as [c|] eqn:Hx; simpl.
    + rewrite entry_get_put, String.eqb_refl. now apply IH.
    + now rewrite Hx.
Qed.

Lemma lookup_delete_notdir (a q : path) (n : node) :
  is_dir (lookup q n) = false -> is_dir (lookup q (put a None n)) = false.
Proof.
  revert q n. induction a as [|x a IH]; intros q n Hq; [exact Hq|].
  destruct q as [|y q].
  - simpl in *. destruct n as [c|es]; [reflexivity | discriminate].
  - destruct n as [c|es]; [exact Hq|]. simpl in *.
    destruct a as [|x' a].
    + simpl. rewrite entry_get_del. destruct (String.eqb x y); [reflexivity | exact Hq].
    + destruct (entry_get x es) as [c|] eqn:Hx; [|exact Hq].
      simpl. rewrite entry_get_put.
      destruct (String.eqb_spec x y) as [<-|Hxy]; [|exact Hq].
      rewrite Hx in Hq. now apply IH.
Qed.

(** What [put] sets. *)
Lemma lookup_put_same (p : path) (v : option node) (n : node) (es : list (string * node)) :
  p <> [] -> lookup (removelast p) n = Some (Dir es) -> lookup p (put p v n) = v.
Proof.
  revert n. induction p as [|x p IH]; intros n Hne Hparent; [congruence|].
  destruct p as [|y p].
  - simpl in Hparent. injection Hparent as ->. simpl.
    destruct v as [c|]; simpl.
    + now rewrite entry_get_put, String.eqb_refl.
    + now rewrite entry_get_del, String.eqb_refl.
  - change (removelast (x :: y :: p)) with (x :: removelast (y :: p)) in Hparent.
    cbn [lookup] in Hparent. destruct n as [c|es0]; [discriminate|].
    destruct (entry_get x es0) as [c|] eqn:Hx; [|discriminate].
    cbn [put]. rewrite Hx. cbn [lookup]. rewrite entry_get_put, String.eqb_refl.
    apply IH; [discriminate | exact Hparent].
Qed.

(** ** Well-formed trees *)

Definition wf_entries (es : list (string * node)) : Prop :=
  Forall (fun e => valid_name (fst e) = true /\ wf (snd e)) es.

Lemma wf_dir (es : list (string * node)) :
  wf (Dir es) <-> NoDup (map fst es) /\ wf_entries es.
Proof.
  cbn [wf]. apply and_iff_compat_l. unfold wf_entries.
  induction es as [|[x c] es IH].
  - split; [constructor | trivial].
  - rewrite Forall_cons_iff, <- IH. simpl. tauto.
Qed.

Lemma entry_get_in (x : string) (es : list (string * node)) (c : node) :
  entry_get x es = Some c -> In (x, c) es.
Proof.
  induction es as [|[y n] es IH]; simpl; [discriminate|].
  destruct (String.eqb_spec y x) as [->|_]; [intros [= ->]; now left | auto].
Qed.

Lemma in_entry_get (x : string) (es : list (string * node)) (c : node) :
  NoDup (map fst es) -> In (x, c) es -> entry_get x es = Some c.
Proof.
  induction es as [|[y n] es IH]; simpl; [contradiction|].
  intros Hnd [Heq|Hin].
  - injection Heq as -> ->. now rewrite String.eqb_refl.
  - inversion Hnd as [|? ? Hnotin Hnd']; subst.
    destruct (String.eqb_spec y x) as [->|_]; [|auto].
    destruct Hnotin. change x with (fst (x, c)). now apply in_map.
Qed.

Lemma wf_child (x : string) (es : list (string * node)) (c : node) :
  wf (Dir es) -> entry_get x es = Some c -> valid_name x = true /\ wf c.
Proof.
  intros Hwf Hget. apply wf_dir in Hwf as [_ Hall].
  apply entry_get_in in Hget.
  unfold wf_entries in Hall. rewrite Forall_forall in Hall. exact (Hall _ Hget).
Qed.

Lemma wf_lookup (p : path) (n c : node) : wf n -> lookup p n = Some c -> wf c.
Proof.
  revert n. induction p as [|x p IH]; intros n Hwf Hl; simpl in Hl.
  - now injection Hl as <-.
  - destruct n as [d|es]; [discriminate|].
    destruct (entry_get x es) as [c'|] eqn:Hx; [|discriminate].
    apply (IH c'); [|exact Hl]. exact (proj2 (wf_child _ _ _ Hwf Hx)).
Qed.

Lemma map_fst_del (x : string) (es : list (string * node)) :
  map fst (entry_del x es) = filter (fun y => negb (String.eqb y x)) (map fst es).
Proof.
  induction es as [|[y n] es IH]; simpl; [reflexivity|].
  destruct (String.eqb y x); simpl; now rewrite IH.
Qed.

Lemma wf_entry_del (x : string) (es : list (string * node)) :
  wf (Dir es) -> wf (Dir (entry_del x es)).
Proof.
  rewrite !wf_dir. intros [Hnd Hall]. split.
  - rewrite map_fst_del. now apply NoDup_filter.
  - clear Hnd. induction Hall as [|[y n] es Hy Hall IH]; simpl; [constructor|].
    destruct (String.eqb y x); [exact IH | now constructor].
Qed.

Lemma map_fst_put (x : string) (v c : node) (es : list (string * node)) :
  entry_get x es = Some c -> map fst (entry_put x v es) = map fst es.
Proof.
  induction es as [|[y n] es IH]; simpl; [discriminate|].
  destruct (String.eqb y x); simpl; [reflexivity|].
  intros H. now rewrite IH.
Qed.

Lemma wf_entry_put (x : string) (v c : node) (es : list (string * node)) :
  wf (Dir es) -> entry_get x es = Some c -> wf v -> wf (Dir (entry_put x v es)).
Proof.
  rewrite !wf_dir. intros [Hnd Hall] Hget Hv. split.
  - now rewrite (map_fst_put _ _ _ _ Hget).
  - clear Hnd. induction Hall as [|[y n] es Hy Hall IH]; simpl in *; [discriminate|].
    destruct (String.eqb y x); constructor; simpl in *; tauto.
Qed.

Lemma wf_delete (a : path) (n : node) : wf n -> wf (put a None n).
Proof.
  revert n. induction a as [|x a IH]; intros n Hwf; [exact Hwf|].
  destruct n as [c|es]; [exact Hwf|].
  cbn [put]. destruct a as [|x' a].
  - now apply wf_entry_del.
  - destruct (entry_get x es) as [c|] eqn:Hx; [|exact Hwf].
    apply (wf_entry_put _ _ c); [exact Hwf | exact Hx |].
    apply IH. exact (proj2 (wf_child _ _ _ Hwf Hx)).
Qed.

Lemma nodupb_sound (l : list string) : nodupb l = true -> NoDup l.
Proof.
  induction l as [|x l IH]; simpl; [constructor|].
  intros H. apply andb_true_iff in H as [Hx Hl]. constructor; [|now apply IH].
  intros Hin. apply negb_true_iff in Hx.
  assert (existsb (String.eqb x) l = true); [|congruence].
  apply existsb_exists. exists x. split; [exact Hin | apply String.eqb_refl].
Qed.

Lemma wfb_sound : forall n, wfb n = true -> wf n.
Proof.
  fix IH 1. intros [c|es] H; [exact I|].
  cbn [wfb] in H. cbn [wf]. apply andb_true_iff in H as [Hnd Hall].
  split; [now apply nodupb_sound|]. clear Hnd.
  induction es as [|[x c] es IHes]; [exact I|].
  apply andb_true_iff in Hall as [Hxc Hrest]. apply andb_true_iff in Hxc as [Hx Hc].
  split; [exact Hx|]. split; [apply IH; exact Hc | apply IHes; exact Hrest].
Qed.

(** ** Heights *)

Definition heights (es : list (string * node)) : nat :=
  fold_right (fun e h => Nat.max (height (snd e)) h) 0 es.

Lemma height_dir (es : list (string * node)) : height (Dir es) = S (heights es).
Proof.
  simpl. f_equal. induction es as [|[x c] es IH]; simpl; [reflexivity | now rewrite IH].
Qed.

Lemma height_child (x : string) (es : list (string * node)) (c : node) :
  entry_get x es = Some c -> height c < height (Dir es).
Proof.
  rewrite height_dir. intros H. apply entry_get_in in H.
  induction es as [|[y n] es IH]; simpl in *; [contradiction|].
  destruct H as [Heq|Hin]; [injection Heq as -> ->; lia|].
  specialize (IH Hin). lia.
Qed.

Lemma height_lookup (p : path) (n c : node) :
  lookup p n = Some c -> height c <= height n.
Proof.
  revert n. induction p as [|x p IH]; intros n Hl; simpl in Hl.
  - injection Hl as <-. lia.
  - destruct n as [d|es]; [discriminate|].
    destruct (entry_get x es) as [c'|] eqn:Hx; [|discriminate].
    pose proof (height_child _ _ _ Hx). specialize (IH _ Hl). lia.
Qed.

End FsFacts.

(* ===================================================================== *)
(** * Path resolution *)
(* ===================================================================== *)

Module PathFacts.
Import Fs.

Lemma prefix_nil (s : string) : String.prefix "" s = true.
Proof. now destruct s. Qed.

Lemma norm_app (acc : path) (l1 l2 : list string) :
  norm acc (l1 ++ l2) = norm (norm acc l1) l2.
Proof.
  revert acc. induction l1 as [|c l1 IH]; intros acc; simpl; [reflexivity|].
  destruct (String.eqb c "" || String.eqb c "."); [apply IH|].
  destruct (String.eqb c ".."); apply IH.
Qed.

Lemma valid_name_inv (d : string) :
  valid_name d = true ->
  d <> "" /\ Py.contains "/" d = false /\ d <> "." /\ d <> "..".
Proof.
  unfold valid_name. rewrite !andb_true_iff, !negb_true_iff.
  intros [[[Ht Hc] Hd] Hdd].
  repeat split; try assumption.
  - intros ->. discriminate.
  - now apply String.eqb_neq.
  - now apply String.eqb_neq.
Qed.

Lemma norm_valid (acc : path) (d : string) :
  valid_name d = true -> norm acc [d] = acc ++ [d].
Proof.
  intros H. apply valid_name_inv in H as (H1 & _ & H2 & H3). simpl.
  apply String.eqb_neq in H1, H2, H3. now rewrite H1, H2, H3.
Qed.

Lemma valid_not_absolute (d : string) : valid_name d = true -> String.prefix "/" d = false.
Proof.
  intros H. apply valid_name_inv in H as (H1 & H2 & _).
  destruct d as [|c d]; [congruence|]. cbn [Py.contains] in H2.
  apply orb_false_iff in H2 as [H2 _].
  change (String.prefix "/" (String c d))
    with (if ascii_dec "/" c then String.prefix "" d else false).
  destruct (ascii_dec "/" c) as [<-|_]; [discriminate | reflexivity].
Qed.

Lemma take_last_slash (a : string) :
  Py.take_last 1 a = "/" -> exists a', a = a' +:+ "/".
Proof.
  unfold Py.take_last. induction a as [|c a IH]; simpl; [discriminate|].
  rewrite Nat.sub_0_r. destruct a as [|c' a].
  - simpl. intros [= ->]. now exists "".
  - intros H. simpl in IH. rewrite Nat.sub_0_r in IH.
    destruct (IH H) as [a' ->]. now exists (String c a').
Qed.

Lemma prefix_slash_app (a b : string) :
  a <> "" -> String.prefix "/" (a +:+ b) = String.prefix "/" a.
Proof.
  destruct a as [|c a]; [congruence|]. intros _.
  change (String.prefix "/" (String c a +:+ b))
    with (if ascii_dec "/" c then String.prefix "" (a +:+ b) else false).
  change (String.prefix "/" (String c a))
    with (if ascii_dec "/" c then String.prefix "" a else false).
  destruct (ascii_dec "/" c); [now rewrite !prefix_nil | reflexivity].
Qed.

Definition relative_names (b : string) : Prop :=
  Forall (fun c => valid_name c = true) (Py.split "/" b).

Lemma norm_all_valid (acc : path) (l : list string) :
  Forall (fun c => valid_name c = true) l -> norm acc l = acc ++ l.
Proof.
  intros H. revert acc. induction H as [|c l Hc _ IH]; intros acc.
  - now rewrite app_nil_r.
  - change (c :: l) with ([c] ++ l). rewrite norm_app, (norm_valid _ _ Hc), IH.
    now rewrite <- app_assoc.
Qed.

Lemma relative_not_absolute (b : string) :
  relative_names b -> String.prefix "/" b = false.
Proof.
  unfold relative_names. destruct b as [|c b]; [reflexivity|].
  change (String.prefix "/" (String c b))
    with (if ascii_dec "/" c then String.prefix "" b else false).
  destruct (ascii_dec "/" c) as [<-|_]; [|reflexivity].
  simpl. intros H. inversion H as [|? ? Hbad _]. discriminate.
Qed.

(** Joining a relative path made of plain names onto a path goes down by
    these names. *)
Lemma resolve_join_rel (cwd : path) (a b : string) :
  relative_names b ->
  resolve cwd (Py.os_path_join a b) = resolve cwd a ++ Py.split "/" b.
Proof.
  intros Hb. unfold Py.os_path_join. rewrite (relative_not_absolute b Hb).
  destruct a as [|c a].
  - simpl. unfold resolve. rewrite (relative_not_absolute b Hb).
    now apply norm_all_valid.
  - cbn [Py.truthy negb orb].
    destruct (String.eqb_spec (Py.take_last 1 (String c a)) "/") as [Hlast|_].
    + destruct (take_last_slash _ Hlast) as [a' Ha']. rewrite Ha'.
      unfold resolve.
      rewrite prefix_slash_app by (rewrite <- Ha'; discriminate).
      rewrite PyFacts.append_assoc. simpl (("/" +:+ b)).
      change (a' +:+ "/") with (a' +:+ String "/" "").
      rewrite !PyFacts.split_app, !norm_app. simpl (Py.split "/" "").
      now rewrite (norm_all_valid _ _ Hb).
    + unfold resolve. rewrite prefix_slash_app by discriminate.
      change (String c a +:+ "/" +:+ b) with (String c a +:+ String "/" b).
      rewrite PyFacts.split_app, norm_app.
      now apply norm_all_valid.
Qed.

(** Joining a directory name onto a path goes one step down. *)
Lemma resolve_join (cwd : path) (a d : string) :
  valid_name d = true ->
  resolve cwd (Py.os_path_join a d) = resolve cwd a ++ [d].
Proof.
  intros Hd. pose proof (valid_name_inv d Hd) as (_ & Hclean & _).
  rewrite resolve_join_rel; unfold relative_names;
    rewrite (PyFacts.split_clean _ _ Hclean); [reflexivity | now constructor].
Qed.

Lemma resolve_join_nonempty (cwd : path) (a b : string) :
  relative_names b -> resolve cwd (Py.os_path_join a b) <> [].
Proof.
  intros Hb. rewrite (resolve_join_rel _ _ _ Hb).
  pose proof (PyFacts.split_nonempty "/" b) as Hne.
  destruct (Py.split "/" b); [congruence|].
  intros H. now apply app_eq_nil in H as [_ H].
Qed.

Lemma join_nonempty (a d : string) : d <> "" -> Py.os_path_join a d <> "".
Proof.
  intros Hd. unfold Py.os_path_join.
  destruct (String.prefix "/" d); [exact Hd|].
  destruct a as [|c a]; simpl; [exact Hd|].
  destruct (String.eqb _ "/"); discriminate.
Qed.

End PathFacts.

(* ===================================================================== *)
(** * [process_aar] *)
(* ===================================================================== *)

Module AarFacts.
Import Fs Pipeline FsFacts PathFacts.

(** ** Steps that only delete *)

Record shrinks (w w' : world) : Prop := {
  sh_cwd : cwd w' = cwd w;
  sh_stderr : stderr w' = stderr w;
  sh_wf : wf (root w) -> wf (root w');
  sh_none : forall q, lookup q (root w) = None -> lookup q (root w') = None;
  sh_notdir : forall q, is_dir (lookup q (root w)) = false ->
                        is_dir (lookup q (root w')) = false
}.

Lemma shrinks_refl (w : world) : shrinks w w.
Proof. constructor; auto. Qed.

Lemma shrinks_trans (w1 w2 w3 : world) : shrinks w1 w2 -> shrinks w2 w3 -> shrinks w1 w3.
Proof.
  intros [c1 e1 f1 n1 d1] [c2 e2 f2 n2 d2].
  constructor; auto; congruence.
Qed.

Definition deletes_only {A} (m : M A) : Prop :=
  forall w r w', m w = (r, w') -> shrinks w w'.

Lemma del_ret {A} (a : A) : deletes_only (ret a).
Proof. intros w r w' [= _ <-]. apply shrinks_refl. Qed.

Lemma del_raise {A} (e : exn) : deletes_only (@raise A e).
Proof. intros w r w' [= _ <-]. apply shrinks_refl. Qed.

Lemma del_bind {A B} (m : M A) (k : A -> M B) :
  deletes_only m -> (forall a, deletes_only (k a)) -> deletes_only (bind m k).
Proof.
  intros Hm Hk w r w'. unfold bind.
  destruct (m w) as [[a|e] w1] eqn:Hmw; intros H.
  - eapply shrinks_trans; [exact (Hm _ _ _ Hmw) | exact (Hk _ _ _ _ H)].
  - injection H as _ <-. exact (Hm _ _ _ Hmw).
Qed.

Lemma del_for_each {A} (l : list A) (body : A -> M unit) :
  (forall x, deletes_only (body x)) -> deletes_only (for_each l body).
Proof.
  intros Hb. induction l as [|x l IH]; simpl; [apply del_ret|].
  apply del_bind; [apply Hb | intros _; exact IH].
Qed.

Lemma del_when (b : bool) (m : M unit) : deletes_only m -> deletes_only (when b m).
Proof. intros H. destruct b; [exact H | apply del_ret]. Qed.

Lemma del_get_world : deletes_only get_world.
Proof. intros w r w' [= _ <-]. apply shrinks_refl. Qed.

Lemma del_exists (p : string) : deletes_only (Os.os_path_exists p).
Proof. intros w r w' [= _ <-]. apply shrinks_refl. Qed.

Lemma del_listdir (p : string) : deletes_only (Os.os_listdir p).
Proof.
  intros w r w'. unfold Os.os_listdir.
  destruct (Os.node_at w p) as [[c|es]|]; intros [= _ <-]; apply shrinks_refl.
Qed.

Lemma del_put_none (p : string) : deletes_only (Os.put_at p None).
Proof.
  intros w r w' [= _ <-]. constructor; simpl; auto.
  - apply wf_delete.
  - intros q. apply lookup_delete_none.
  - intros q. apply lookup_delete_notdir.
Qed.

Lemma del_remove (p : string) : deletes_only (Os.os_remove p).
Proof.
  intros w r w'. unfold Os.os_remove.
  destruct (Os.node_at w p) as [[c|es]|]; try (intros [= _ <-]; apply shrinks_refl).
  destruct (resolve (cwd w) p); [intros [= _ <-]; apply shrinks_refl | apply del_put_none].
Qed.

Lemma del_rmdir (p : string) : deletes_only (Os.os_rmdir p).
Proof.
  intros w r w'. unfold Os.os_rmdir.
  destruct (Os.node_at w p) as [[c|[|e es]]|]; try (intros [= _ <-]; apply shrinks_refl).
  destruct (resolve (cwd w) p); [intros [= _ <-]; apply shrinks_refl | apply del_put_none].
Qed.

Lemma del_remove_empty_dirs (root : string) (dirs files : list string) :
  deletes_only (remove_empty_dirs root dirs files).
Proof.
  apply del_for_each. intros d. apply del_bind; [apply del_listdir|].
  intros [|x l]; [apply del_rmdir | apply del_ret].
Qed.

Lemma del_walk (fuel : nat) (top : string)
    (body : string -> list string -> list string -> M unit) :
  (forall r ds fs, deletes_only (body r ds fs)) ->
  deletes_only (Os.walk_do fuel top body).
Proof.
  intros Hb. revert top. induction fuel as [|fuel IH]; intros top; simpl;
    (apply del_bind; [apply del_get_world|]); intros w0;
    destruct (Os.node_at w0 top) as [[c|es]|]; try apply del_ret.
  - apply del_raise.
  - apply del_bind; [apply Hb|]. intros _. apply del_for_each. intros d. apply IH.
Qed.

Lemma del_remove_cruft (target_dir : string) : deletes_only (remove_cruft target_dir).
Proof.
  apply del_for_each. intros f. apply del_bind; [apply del_exists|].
  intros b. apply del_when. apply del_remove.
Qed.

(** ** Paths next to each other *)

Lemma apart_siblings (p : path) (d d' : string) (rest : path) :
  d <> d' -> apart (p ++ [d]) (p ++ d' :: rest).
Proof.
  intros Hne. split; intros [r Hr].
  - rewrite <- app_assoc in Hr. apply app_inv_head in Hr. simpl in Hr. congruence.
  - rewrite <- app_assoc in Hr. apply app_inv_head in Hr. simpl in Hr. congruence.
Qed.

Lemma apart_child (p q : path) (d : string) : apart p q -> apart (p ++ [d]) q.
Proof.
  intros [H1 H2]. split; intros [r Hr].
  - apply H1. exists ([d] ++ r). now rewrite app_assoc.
  - destruct r as [|x r _] using rev_ind.
    + apply H1. exists [d]. rewrite app_nil_r in Hr. now rewrite <- Hr.
    + apply H2. exists r. rewrite app_assoc in Hr.
      now apply app_inj_tail in Hr as [Hr _].
Qed.

Lemma in_dir_names (d : string) (es : list (string * node)) :
  NoDup (map fst es) ->
  (In d (dir_names es) <-> exists es', entry_get d es = Some (Dir es')).
Proof.
  intros Hnd. unfold dir_names. rewrite in_map_iff. split.
  - intros ([x c] & <- & Hin). apply filter_In in Hin as [Hin Hdir].
    simpl in *. destruct c as [?|es']; [discriminate|].
    exists es'. now apply in_entry_get.
  - intros [es' Hget]. exists (d, Dir es'). split; [reflexivity|].
    apply filter_In. split; [now apply entry_get_in | reflexivity].
Qed.

Lemma nodup_dir_names (es : list (string * node)) :
  NoDup (map fst es) -> NoDup (dir_names es).
Proof.
  unfold dir_names. induction es as [|[x c] es IH]; [constructor|].
  intros Hnd. inversion Hnd as [|? ? Hx Hnd']; subst.
  cbn [filter snd]. destruct (is_dir (Some c)); cbn [map fst]; [|now apply IH].
  constructor; [|now apply IH].
  intros Hin. apply Hx. apply in_map_iff in Hin as (e & He & Hin).
  apply filter_In in Hin as [Hin _]. rewrite <- He. now apply in_map.
Qed.

Lemma node_at_join (w : world) (top d : string) :
  valid_name d = true ->
  Os.node_at w (Py.os_path_join top d) = lookup (resolve (cwd w) top ++ [d]) (root w).
Proof.
  intros Hd. unfold Os.node_at.
  pose proof (join_nonempty top d (proj1 (valid_name_inv d Hd))) as Hne.
  rewrite <- (resolve_join _ _ _ Hd).
  destruct (Py.os_path_join top d); [congruence | reflexivity].
Qed.

(** ** The loop that removes the empty directories of one listing *)

Lemma remove_empty_dirs_spec (top : string) (p : path) (files ds : list string) :
  forall w0,
    resolve (cwd w0) top = p ->
    NoDup ds ->
    (forall d, In d ds ->
       valid_name d = true /\ is_dir (lookup (p ++ [d]) (root w0)) = true) ->
    exists w1,
      remove_empty_dirs top ds files w0 = (Ok tt, w1)
      /\ (forall d, In d ds -> lookup (p ++ [d]) (root w0) = Some (Dir []) ->
            lookup (p ++ [d]) (root w1) = None)
      /\ (forall q,
            (forall d, In d ds -> lookup (p ++ [d]) (root w0) = Some (Dir []) ->
               apart (p ++ [d]) q) ->
            lookup q (root w1) = lookup q (root w0)).
Proof.
  unfold remove_empty_dirs.
  induction ds as [|d ds IH]; intros w0 Hp Hnd Hds.
  - exists w0. split; [reflexivity|]. split; [intros ? [] | reflexivity].
  - inversion Hnd as [|? ? Hd_notin Hnd']; subst.
    destruct (Hds d (or_introl eq_refl)) as [Hvalid Hisdir].
    destruct (lookup (resolve (cwd w0) top ++ [d]) (root w0)) as [[c|es_d]|] eqn:Hchild;
      try discriminate.
    (* the world after the step for [d] *)
    set (w0' := match es_d with
                | [] => World (put (resolve (cwd w0) top ++ [d]) None (root w0))
                          (cwd w0) (stderr w0)
                | _ :: _ => w0
                end).
    assert (Hstep :
      (listing <- Os.os_listdir (Py.os_path_join top d) ;;
       match listing with
       | [] => Os.os_rmdir (Py.os_path_join top d)
       | _ :: _ => ret tt
       end) w0 = (Ok tt, w0')).
    { unfold bind, Os.os_listdir. rewrite (node_at_join _ _ _ Hvalid), Hchild.
      destruct es_d as [|e es_d]; simpl; [|reflexivity].
      unfold Os.os_rmdir. rewrite (node_at_join _ _ _ Hvalid), Hchild.
      rewrite (resolve_join _ _ _ Hvalid).
      destruct (resolve (cwd w0) top ++ [d]) eqn:Hnil;
        [now apply app_eq_nil in Hnil as [_ Hnil]|].
      unfold Os.put_at. rewrite (resolve_join _ _ _ Hvalid), Hnil. reflexivity. }
    assert (Hcwd : cwd w0' = cwd w0) by (subst w0'; now destruct es_d).
    assert (Hframe : forall q, (es_d = [] -> apart (resolve (cwd w0) top ++ [d]) q) ->
                               lookup q (root w0') = lookup q (root w0)).
    { intros q Hq. subst w0'. destruct es_d; [|reflexivity].
      simpl. apply lookup_put_apart. now apply Hq. }
    assert (Hsib : forall d', In d' ds ->
              lookup (resolve (cwd w0) top ++ [d']) (root w0')
              = lookup (resolve (cwd w0) top ++ [d']) (root w0)).
    { intros d' Hd'. apply Hframe. intros _. apply apart_siblings.
      intros ->. contradiction. }
    destruct (IH w0') as (w1 & Hrun & HA & HB).
    { now rewrite Hcwd. }
    { exact Hnd'. }
    { intros d' Hd'. rewrite Hsib by exact Hd'. apply Hds. now right. }
    exists w1. split; [|split].
    + cbn [for_each]. unfold bind at 1. rewrite Hstep. exact Hrun.
    + intros d' [<-|Hd'] Hempty.
      * assert (Hsh : shrinks w0' w1).
        { eapply (del_for_each ds); [|exact Hrun].
          intros x. apply del_bind; [apply del_listdir|].
          intros [|? ?]; [apply del_rmdir | apply del_ret]. }
        apply (sh_none _ _ Hsh).
        rewrite Hchild in Hempty. injection Hempty as ->.
        subst w0'. simpl. apply lookup_delete_self.
        intros Hnil. now apply app_eq_nil in Hnil as [_ Hnil].
      * apply HA; [exact Hd'|]. now rewrite Hsib.
    + intros q Hq. rewrite HB.
      * apply Hframe. intros ->. apply Hq; [now left | exact Hchild].
      * intros d' Hd' Hempty. apply Hq; [now right|]. now rewrite <- Hsib.
Qed.

(** ** The walk *)

(** What one walk from [top] achieves, with [fuel] at least the height of
    the tree below [top]: it ends normally, changes nothing beside the
    tree below [top], and removes every directory below [top] that was
    empty when it began. *)
Definition walk_spec (fuel : nat) : Prop :=
  forall (top : string) (w : world),
    wf (root w) ->
    top <> "" ->
    match lookup (resolve (cwd w) top) (root w) with
    | Some n => height n <= fuel
    | None => True
    end ->
    exists w',
      Os.walk_do fuel top remove_empty_dirs w = (Ok tt, w')
      /\ (forall q, apart (resolve (cwd w) top) q ->
            lookup q (root w') = lookup q (root w))
      /\ (forall rel, rel <> [] ->
            lookup (resolve (cwd w) top ++ rel) (root w) = Some (Dir []) ->
            lookup (resolve (cwd w) top ++ rel) (root w') = None).

Lemma walk_children (fuel : nat) (top : string) (p : path) (ds : list string) :
  walk_spec fuel ->
  forall w0,
    resolve (cwd w0) top = p ->
    NoDup ds ->
    wf (root w0) ->
    (forall d, In d ds ->
       valid_name d = true
       /\ match lookup (p ++ [d]) (root w0) with
          | Some n => height n <= fuel
          | None => True
          end) ->
    exists w2,
      for_each ds (fun d => Os.walk_do fuel (Py.os_path_join top d) remove_empty_dirs) w0
      = (Ok tt, w2)
      /\ (forall q, (forall d, In d ds -> apart (p ++ [d]) q) ->
            lookup q (root w2) = lookup q (root w0))
      /\ (forall d rel, In d ds -> rel <> [] ->
            lookup ((p ++ [d]) ++ rel) (root w0) = Some (Dir []) ->
            lookup ((p ++ [d]) ++ rel) (root w2) = None).
Proof.
  intros Hwalk. induction ds as [|d ds IH]; intros w0 Hp Hnd Hwf Hds.
  - exists w0. split; [reflexivity|]. split; [reflexivity | intros ? ? []].
  - inversion Hnd as [|? ? Hd_notin Hnd']; subst.
    destruct (Hds d (or_introl eq_refl)) as [Hvalid Hheight].
    destruct (Hwalk (Py.os_path_join top d) w0 Hwf) as (w0' & Hrun & Hframe & Hgone).
    { apply join_nonempty. exact (proj1 (valid_name_inv d Hvalid)). }
    { now rewrite (resolve_join _ _ _ Hvalid). }
    rewrite (resolve_join _ _ _ Hvalid) in Hframe, Hgone.
    assert (Hsh : shrinks w0 w0').
    { eapply del_walk; [|exact Hrun]. intros. apply del_remove_empty_dirs. }
    assert (Hsib : forall d' rest, In d' ds ->
              lookup (resolve (cwd w0) top ++ d' :: rest) (root w0')
              = lookup (resolve (cwd w0) top ++ d' :: rest) (root w0)).
    { intros d' rest Hd'. apply Hframe. apply apart_siblings. intros ->. contradiction. }
    destruct (IH w0') as (w2 & Hrest & HF & HG).
    { now rewrite (sh_cwd _ _ Hsh). }
    { exact Hnd'. }
    { exact (sh_wf _ _ Hsh Hwf). }
    { intros d' Hd'. rewrite (Hsib d' [] Hd'). apply Hds. now right. }
    assert (Hsh' : shrinks w0' w2).
    { eapply (del_for_each ds); [|exact Hrest].
      intros x. apply del_walk. intros. apply del_remove_empty_dirs. }
    exists w2. split; [|split].
    + cbn [for_each]. unfold bind at 1. rewrite Hrun. exact Hrest.
    + intros q Hq. rewrite HF by (intros; apply Hq; now right).
      apply Hframe. apply Hq. now left.
    + intros d' rel [<-|Hd'] Hrel Hempty.
      * apply (sh_none _ _ Hsh'). now apply Hgone.
      * apply HG; [exact Hd' | exact Hrel |].
        rewrite <- app_assoc in *. simpl in *. now rewrite Hsib.
Qed.

Lemma walk_leaf (fuel : nat) (top : string) (w : world) :
  top <> "" ->
  match lookup (resolve (cwd w) top) (root w) with
  | Some (Dir _) => False
  | _ => True
  end ->
  Os.walk_do fuel top remove_empty_dirs w = (Ok tt, w)
  /\ forall rel, rel <> [] -> lookup (resolve (cwd w) top ++ rel) (root w) = None.
Proof.
  intros Htop Hleaf. split.
  - assert (Hnode : Os.node_at w top = lookup (resolve (cwd w) top) (root w))
      by (unfold Os.node_at; now destruct top).
    destruct fuel; cbn [Os.walk_do]; unfold bind, get_world; rewrite Hnode;
      destruct (lookup (resolve (cwd w) top) (root w)) as [[c|es]|];
      try contradiction; reflexivity.
  - intros rel Hrel. rewrite lookup_app.
    destruct (lookup (resolve (cwd w) top) (root w)) as [[c|es]|];
      try contradiction; [|reflexivity].
    now destruct rel.
Qed.

Lemma walk_removes_empty_dirs (fuel : nat) : walk_spec fuel.
Proof.
  induction fuel as [|fuel IH]; intros top w Hwf Htop Hheight.
  - destruct (walk_leaf 0 top w Htop) as [Hrun Hnone].
    { destruct (lookup (resolve (cwd w) top) (root w)) as [[c|es]|]; trivial.
      rewrite height_dir in Hheight. lia. }
    exists w. split; [exact Hrun|]. split; [reflexivity|].
    intros rel Hrel Hempty. rewrite Hnone in Hempty by exact Hrel. discriminate.
  - destruct (lookup (resolve (cwd w) top) (root w)) as [[c|es]|] eqn:Hnode.
    1, 3: destruct (walk_leaf (S fuel) top w Htop) as [Hrun Hnone];
      [now rewrite Hnode|];
      exists w; split; [exact Hrun|]; split; [reflexivity|];
      intros rel Hrel Hempty; rewrite Hnone in Hempty by exact Hrel; discriminate.
    set (p := resolve (cwd w) top) in *.
    assert (Hwfd : wf (Dir es)) by exact (wf_lookup _ _ _ Hwf Hnode).
    pose proof (proj1 (proj1 (wf_dir es) Hwfd)) as Hnd.
    assert (Hkids : forall d, In d (dir_names es) ->
              exists es_d, entry_get d es = Some (Dir es_d)
                           /\ lookup (p ++ [d]) (root w) = Some (Dir es_d)
                           /\ valid_name d = true).
    { intros d Hd. apply (in_dir_names _ _ Hnd) in Hd as [es_d Hget].
      exists es_d. split; [exact Hget|]. split.
      - now rewrite (lookup_snoc _ _ _ _ Hnode).
      - exact (proj1 (wf_child _ _ _ Hwfd Hget)). }
    (* first the empty sub-directories go *)
    destruct (remove_empty_dirs_spec top p (file_names es) (dir_names es) w eq_refl)
      as (w1 & Hrun1 & HA & HB).
    { now apply nodup_dir_names. }
    { intros d Hd. destruct (Hkids d Hd) as (es_d & _ & Hl & Hv).
      split; [exact Hv | now rewrite Hl]. }
    assert (Hsh1 : shrinks w w1) by (eapply del_remove_empty_dirs; exact Hrun1).
    assert (Hkept : forall d es_d rest, entry_get d es = Some (Dir es_d) -> es_d <> [] ->
              lookup (p ++ d :: rest) (root w1) = lookup (p ++ d :: rest) (root w)).
    { intros d es_d rest Hget Hne. apply HB. intros d' Hd' Hempty.
      apply apart_siblings. intros ->.
      rewrite (lookup_snoc _ _ _ _ Hnode), Hget in Hempty. congruence. }
    (* then each remaining sub-directory is walked *)
    destruct (walk_children fuel top p (dir_names es) IH w1) as (w2 & Hrun2 & HF & HG).
    { now rewrite (sh_cwd _ _ Hsh1). }
    { now apply nodup_dir_names. }
    { exact (sh_wf _ _ Hsh1 Hwf). }
    { intros d Hd. destruct (Hkids d Hd) as (es_d & Hget & Hl & Hv).
      split; [exact Hv|].
      destruct es_d as [|e es_d].
      - now rewrite (HA d Hd Hl).
      - rewrite (Hkept d (e :: es_d) [] Hget) by discriminate. rewrite Hl.
        pose proof (height_child _ _ _ Hget). lia. }
    assert (Hsh2 : shrinks w1 w2).
    { eapply (del_for_each (dir_names es)); [|exact Hrun2].
      intros x. apply del_walk. intros. apply del_remove_empty_dirs. }
    exists w2. split; [|split].
    + cbn [Os.walk_do]. unfold bind at 1, get_world.
      assert (Hat : Os.node_at w top = Some (Dir es))
        by (unfold Os.node_at; destruct top; [congruence | exact Hnode]).
      rewrite Hat. unfold bind at 1. rewrite Hrun1. exact Hrun2.
    + intros q Hq.
      rewrite HF by (intros; now apply apart_child).
      apply HB. intros. now apply apart_child.
    + intros rel Hrel Hempty. destruct rel as [|d rest]; [congruence|].
      pose proof Hempty as Hsub. rewrite lookup_app, Hnode in Hsub. simpl in Hsub.
      destruct (entry_get d es) as [c|] eqn:Hget; [|discriminate].
      destruct rest as [|d2 rest].
      * simpl in Hsub. injection Hsub as ->.
        apply (sh_none _ _ Hsh2). apply HA; [|exact Hempty].
        apply (in_dir_names _ _ Hnd). eauto.
      * destruct c as [c|es_d]; [discriminate|].
        assert (Hne : es_d <> []) by (intros ->; discriminate).
        assert (Hd : In d (dir_names es)) by (apply (in_dir_names _ _ Hnd); eauto).
        change (p ++ d :: d2 :: rest) with (p ++ [d] ++ d2 :: rest).
        rewrite app_assoc. apply HG; [exact Hd | discriminate |].
        rewrite <- app_assoc. simpl.
        rewrite (Hkept d es_d (d2 :: rest) Hget Hne). exact Hempty.
Qed.

(** ** Removal of single files *)

Lemma shrinks_absent (w w' : world) (p : string) :
  shrinks w w' -> Os.path_exists w p = false -> Os.path_exists w' p = false.
Proof.
  intros Hsh. unfold Os.path_exists, Os.node_at. destruct p as [|c p]; [reflexivity|].
  rewrite (sh_cwd _ _ Hsh).
  destruct (lookup _ (root w)) eqn:Hl; [discriminate|].
  intros _. now rewrite (sh_none _ _ Hsh _ Hl).
Qed.

Lemma shrinks_notdir (w w' : world) (p : string) :
  shrinks w w' -> Os.path_isdir w p = false -> Os.path_isdir w' p = false.
Proof.
  intros Hsh. unfold Os.path_isdir, Os.node_at. destruct p as [|c p]; [reflexivity|].
  rewrite (sh_cwd _ _ Hsh). apply (sh_notdir _ _ Hsh).
Qed.

(** [if os.path.exists(p): os.remove(p)] *)
Definition remove_if_exists (p : string) : M unit :=
  ex <- Os.os_path_exists p ;; when ex (Os.os_remove p).

(** Where it ends normally the path is gone, and the tree is the old one
    or the old one without the file at that path. *)
Lemma remove_if_exists_ok (p : string) (w w' : world) :
  remove_if_exists p w = (Ok tt, w') ->
  Os.path_exists w' p = false
  /\ (w' = w
      \/ exists c, lookup (resolve (cwd w) p) (root w) = Some (File c)
                   /\ w' = World (put (resolve (cwd w) p) None (root w)) (cwd w) (stderr w)).
Proof.
  unfold remove_if_exists, bind, Os.os_path_exists, when.
  destruct (Os.path_exists w p) eqn:Hex.
  - unfold Os.os_remove. unfold Os.path_exists in Hex.
    destruct (Os.node_at w p) as [[c|es]|] eqn:Hnode; try discriminate.
    destruct (resolve (cwd w) p) as [|x r] eqn:Hres; [discriminate|].
    unfold Os.put_at. rewrite Hres.
    assert (Hgone : lookup (x :: r) (put (x :: r) None (root w)) = None)
      by (now apply lookup_delete_self).
    set (r' := put (x :: r) None (root w)) in *. intros [= <-].
    unfold Os.node_at in Hnode. destruct p as [|a p]; [discriminate|].
    rewrite Hres in Hnode. split; [|right; eauto].
    unfold Os.path_exists, Os.node_at. cbn [cwd root]. rewrite Hres.
    now rewrite Hgone.
  - intros [= <-]. auto.
Qed.

(** It ends normally unless the path is a directory. *)
Lemma remove_if_exists_runs (p : string) (w : world) :
  Os.path_isdir w p = false -> resolve (cwd w) p <> [] ->
  exists w', remove_if_exists p w = (Ok tt, w').
Proof.
  unfold remove_if_exists, bind, Os.os_path_exists, when, Os.path_exists, Os.path_isdir.
  intros Hdir Hres. destruct (Os.node_at w p) as [[c|es]|] eqn:Hnode.
  - unfold Os.os_remove. rewrite Hnode.
    destruct (resolve (cwd w) p) as [|x r]; [congruence|]. unfold Os.put_at.
    eexists. reflexivity.
  - discriminate.
  - eexists. reflexivity.
Qed.

Lemma del_remove_if_exists (p : string) : deletes_only (remove_if_exists p).
Proof.
  apply del_bind; [apply del_exists|]. intros b. apply del_when. apply del_remove.
Qed.

Lemma cruft_gone (target_dir : string) (fs : list string) :
  forall w w',
    for_each fs (fun f => remove_if_exists (Py.os_path_join target_dir f)) w = (Ok tt, w') ->
    forall f, In f fs -> Os.path_exists w' (Py.os_path_join target_dir f) = false.
Proof.
  induction fs as [|f0 fs IH]; intros w w' Hrun f Hin; [contradiction|].
  cbn [for_each] in Hrun. unfold bind at 1 in Hrun.
  destruct (remove_if_exists (Py.os_path_join target_dir f0) w) as [[[]|e] w1] eqn:Hstep;
    [|discriminate].
  destruct Hin as [<-|Hin]; [|exact (IH _ _ Hrun f Hin)].
  apply (shrinks_absent w1).
  - eapply (del_for_each fs); [|exact Hrun]. intros x. apply del_remove_if_exists.
  - exact (proj1 (remove_if_exists_ok _ _ _ Hstep)).
Qed.

Lemma cruft_runs (target_dir : string) (fs : list string) :
  forall w,
    (forall f, In f fs ->
       Os.path_isdir w (Py.os_path_join target_dir f) = false
       /\ resolve (cwd w) (Py.os_path_join target_dir f) <> []) ->
    exists w',
      for_each fs (fun f => remove_if_exists (Py.os_path_join target_dir f)) w = (Ok tt, w').
Proof.
  induction fs as [|f0 fs IH]; intros w Hfs; [now exists w|].
  destruct (Hfs f0 (or_introl eq_refl)) as [Hdir Hres].
  destruct (remove_if_exists_runs _ _ Hdir Hres) as [w1 Hstep].
  pose proof (del_remove_if_exists _ _ _ _ Hstep) as Hsh.
  destruct (IH w1) as [w' Hrest].
  { intros f Hf. destruct (Hfs f (or_intror Hf)) as [Hd Hr]. split.
    - exact (shrinks_notdir _ _ _ Hsh Hd).
    - now rewrite (sh_cwd _ _ Hsh). }
  exists w'. cbn [for_each]. unfold bind at 1. now rewrite Hstep.
Qed.

(** A file and an empty directory lie apart. *)
Lemma file_apart_empty_dir (a q : path) (n : node) (c : content) :
  lookup a n = Some (File c) -> lookup q n = Some (Dir []) -> apart a q.
Proof.
  intros Ha Hq. split; intros [r ->].
  - rewrite lookup_app, Ha in Hq. destruct r; discriminate.
  - rewrite lookup_app, Hq in Ha. destruct r; discriminate.
Qed.

(** The steps of [process_aar] after the extraction. *)
Lemma process_aar_steps (artifact_file target_dir : string)
    (zip : list (string * string)) (w w1 : world) :
  Os.ZipFile artifact_file w = (Ok zip, w) ->
  Os.extractall zip target_dir w = (Ok tt, w1) ->
  process_aar artifact_file target_dir w
  = match remove_if_exists (Py.os_path_join target_dir "classes.jar") w1 with
    | (Ok _, w2) =>
        match Os.walk_do (height (root w2)) target_dir remove_empty_dirs w2 with
        | (Ok _, w3) =>
            for_each Config.blacklist_files
              (fun f => remove_if_exists (Py.os_path_join target_dir f)) w3
        | (Raise e, w3) => (Raise e, w3)
        end
    | (Raise e, w2) => (Raise e, w2)
    end.
Proof.
  intros Hzip Hext. unfold process_aar. unfold bind at 1. rewrite Hzip.
  unfold bind at 1. rewrite Hext. reflexivity.
Qed.

(** ** Extraction keeps the tree well formed *)

Definition valid_path (p : path) : Prop := Forall (fun c => valid_name c = true) p.

Lemma valid_removelast (p : path) : valid_path p -> valid_path (removelast p).
Proof.
  unfold valid_path. induction 1 as [|x p Hx Hp IH]; [constructor|].
  destruct p as [|y p]; [constructor|]. change (removelast (x :: y :: p))
    with (x :: removelast (y :: p)). now constructor.
Qed.

Lemma norm_valid_path (acc : path) (comps : list string) :
  valid_path acc ->
  (forall c, In c comps -> Py.contains "/" c = false) ->
  valid_path (norm acc comps).
Proof.
  revert acc. induction comps as [|c comps IH]; intros acc Hacc Hclean; [exact Hacc|].
  cbn [norm].
  assert (Hrest : forall c', In c' comps -> Py.contains "/" c' = false)
    by (intros; apply Hclean; now right).
  destruct (String.eqb_spec c "") as [->|Hne]; [now apply IH|].
  destruct (String.eqb_spec c ".") as [->|Hdot]; [now apply IH|].
  cbn [orb].
  destruct (String.eqb_spec c "..") as [->|Hdd].
  - apply IH; [now apply valid_removelast | exact Hrest].
  - apply IH; [|exact Hrest]. apply Forall_app. split; [exact Hacc|].
    constructor; [|constructor]. unfold valid_name.
    rewrite (Hclean c (or_introl eq_refl)).
    apply String.eqb_neq in Hdot, Hdd. rewrite Hdot, Hdd.
    destruct c; [congruence | reflexivity].
Qed.

Lemma resolve_valid (cwd : path) (p : string) : valid_path cwd -> valid_path (resolve cwd p).
Proof.
  intros Hcwd. unfold resolve. apply norm_valid_path.
  - destruct (String.prefix "/" p); [constructor | exact Hcwd].
  - intros c Hc. exact (PyFacts.split_fields_clean _ _ _ Hc).
Qed.

Lemma in_entry_put (x z : string) (v : node) (es : list (string * node)) :
  In z (map fst (entry_put x v es)) -> z = x \/ In z (map fst es).
Proof.
  induction es as [|[y n] es IH]; simpl.
  - intros [<-|[]]. now left.
  - destruct (String.eqb_spec y x) as [->|Hne]; simpl.
    + intros [<-|H]; auto.
    + intros [<-|H]; [auto|]. destruct (IH H); auto.
Qed.

Lemma wf_entry_put_any (x : string) (v : node) (es : list (string * node)) :
  wf (Dir es) -> valid_name x = true -> wf v -> wf (Dir (entry_put x v es)).
Proof.
  rewrite !wf_dir. intros [Hnd Hall] Hx Hv.
  induction es as [|[y n] es IH]; simpl.
  - split; [repeat constructor; simpl; tauto | repeat constructor; assumption].
  - inversion Hnd as [|? ? Hy Hnd']; subst.
    inversion Hall as [|? ? [Hvy Hwn] Hall']; subst. simpl in *.
    destruct (String.eqb_spec y x) as [->|Hne]; simpl.
    + split; [now constructor | now repeat constructor].
    + destruct (IH Hnd' Hall') as [Hnd2 Hall2]. split.
      * constructor; [|exact Hnd2]. intros Hin.
        apply in_entry_put in Hin as [->|Hin]; [congruence | contradiction].
      * constructor; [simpl; tauto | exact Hall2].
Qed.

Lemma wf_put_some (p : path) (v : node) (n : node) :
  wf n -> wf v -> valid_path p -> wf (put p (Some v) n).
Proof.
  revert n. induction p as [|x p IH]; intros n Hwf Hv Hp; [exact Hwf|].
  inversion Hp as [|? ? Hx Hp']; subst.
  destruct n as [c|es]; [exact Hwf|]. cbn [put].
  destruct p as [|y p].
  - now apply wf_entry_put_any.
  - destruct (entry_get x es) as [c|] eqn:Hget; [|exact Hwf].
    apply wf_entry_put_any; [exact Hwf | exact Hx |].
    apply IH; [|exact Hv | exact Hp']. exact (proj2 (wf_child _ _ _ Hwf Hget)).
Qed.

Lemma mkdirs_from_wf (todo : path) :
  forall (done : path) (exist_ok : bool) (r r' : node),
    Os.mkdirs_from done todo exist_ok r = Ok r' ->
    wf r -> valid_path (done ++ todo) -> wf r'.
Proof.
  induction todo as [|x todo IH]; intros done ok r r' Hrun Hwf Hvalid.
  - simpl in Hrun. now injection Hrun as <-.
  - cbn [Os.mkdirs_from] in Hrun.
    assert (Hvalid' : valid_path ((done ++ [x]) ++ todo)) by (now rewrite <- app_assoc).
    destruct (lookup (done ++ [x]) r) as [[c|es]|].
    + destruct todo; discriminate.
    + destruct todo as [|y todo].
      * destruct ok; [now injection Hrun as <- | discriminate].
      * exact (IH _ _ _ _ Hrun Hwf Hvalid').
    + apply (IH _ _ _ _ Hrun); [|exact Hvalid'].
      apply wf_put_some; [exact Hwf | simpl; split; [constructor | exact I] |].
      unfold valid_path in *. apply Forall_app in Hvalid' as [H _]. exact H.
Qed.

(** A step keeps the working directory and, granted [Q], a well-formed
    tree well formed. *)
Definition keeps_wf_if {A} (Q : Prop) (m : M A) : Prop :=
  forall w r w', m w = (r, w') ->
    cwd w' = cwd w /\ (Q -> wf (root w) -> wf (root w')).

Lemma kw_ret {A} (Q : Prop) (a : A) : keeps_wf_if Q (ret a).
Proof. intros w r w' [= _ <-]. auto. Qed.

Lemma kw_get_world (Q : Prop) : keeps_wf_if Q get_world.
Proof. intros w r w' [= _ <-]. auto. Qed.

Lemma kw_bind {A B} (Q : Prop) (m : M A) (k : A -> M B) :
  keeps_wf_if Q m -> (forall a, keeps_wf_if Q (k a)) -> keeps_wf_if Q (bind m k).
Proof.
  intros Hm Hk w r w'. unfold bind.
  destruct (m w) as [[a|e] w1] eqn:Hmw; intros H.
  - destruct (Hm _ _ _ Hmw) as [Hc Hw], (Hk _ _ _ _ H) as [Hc' Hw'].
    split; [congruence | auto].
  - injection H as _ <-. exact (Hm _ _ _ Hmw).
Qed.

Lemma kw_makedirs_path (p : path) (ok : bool) :
  keeps_wf_if (valid_path p) (Os.makedirs_path p ok).
Proof.
  intros w r w'. unfold Os.makedirs_path.
  destruct p as [|x p]; [destruct ok; intros [= _ <-]; auto|].
  destruct (Os.mkdirs_from [] (x :: p) ok (root w)) as [r0|e] eqn:Hrun;
    intros [= _ <-]; [|auto].
  split; [reflexivity|]. intros Hp Hwf. exact (mkdirs_from_wf _ _ _ _ _ Hrun Hwf Hp).
Qed.

Lemma kw_write_path (p : path) (c : content) :
  keeps_wf_if (valid_path p) (Os.write_path p c).
Proof.
  intros w r w'. unfold Os.write_path.
  destruct p as [|x p]; [intros [= _ <-]; auto|].
  destruct (lookup (x :: p) (root w)) as [[d|es]|];
    destruct (lookup (removelast (x :: p)) (root w)) as [[d'|es']|];
    intros H; apply (f_equal snd) in H; cbn [snd] in H; subst w'; auto;
    (split; [reflexivity|]); intros Hp Hwf; cbn [root];
    (apply wf_put_some; [exact Hwf | exact I | exact Hp]).
Qed.

Lemma kw_weaken {A} (Q Q' : Prop) (m : M A) :
  (Q' -> Q) -> keeps_wf_if Q m -> keeps_wf_if Q' m.
Proof. intros HQ Hm w r w' H. destruct (Hm _ _ _ H). auto. Qed.

(** Extraction keeps a well-formed tree well formed when the names of
    the working directory are plain names. *)
Lemma extract_member_wf (target : string) (m : string * string) (w w' : world)
    (r : result unit) :
  Os.extract_member target m w = (r, w') ->
  cwd w' = cwd w /\ (valid_path (cwd w) -> wf (root w) -> wf (root w')).
Proof.
  unfold Os.extract_member. unfold bind at 1, get_world.
  set (targetpath := resolve (cwd w) target
                     ++ filter (fun c => valid_name c) (Py.split "/" (fst m))).
  assert (Htp : valid_path (cwd w) -> valid_path targetpath).
  { intros Hcwd. apply Forall_app. split; [now apply resolve_valid|].
    apply Forall_forall. intros c Hc. now apply filter_In in Hc as [_ Hc]. }
  revert r w'.
  apply (kw_bind (valid_path (cwd w))).
  - destruct (lookup (removelast targetpath) (root w)); [apply kw_ret|].
    eapply kw_weaken; [|apply kw_makedirs_path].
    intros Hcwd. apply valid_removelast. auto.
  - intros _. destruct (Os.ends_with_slash (fst m)).
    + apply kw_bind; [apply kw_get_world|]. intros w0.
      destruct (is_dir _); [apply kw_ret|].
      eapply kw_weaken; [|apply kw_makedirs_path]. exact Htp.
    + eapply kw_weaken; [|apply kw_write_path]. exact Htp.
Qed.

Lemma extractall_wf (zip : list (string * string)) (target : string) :
  forall (w w' : world) (r : result unit),
    Os.extractall zip target w = (r, w') ->
    cwd w' = cwd w /\ (valid_path (cwd w) -> wf (root w) -> wf (root w')).
Proof.
  unfold Os.extractall. induction zip as [|m zip IH]; intros w w' r.
  - intros [= _ <-]. auto.
  - cbn [for_each]. unfold bind at 1.
    destruct (Os.extract_member target m w) as [[[]|e] w1] eqn:Hm; intros H.
    + destruct (extract_member_wf _ _ _ _ _ Hm) as [Hc Hw], (IH _ _ _ H) as [Hc' Hw'].
      split; [congruence|]. intros Hcwd Hwf. apply Hw'; [now rewrite Hc | auto].
    + injection H as _ <-. exact (extract_member_wf _ _ _ _ _ Hm).
Qed.
Definition removed_names : list string := "classes.jar" :: Config.blacklist_files.

Lemma removed_names_relative (f : string) : In f removed_names -> relative_names f.
Proof.
  intros Hin. unfold relative_names. apply Forall_forall. intros c Hc.
  assert (H : forallb (fun g => forallb valid_name (Py.split "/" g)) removed_names = true)
    by reflexivity.
  rewrite forallb_forall in H. specialize (H f Hin).
  rewrite forallb_forall in H. exact (H c Hc).
Qed.

(** C2 (as the code has it).  Start from a well-formed tree and let the
    extraction of the archive into [target_dir] end normally.  Whenever
    [process_aar]
    ends normally, [target_dir] holds no [classes.jar], none of the paths
    of [blacklist_files], and none of the directories below it that were
    empty right after the extraction.  And it does end normally unless
    [classes.jar] or one of the listed paths is a directory there. *)
Theorem process_aar_outcome (artifact_file target_dir : string)
    (zip : list (string * string)) (w w1 : world) :
  wf (root w) ->
  valid_path (cwd w) ->
  target_dir <> "" ->
  Os.ZipFile artifact_file w = (Ok zip, w) ->
  Os.extractall zip target_dir w = (Ok tt, w1) ->
  let there := resolve (cwd w1) target_dir in
  (forall w',
     process_aar artifact_file target_dir w = (Ok tt, w') ->
     Os.path_exists w' (Py.os_path_join target_dir "classes.jar") = false
     /\ (forall f, In f Config.blacklist_files ->
           Os.path_exists w' (Py.os_path_join target_dir f) = false)
     /\ (forall rel, rel <> [] ->
           lookup (there ++ rel) (root w1) = Some (Dir []) ->
           lookup (there ++ rel) (root w') = None))
  /\ ((forall f, In f removed_names ->
         Os.path_isdir w1 (Py.os_path_join target_dir f) = false) ->
      exists w', process_aar artifact_file target_dir w = (Ok tt, w')).
Proof.
  intros Hwf0 Hcwd Htarget Hzip Hext there.
  assert (Hwf : wf (root w1)) by (now apply (extractall_wf _ _ _ _ _ Hext)).
  rewrite (process_aar_steps _ _ _ _ _ Hzip Hext).
  assert (Hwalk : forall w2, shrinks w1 w2 ->
            exists w3,
              Os.walk_do (height (root w2)) target_dir remove_empty_dirs w2 = (Ok tt, w3)
              /\ shrinks w2 w3
              /\ (forall rel, rel <> [] ->
                    lookup (there ++ rel) (root w2) = Some (Dir []) ->
                    lookup (there ++ rel) (root w3) = None)).
  { intros w2 Hsh.
    destruct (walk_removes_empty_dirs (height (root w2)) target_dir w2)
      as (w3 & Hrun & _ & Hgone).
    - exact (sh_wf _ _ Hsh Hwf).
    - exact Htarget.
    - destruct (lookup _ (root w2)) eqn:Hl; [|exact I]. exact (height_lookup _ _ _ Hl).
    - exists w3. split; [exact Hrun|]. split.
      + eapply del_walk; [|exact Hrun]. intros. apply del_remove_empty_dirs.
      + subst there. rewrite <- (sh_cwd _ _ Hsh). exact Hgone. }
  split.
  - intros w' Hrun.
    destruct (remove_if_exists (Py.os_path_join target_dir "classes.jar") w1)
      as [[[]|e] w2] eqn:Hjar; [|discriminate].
    pose proof (del_remove_if_exists _ _ _ _ Hjar) as Hsh12.
    destruct (Hwalk w2 Hsh12) as (w3 & Hrun3 & Hsh23 & Hgone).
    rewrite Hrun3 in Hrun.
    assert (Hsh3 : shrinks w3 w').
    { eapply (del_for_each Config.blacklist_files); [|exact Hrun].
      intros x. apply del_remove_if_exists. }
    split; [|split].
    + apply (shrinks_absent w3 _ _ Hsh3), (shrinks_absent w2 _ _ Hsh23).
      exact (proj1 (remove_if_exists_ok _ _ _ Hjar)).
    + exact (cruft_gone _ _ _ _ Hrun).
    + intros rel Hrel Hempty.
      apply (sh_none _ _ Hsh3), Hgone; [exact Hrel|].
      destruct (proj2 (remove_if_exists_ok _ _ _ Hjar)) as [->|(c & Hfile & ->)];
        [exact Hempty|].
      cbn [root]. rewrite lookup_put_apart; [exact Hempty|].
      exact (file_apart_empty_dir _ _ _ _ Hfile Hempty).
  - intros Hnotdir.
    destruct (remove_if_exists_runs (Py.os_path_join target_dir "classes.jar") w1)
      as [w2 Hjar].
    { apply Hnotdir. now left. }
    { apply resolve_join_nonempty, removed_names_relative. now left. }
    rewrite Hjar.
    pose proof (del_remove_if_exists _ _ _ _ Hjar) as Hsh12.
    destruct (Hwalk w2 Hsh12) as (w3 & Hrun3 & Hsh23 & _).
    rewrite Hrun3.
    apply cruft_runs. intros f Hf. split.
    + apply (shrinks_notdir w2 _ _ Hsh23), (shrinks_notdir w1 _ _ Hsh12).
      apply Hnotdir. now right.
    + apply resolve_join_nonempty, removed_names_relative. now right.
Qed.

(** ** The example archive *)

Lemma process_aar_outcome_witness :
  exists w',
    process_aar "work/lib.aar" "work/out" Demo.aar_world = (Ok tt, w')
    /\ Os.path_exists w' "work/out/classes.jar" = false
    /\ Os.path_exists w' "work/out/R.txt" = false
    /\ lookup ["work"; "out"; "res"] (root w') = None.
Proof.
  destruct (Os.extractall Demo.lib_aar_members "work/out" Demo.aar_world)
    as [r w1] eqn:Hext.
  assert (Hr : r = Ok tt) by (vm_compute in Hext; now injection Hext as <- _).
  subst r.
  assert (Hres : lookup ["work"; "out"; "res"] (root w1) = Some (Dir [])).
  { vm_compute in Hext. injection Hext as <-. reflexivity. }
  assert (Hfiles : forall f, In f removed_names ->
            Os.path_isdir w1 (Py.os_path_join "work/out" f) = false).
  { vm_compute in Hext. injection Hext as <-. intros f Hf.
    repeat (destruct Hf as [<-|Hf]; [reflexivity|]). destruct Hf. }
  assert (Hcwd : cwd w1 = []).
  { vm_compute in Hext. now injection Hext as <-. }
  destruct (process_aar_outcome "work/lib.aar" "work/out" Demo.lib_aar_members
              Demo.aar_world w1) as [Hpost Hruns]; try assumption;
    [apply wfb_sound; reflexivity | constructor | discriminate | reflexivity |].
  destruct (Hruns Hfiles) as [w' Hrun].
  destruct (Hpost w' Hrun) as (Hjar & Hcruft & Hdirs).
  exists w'. split; [exact Hrun|]. split; [exact Hjar|]. split.
  - apply (Hcruft "R.txt"). simpl. tauto.
  - specialize (Hdirs ["res"]). rewrite Hcwd in Hdirs. apply Hdirs; [discriminate|].
    exact Hres.
Defined.

(** The directory [libs] of the example archive holds the listed file
    [noto-emoji-compat-java.jar] and nothing else: the removal of that
    file leaves it empty, and it is still there at the end (and so is
    [jni], emptied by the walk itself). *)
Lemma emptied_directory_stays_counterexample :
  exists w1 w',
    Os.extractall Demo.lib_aar_members "work/out" Demo.aar_world = (Ok tt, w1)
    /\ process_aar "work/lib.aar" "work/out" Demo.aar_world = (Ok tt, w')
    /\ Os.os_listdir "work/out/libs" w1 = (Ok ["noto-emoji-compat-java.jar"], w1)
    /\ In "libs/noto-emoji-compat-java.jar" Config.blacklist_files
    /\ Os.os_listdir "work/out/libs" w' = (Ok [], w')
    /\ Os.path_isdir w' "work/out/libs" = true.
Proof.
  do 2 eexists. split; [vm_compute; reflexivity|]. split; [vm_compute; reflexivity|].
  split; [reflexivity|]. split; [simpl; tauto|]. split; reflexivity.
Qed.

End AarFacts.

(* ===================================================================== *)
(** * The pipeline *)
(* ===================================================================== *)

Module PipelineFacts.
Import Pipeline.

Section WithPlatform.
Context {P : Platform}.

(** ** Discovery only reads *)

Definition reads_only {A} (m : M A) : Prop :=
  forall w r w', m w = (r, w') -> root w' = root w /\ cwd w' = cwd w.

Lemma ro_ret {A} (a : A) : reads_only (ret a).
Proof. intros w r w' [= _ <-]. auto. Qed.

Lemma ro_bind {A B} (m : M A) (k : A -> M B) :
  reads_only m -> (forall a, reads_only (k a)) -> reads_only (bind m k).
Proof.
  intros Hm Hk w r w'. unfold bind.
  destruct (m w) as [[a|e] w1] eqn:Hmw; intros H.
  - destruct (Hm _ _ _ Hmw) as [Hr Hc], (Hk _ _ _ _ H) as [Hr' Hc'].
    split; congruence.
  - injection H as _ <-. exact (Hm _ _ _ Hmw).
Qed.

Lemma ro_fold_each {A S} (l : list A) (body : S -> A -> M S) :
  (forall s x, reads_only (body s x)) -> forall s, reads_only (fold_each l body s).
Proof.
  intros Hb. induction l as [|x l IH]; intros s; simpl; [apply ro_ret|].
  apply ro_bind; [apply Hb | exact IH].
Qed.

Lemma ro_print_e (line : string) : reads_only (print_e line).
Proof. intros w r w' [= _ <-]. auto. Qed.

Lemma ro_read_lines (p : string) : reads_only (Os.read_lines p).
Proof.
  intros w r w'. unfold Os.read_lines.
  destruct (Os.node_at w p) as [[[s|ms]|es]|]; intros [= _ <-]; auto.
Qed.

Lemma ro_exists (p : string) : reads_only (Os.os_path_exists p).
Proof. intros w r w' [= _ <-]. auto. Qed.

Lemma ro_walk (p : string) : reads_only (Os.os_walk p).
Proof.
  intros w r w'. unfold Os.os_walk. destruct (Os.node_at w p); intros [= _ <-]; auto.
Qed.

Lemma ro_resolve_pom (tbl : Config.dict Config.make_entry) (repo_dir root file : string) :
  reads_only (Discovery.resolve_pom tbl repo_dir root file).
Proof.
  unfold Discovery.resolve_pom. apply ro_bind; [apply ro_read_lines|]. intros lines.
  destruct (Discovery.read_pom lines) as [[g a] v].
  destruct (_ || _ || _).
  - apply ro_bind; [apply ro_print_e | intros; apply ro_ret].
  - apply ro_bind; [apply ro_exists|]. intros jar.
    apply ro_bind.
    + destruct jar; [apply ro_ret|].
      apply ro_bind; [apply ro_exists|]. intros aar. destruct aar; apply ro_ret.
    + intros [f|]; [|apply ro_ret].
      destruct (Discovery.find_mapping tbl g a); apply ro_ret.
Qed.

Lemma ro_detect (tbl : Config.dict Config.make_entry) (dirs : list string) :
  reads_only (Discovery.detect_artifacts tbl dirs).
Proof.
  unfold Discovery.detect_artifacts. apply ro_fold_each. intros s repo_dir.
  apply ro_bind; [apply ro_walk|]. intros triples.
  apply ro_fold_each. intros s' [[root ds] files].
  apply ro_fold_each. intros s'' file. unfold Discovery.visit_file.
  destruct (String.eqb _ ".pom"); [|apply ro_ret].
  apply ro_bind; [apply ro_resolve_pom|]. intros [info|]; apply ro_ret.
Qed.

(** ** Loops that end normally *)

(** Every round of the loop ended normally, one after the other. *)
Fixpoint each_ok {A} (body : A -> M unit) (l : list A) (w w' : world) : Prop :=
  match l with
  | [] => w' = w
  | x :: l' => exists w1, body x w = (Ok tt, w1) /\ each_ok body l' w1 w'
  end.

Lemma for_each_ok {A} (body : A -> M unit) (l : list A) (w w' : world) :
  for_each l body w = (Ok tt, w') <-> each_ok body l w w'.
Proof.
  revert w. induction l as [|x l IH]; intros w; simpl.
  - unfold ret. split; [now intros [= <-] | now intros ->].
  - unfold bind. destruct (body x w) as [[[]|e] w1] eqn:Hx.
    + rewrite IH. split; [eauto|]. now intros (w1' & [= <-] & H).
    + split; [discriminate|]. now intros (w1' & [= ] & _).
Qed.

(** ** Sequencing *)

Lemma bind_assoc_at {A B C} (m : M A) (k : A -> M B) (k' : B -> M C) (w : world) :
  bind (bind m k) k' w = bind m (fun a => bind (k a) k') w.
Proof. unfold bind. destruct (m w) as [[a|e] w']; reflexivity. Qed.

Lemma bind_cong {A B} (m : M A) (k1 k2 : A -> M B) (w : world) :
  (forall a w', k1 a w' = k2 a w') -> bind m k1 w = bind m k2 w.
Proof. intros H. unfold bind. destruct (m w) as [[a|e] w']; [apply H | reflexivity]. Qed.

(** ** The order of the steps of [transform_maven_repos] *)

Definition makefile (working_dir : string) : string :=
  Py.os_path_join working_dir "Android.bp".

(** The part of [transform_maven_repos] between discovery and the
    replacement of the old directory: every library is transformed and
    the single [Android.bp] is generated. *)
Definition stage (maven_to_make : Config.dict Config.make_entry) (working_dir : string)
    (maven_lib_info : Config.dict Discovery.MavenLibraryInfo) (extract_res : bool)
    : M unit :=
  for_each (map snd maven_lib_info)
    (fun info => transform_maven_lib maven_to_make working_dir info extract_res) ;;
  let makefile := Py.os_path_join working_dir "Android.bp" in
  Os.write_file makefile (Fs.Text "") ;;
  args <- lift_result (Emit.pom2bp_args maven_to_make) ;;
  out <- subprocess_check_call args working_dir ;;
  Os.write_file makefile (Fs.Text out).

Lemma run_unfold (tbl : Config.dict Config.make_entry) (dirs : list string)
    (dest : string) (flag : bool) (w : world) :
  transform_maven_repos tbl dirs dest flag w
  = match Discovery.detect_artifacts tbl dirs w with
    | (Ok [], w1) =>
        (Ok false, DiscoveryFacts.with_diagnostic w1 "Failed to detect artifacts")
    | (Ok (kv :: rest), w1) =>
        match stage tbl (temp_dir w) (kv :: rest) flag w1 with
        | (Ok _, w2) =>
            match mv (temp_dir w) (Py.os_path_join (Os.getcwd w) dest) w2 with
            | (Ok _, w3) => (Ok true, w3)
            | (Raise e, w3) => (Raise e, w3)
            end
        | (Raise e, w2) => (Raise e, w2)
        end
    | (Raise e, w1) => (Raise e, w1)
    end.
Proof.
  unfold transform_maven_repos. unfold bind at 1, get_world. unfold bind at 1.
  destruct (Discovery.detect_artifacts tbl dirs w) as [[[|kv rest]|e] w1];
    try reflexivity.
  transitivity
    (bind (stage tbl (temp_dir w) (kv :: rest) flag)
       (fun _ => bind (mv (temp_dir w) (Py.os_path_join (Os.getcwd w) dest))
                   (fun _ => ret true)) w1).
  - unfold stage.
    rewrite bind_assoc_at. apply bind_cong. intros [] wa.
    rewrite bind_assoc_at. apply bind_cong. intros [] wb.
    rewrite bind_assoc_at. apply bind_cong. intros args wc.
    rewrite bind_assoc_at. apply bind_cong. intros out wd.
    reflexivity.
  - unfold bind.
    destruct (stage tbl (temp_dir w) (kv :: rest) flag w1) as [[[]|e] w2]; [|reflexivity].
    destruct (mv _ _ w2) as [[[]|e] w3]; reflexivity.
Qed.

Lemma stage_ok (tbl : Config.dict Config.make_entry) (working_dir : string)
    (infos : Config.dict Discovery.MavenLibraryInfo) (flag : bool) (w1 w2 : world) :
  stage tbl working_dir infos flag w1 = (Ok tt, w2) <->
  exists wa wb args out wc,
    each_ok (fun info => transform_maven_lib tbl working_dir info flag) (map snd infos) w1 wa
    /\ Os.write_file (makefile working_dir) (Fs.Text "") wa = (Ok tt, wb)
    /\ Emit.pom2bp_args tbl = Ok args
    /\ subprocess_check_call args working_dir wb = (Ok out, wc)
    /\ Os.write_file (makefile working_dir) (Fs.Text out) wc = (Ok tt, w2).
Proof.
  unfold stage. unfold bind at 1. fold (makefile working_dir). split.
  - destruct (for_each _ _ w1) as [[[]|e] wa] eqn:Hloop; [|discriminate].
    unfold bind at 1.
    destruct (Os.write_file _ (Fs.Text "") wa) as [[[]|e] wb] eqn:Hopen; [|discriminate].
    unfold bind at 1, lift_result.
    destruct (Emit.pom2bp_args tbl) as [args|e] eqn:Hargs; [|discriminate].
    unfold bind at 1.
    destruct (subprocess_check_call args working_dir wb) as [[out|e] wc] eqn:Hcall;
      [|discriminate].
    intros Hwrite. exists wa, wb, args, out, wc.
    repeat split; try assumption; try reflexivity. now apply for_each_ok.
  - intros (wa & wb & args & out & wc & Hloop & Hopen & Hargs & Hcall & Hwrite).
    apply for_each_ok in Hloop. rewrite Hloop.
    unfold bind at 1. rewrite Hopen.
    unfold bind at 1, lift_result. rewrite Hargs.
    unfold bind at 1. rewrite Hcall. exact Hwrite.
Qed.

(** C5.  A run of [transform_maven_repos] in which discovery finds nothing
    prints its diagnostic and returns [False], and the directory tree is
    the one it started from.  A run returns [True] exactly when discovery
    found something, then each artifact was transformed, then [Android.bp]
    was written by [pom2bp], all ending normally, and only then the move
    onto the destination ran, ending normally too.  When a transformation
    or the generation raises, the run raises there and the move onto the
    destination does not take place. *)
Theorem replacement_comes_last (maven_to_make : Config.dict Config.make_entry)
    (maven_repo_dirs : list string) (transformed_dir : string) (extract_res : bool)
    (w : world) :
  let run := transform_maven_repos maven_to_make maven_repo_dirs transformed_dir extract_res w in
  let working_dir := temp_dir w in
  let local_repo := Py.os_path_join (Os.getcwd w) transformed_dir in
  (forall w1,
     Discovery.detect_artifacts maven_to_make maven_repo_dirs w = (Ok [], w1) ->
     run = (Ok false, DiscoveryFacts.with_diagnostic w1 "Failed to detect artifacts")
     /\ root (snd run) = root w)
  /\ (forall w',
        run = (Ok true, w') <->
        exists maven_lib_info w1 wa wb args out wc w2,
          Discovery.detect_artifacts maven_to_make maven_repo_dirs w = (Ok maven_lib_info, w1)
          /\ maven_lib_info <> []
          /\ each_ok (fun info => transform_maven_lib maven_to_make working_dir info extract_res)
               (map snd maven_lib_info) w1 wa
          /\ Os.write_file (makefile working_dir) (Fs.Text "") wa = (Ok tt, wb)
          /\ Emit.pom2bp_args maven_to_make = Ok args
          /\ subprocess_check_call args working_dir wb = (Ok out, wc)
          /\ Os.write_file (makefile working_dir) (Fs.Text out) wc = (Ok tt, w2)
          /\ mv working_dir local_repo w2 = (Ok tt, w'))
  /\ (forall maven_lib_info w1 e w2,
        Discovery.detect_artifacts maven_to_make maven_repo_dirs w = (Ok maven_lib_info, w1) ->
        maven_lib_info <> [] ->
        stage maven_to_make working_dir maven_lib_info extract_res w1 = (Raise e, w2) ->
        run = (Raise e, w2)).
Proof.
  intros run working_dir local_repo. subst run. rewrite run_unfold.
  fold working_dir. fold local_repo.
  split; [|split].
  - intros w1 Hdet. rewrite Hdet. split; [reflexivity|].
    exact (proj1 (ro_detect _ _ _ _ _ Hdet)).
  - intros w'.
    destruct (Discovery.detect_artifacts maven_to_make maven_repo_dirs w)
      as [[[|kv rest]|e] w1] eqn:Hdet.
    + split; [discriminate|].
      intros (i & w1' & wa & wb & args & out & wc & w2 & [= <- <-] & Hne & _).
      congruence.
    + split.
      * destruct (stage _ _ _ _ w1) as [[[]|e] w2] eqn:Hstage; [|discriminate].
        destruct (mv working_dir local_repo w2) as [[[]|e] w3] eqn:Hmv; [|discriminate].
        intros [= <-].
        apply stage_ok in Hstage as (wa & wb & args & out & wc & H1 & H2 & H3 & H4 & H5).
        exists (kv :: rest), w1, wa, wb, args, out, wc, w2.
        repeat split; try assumption; discriminate.
      * intros (i & w1' & wa & wb & args & out & wc & w2
                & [= <- <-] & _ & H1 & H2 & H3 & H4 & H5 & Hmv).
        assert (Hstage : stage maven_to_make working_dir (kv :: rest) extract_res w1
                         = (Ok tt, w2)).
        { apply stage_ok. exists wa, wb, args, out, wc. auto. }
        rewrite Hstage, Hmv. reflexivity.
    + split; [discriminate|].
      intros (i & w1' & wa & wb & args & out & wc & w2 & [= ] & _).
  - intros info w1 e w2 Hdet Hne Hstage. rewrite Hdet.
    destruct info as [|kv info]; [congruence|].
    rewrite Hstage. reflexivity.
Qed.


(** ** The manifest of an archive *)

(** The last step of [transform_maven_lib] on an archive. *)
Definition extract_manifest (working_dir artifact_file make_lib_name : string) : M unit :=
  zip <- Os.ZipFile artifact_file ;;
  Os.extract zip "AndroidManifest.xml"
    (Py.os_path_join (Py.os_path_join working_dir "manifests") make_lib_name).

(** The steps of [transform_maven_lib] before it; they hand on the path
    of the moved payload and the target name. *)
Definition prepare (maven_to_make : Config.dict Config.make_entry) (working_dir : string)
    (artifact_info : Discovery.MavenLibraryInfo) (extract_res : bool)
    : M (string * string) :=
  rel <- Os.os_path_relpath (Discovery.dir artifact_info) (Discovery.repo_dir artifact_info) ;;
  let new_dir := Os.os_path_normpath (Py.os_path_join working_dir rel) in
  mv (Discovery.dir artifact_info) new_dir ;;
  (if Re.fullmatch artifact_pattern (Discovery.file artifact_info) then ret tt
   else raise (AttributeError "'NoneType' object has no attribute 'group'")) ;;
  make_lib_name <- lift_result (Emit.name_of maven_to_make (Discovery.key artifact_info)) ;;
  make_dir_name <- lift_result (Emit.path_of maven_to_make (Discovery.key artifact_info)) ;;
  let artifact_file := Py.os_path_join new_dir (Discovery.file artifact_info) in
  (if String.eqb (Py.take_last 3 (Discovery.file artifact_info)) "aar" && extract_res
   then
     let target_dir := Py.os_path_join working_dir make_dir_name in
     ex <- Os.os_path_exists target_dir ;;
     when (negb ex) (Os.os_makedirs target_dir) ;;
     process_aar artifact_file target_dir
   else ret tt) ;;
  ret (artifact_file, make_lib_name).

Lemma transform_split (tbl : Config.dict Config.make_entry) (working_dir : string)
    (info : Discovery.MavenLibraryInfo) (flag : bool) (w : world) :
  transform_maven_lib tbl working_dir info flag w
  = match prepare tbl working_dir info flag w with
    | (Ok (artifact_file, make_lib_name), w1) =>
        if String.eqb (Py.take_last 3 (Discovery.file info)) "aar"
        then extract_manifest working_dir artifact_file make_lib_name w1
        else (Ok tt, w1)
    | (Raise e, w1) => (Raise e, w1)
    end.
Proof.
  transitivity
    (bind (prepare tbl working_dir info flag)
       (fun x => if String.eqb (Py.take_last 3 (Discovery.file info)) "aar"
                 then extract_manifest working_dir (fst x) (snd x)
                 else ret tt) w).
  2: { unfold bind. destruct (prepare tbl working_dir info flag w) as [[[af n]|e] w1];
       [|reflexivity]. simpl. now destruct (String.eqb _ "aar"). }
  unfold transform_maven_lib, prepare.
  rewrite bind_assoc_at. apply bind_cong. intros rel w0.
  rewrite bind_assoc_at. apply bind_cong. intros [] w1.
  rewrite bind_assoc_at. apply bind_cong. intros [] w2.
  rewrite bind_assoc_at. apply bind_cong. intros name w3.
  rewrite bind_assoc_at. apply bind_cong. intros path w4.
  rewrite bind_assoc_at.
  destruct (String.eqb (Py.take_last 3 (Discovery.file info)) "aar"); [|reflexivity].
  destruct flag; cbn [andb]; [|reflexivity].
  apply bind_cong. intros [] w5. reflexivity.
Qed.

Lemma write_path_ok (p : Fs.path) (c : Fs.content) (w w' : world) :
  Os.write_path p c w = (Ok tt, w') ->
  Fs.lookup p (root w') = Some (Fs.File c).
Proof.
  unfold Os.write_path. destruct p as [|x p]; [discriminate|].
  destruct (Fs.lookup (x :: p) (root w)) as [[d|es]|];
    destruct (Fs.lookup (removelast (x :: p)) (root w)) as [[d'|es']|] eqn:Hparent;
    try discriminate; intros H;
    apply (f_equal (fun r => root (snd r))) in H; cbn [snd root] in H; rewrite <- H;
    apply (FsFacts.lookup_put_same _ _ _ es'); try discriminate; exact Hparent.
Qed.

(** Where the extraction of the manifest ends normally, the archive has
    the member and the directory it was extracted to holds it. *)
Lemma extract_manifest_ok (zip : list (string * string)) (target : string) (w w' : world) :
  Os.extract zip "AndroidManifest.xml" target w = (Ok tt, w') ->
  exists data,
    In ("AndroidManifest.xml", data) zip
    /\ Fs.lookup (Fs.resolve (cwd w) target ++ ["AndroidManifest.xml"]) (root w')
       = Some (Fs.File (Fs.Text data)).
Proof.
  unfold Os.extract.
  destruct (find _ (rev zip)) as [[n data]|] eqn:Hfind; [|discriminate].
  apply find_some in Hfind as [Hin Hname]. apply in_rev in Hin. simpl in Hname.
  apply String.eqb_eq in Hname. subst n.
  intros Hrun. exists data. split; [exact Hin|].
  unfold Os.extract_member in Hrun. unfold bind at 1, get_world in Hrun.
  cbn [fst snd] in Hrun.
  change (filter (fun c => Fs.valid_name c) (Py.split "/" "AndroidManifest.xml"))
    with ["AndroidManifest.xml"] in Hrun.
  change (Os.ends_with_slash "AndroidManifest.xml") with false in Hrun.
  cbv iota in Hrun. unfold bind in Hrun.
  destruct (match Fs.lookup _ (root w) with
            | Some _ => ret tt
            | None => Os.makedirs_path _ false
            end w) as [[[]|e] wA]; [|discriminate].
  exact (write_path_ok _ _ _ _ Hrun).
Qed.

(** C8.  On a payload whose name ends in [aar], whatever the
    extract-resources flag: once the steps before it have ended normally,
    [transform_maven_lib] goes on with the extraction of
    [AndroidManifest.xml] from the moved payload into
    [manifests/<target name>] below the working directory, and nothing
    else; and where that ends normally, this directory holds the manifest
    that the archive holds. *)
Theorem manifest_is_extracted (maven_to_make : Config.dict Config.make_entry)
    (working_dir : string) (artifact_info : Discovery.MavenLibraryInfo)
    (extract_res : bool) (w w1 : world) (artifact_file make_lib_name : string) :
  Py.take_last 3 (Discovery.file artifact_info) = "aar" ->
  prepare maven_to_make working_dir artifact_info extract_res w
  = (Ok (artifact_file, make_lib_name), w1) ->
  let manifest_dir :=
    Py.os_path_join (Py.os_path_join working_dir "manifests") make_lib_name in
  Emit.name_of maven_to_make (Discovery.key artifact_info) = Ok make_lib_name
  /\ transform_maven_lib maven_to_make working_dir artifact_info extract_res w
     = (zip <- Os.ZipFile artifact_file ;;
        Os.extract zip "AndroidManifest.xml" manifest_dir) w1
  /\ (forall w2,
        transform_maven_lib maven_to_make working_dir artifact_info extract_res w
        = (Ok tt, w2) ->
        exists zip data,
          Os.ZipFile artifact_file w1 = (Ok zip, w1)
          /\ In ("AndroidManifest.xml", data) zip
          /\ Fs.lookup (Fs.resolve (cwd w1) manifest_dir ++ ["AndroidManifest.xml"]) (root w2)
             = Some (Fs.File (Fs.Text data))).
Proof.
  intros Haar Hprep manifest_dir.
  assert (Hrun : transform_maven_lib maven_to_make working_dir artifact_info extract_res w
                 = extract_manifest working_dir artifact_file make_lib_name w1).
  { rewrite transform_split, Hprep, Haar. reflexivity. }
  split; [|split].
  - revert Hprep. unfold prepare.
    unfold bind at 1. destruct (Os.os_path_relpath _ _ w) as [[rel|e] w0]; [|discriminate].
    unfold bind at 1. destruct (mv _ _ w0) as [[[]|e] wa]; [|discriminate].
    unfold bind at 1.
    destruct ((if Re.fullmatch artifact_pattern (Discovery.file artifact_info)
               then ret tt else raise _) wa) as [[[]|e] wb]; [|discriminate].
    unfold bind at 1, lift_result.
    destruct (Emit.name_of maven_to_make (Discovery.key artifact_info)) as [name|e];
      [|discriminate].
    unfold bind at 1.
    destruct (Emit.path_of maven_to_make (Discovery.key artifact_info)) as [path|e];
      [|discriminate].
    unfold bind at 1.
    destruct ((if _ && _ then _ else ret tt) wb) as [[[]|e] wc]; [|discriminate].
    now intros [= _ <- _].
  - exact Hrun.
  - intros w2 Hok. rewrite Hrun in Hok. unfold extract_manifest, bind in Hok.
    destruct (Os.ZipFile artifact_file w1) as [[zip|e] w1'] eqn:Hzip; [|discriminate].
    assert (w1' = w1) as ->.
    { revert Hzip. unfold Os.ZipFile.
      destruct (Os.node_at w1 artifact_file) as [[[s|ms]|es]|]; now intros [= _ <-]. }
    destruct (extract_manifest_ok _ _ _ _ Hok) as (data & Hin & Hfile).
    exists zip, data. repeat split; assumption.
Qed.

End WithPlatform.

(** ** The example repository *)

#[local] Existing Instance Demo.platform.

Lemma replacement_comes_last_witness :
  Discovery.detect_artifacts Demo.table ["nowhere"] Demo.repo_world
  = (Ok [], Demo.repo_world)
  /\ transform_maven_repos Demo.table ["nowhere"] "gmaven" true Demo.repo_world
     = (Ok false,
        DiscoveryFacts.with_diagnostic Demo.repo_world "Failed to detect artifacts")
  /\ root (snd (transform_maven_repos Demo.table ["nowhere"] "gmaven" true Demo.repo_world))
     = root Demo.repo_world.
Proof.
  split; [reflexivity|].
  exact (proj1 (replacement_comes_last Demo.table ["nowhere"] "gmaven" true Demo.repo_world)
           Demo.repo_world eq_refl).
Defined.

Definition lib_1_2_0 : Discovery.MavenLibraryInfo :=
  {| Discovery.key := "g:lib";
     Discovery.group_id := "g";
     Discovery.artifact_id := "lib";
     Discovery.version := [1; 2; 0];
     Discovery.dir := "gmaven/g/lib/1.2.0";
     Discovery.repo_dir := "gmaven";
     Discovery.file := "lib-1.2.0.aar" |}.

(** Without resource extraction the manifest still lands in
    [manifests/g_lib]. *)
Lemma manifest_is_extracted_witness :
  exists w1 artifact_file w2,
    prepare Demo.table "/support_tmp" lib_1_2_0 false Demo.repo_world
    = (Ok (artifact_file, "g_lib"), w1)
    /\ transform_maven_lib Demo.table "/support_tmp" lib_1_2_0 false Demo.repo_world
       = (Ok tt, w2)
    /\ exists zip data,
         Os.ZipFile artifact_file w1 = (Ok zip, w1)
         /\ In ("AndroidManifest.xml", data) zip
         /\ Fs.lookup (Fs.resolve (cwd w1) "/support_tmp/manifests/g_lib"
                       ++ ["AndroidManifest.xml"]) (root w2)
            = Some (Fs.File (Fs.Text data)).
Proof.
  destruct (prepare Demo.table "/support_tmp" lib_1_2_0 false Demo.repo_world)
    as [[[af name]|e] w1] eqn:Hprep; [|vm_compute in Hprep; discriminate].
  assert (Hname : name = "g_lib") by (vm_compute in Hprep; now injection Hprep as _ <- _).
  subst name.
  destruct (transform_maven_lib Demo.table "/support_tmp" lib_1_2_0 false Demo.repo_world)
    as [[[]|e] w2] eqn:Hrun; [|vm_compute in Hrun; discriminate].
  exists w1, af, w2. split; [reflexivity|]. split; [reflexivity|].
  destruct (manifest_is_extracted Demo.table "/support_tmp" lib_1_2_0 false
              Demo.repo_world w1 af "g_lib" eq_refl Hprep) as (_ & _ & Heffect).
  apply Heffect. exact Hrun.
Defined.

End PipelineFacts.

(* ===================================================================== *)
(** * Removing and moving *)
(* ===================================================================== *)

Module FileOpsFacts.
Import Fs Pipeline FsFacts PathFacts.

(** ** [os.path.dirname] and [os.path.basename] against path resolution *)

Lemma norm_empties (acc : path) (l : list string) (k : nat) :
  norm acc (l ++ repeat "" k) = norm acc l.
Proof.
  rewrite norm_app. induction k as [|k IH]; [reflexivity|exact IH].
Qed.

Lemma rstrip_slashes_only (s : string) :
  Os.rstrip_slash s = "" -> Py.split "/" s = repeat "" (S (String.length s)).
Proof.
  induction s as [|c s IH]; [reflexivity|]. simpl.
  destruct (Os.rstrip_slash s) eqn:Hr.
  - destruct (Ascii.eqb c "/"); [|discriminate]. intros _. now rewrite IH.
  - discriminate.
Qed.

Lemma split_rstrip (s : string) :
  Os.rstrip_slash s <> "" ->
  exists k, Py.split "/" s = Py.split "/" (Os.rstrip_slash s) ++ repeat "" k.
Proof.
  induction s as [|c s IH]; [now intros []|]. simpl.
  destruct (Os.rstrip_slash s) as [|d r] eqn:Hr.
  - destruct (Ascii.eqb c "/") eqn:Hc; [now intros []|]. intros _.
    exists (String.length s). simpl. rewrite Hc.
    rewrite (rstrip_slashes_only s Hr). reflexivity.
  - intros _. destruct IH as [k Hk]; [discriminate|].
    exists k. change (Py.split "/" (String c (String d r)))
      with (if Ascii.eqb c "/" then "" :: Py.split "/" (String d r)
            else match Py.split "/" (String d r) with
                 | f :: fs => String c f :: fs
                 | [] => [String c ""]
                 end).
    destruct (Ascii.eqb c "/"); [now rewrite Hk|].
    rewrite Hk.
    destruct (Py.split "/" (String d r)) as [|f fs] eqn:Hs;
      [now apply PyFacts.split_nonempty in Hs|reflexivity].
Qed.

Lemma prefix_same_head (c : ascii) (x y : string) :
  String.prefix "/" (String c x) = String.prefix "/" (String c y).
Proof.
  cbn [String.prefix]. destruct (ascii_dec "/" c); [|reflexivity].
  now rewrite !prefix_nil.
Qed.

Lemma prefix_rstrip (s : string) :
  Os.rstrip_slash s <> "" -> String.prefix "/" (Os.rstrip_slash s) = String.prefix "/" s.
Proof.
  destruct s as [|c s]; [reflexivity|]. cbn [Os.rstrip_slash].
  destruct (Os.rstrip_slash s).
  - destruct (Ascii.eqb c "/"); [now intros []|]. intros _. apply prefix_same_head.
  - intros _. apply prefix_same_head.
Qed.

Lemma resolve_rstrip (cwd : path) (s : string) :
  Os.rstrip_slash s <> "" -> resolve cwd (Os.rstrip_slash s) = resolve cwd s.
Proof.
  intros H. unfold resolve. rewrite (prefix_rstrip s H).
  destruct (split_rstrip s H) as [k ->]. now rewrite norm_empties.
Qed.

Lemma join_snoc (sep : string) (l : list string) (b : string) :
  l <> [] -> Py.join sep (l ++ [b]) = Py.join sep l +:+ sep +:+ b.
Proof.
  induction l as [|a l IH]; [now intros []|]. intros _.
  destruct l as [|a' l]; [reflexivity|].
  change (Py.join sep ((a :: a' :: l) ++ [b]))
    with (a +:+ sep +:+ Py.join sep ((a' :: l) ++ [b])).
  rewrite IH by discriminate.
  change (Py.join sep (a :: a' :: l)) with (a +:+ sep +:+ Py.join sep (a' :: l)).
  now rewrite !PyFacts.append_assoc.
Qed.

Lemma split_init_last (p : string) :
  Py.split "/" p = removelast (Py.split "/" p) ++ [Os.os_path_basename p].
Proof.
  unfold Os.os_path_basename. apply app_removelast_last, PyFacts.split_nonempty.
Qed.

(** The head [os.path.split] cuts off resolves to what the components
    before the last resolve to. *)
Lemma resolve_split_head (cwd : path) (p : string) :
  removelast (Py.split "/" p) <> [] ->
  resolve cwd (Os.split_head p)
  = norm (if String.prefix "/" p then [] else cwd) (removelast (Py.split "/" p)).
Proof.
  intros Hinit.
  pose proof (split_init_last p) as Hp.
  set (init := removelast (Py.split "/" p)) in *.
  set (b := Os.os_path_basename p) in *.
  assert (Hb : Py.contains "/" b = false).
  { apply (PyFacts.split_fields_clean "/" p). rewrite Hp. apply in_or_app. right. now left. }
  assert (Hjoin : p = Py.join "/" init +:+ "/" +:+ b).
  { rewrite <- (PyFacts.join_split "/" p) at 1. rewrite Hp. now apply join_snoc. }
  assert (Hsplit : Py.split "/" (Py.join "/" init) = init).
  { pose proof Hp as Hp'. rewrite Hjoin in Hp' at 1.
    change ("/" +:+ b) with (String "/" b) in Hp'.
    rewrite PyFacts.split_app, (PyFacts.split_clean "/" b Hb) in Hp'.
    now apply app_inj_tail in Hp'. }
  assert (Hhead : Os.split_head p = Py.join "/" init +:+ "/").
  { unfold Os.split_head. rewrite Hp.
    transitivity (Py.join "/" (removelast (init ++ [b])) +:+ "/").
    - destruct init as [|a [|a' init']]; [now destruct Hinit|reflexivity..].
    - now rewrite removelast_last. }
  rewrite Hhead. unfold resolve.
  replace (String.prefix "/" (Py.join "/" init +:+ "/")) with (String.prefix "/" p).
  - replace (Py.join "/" init +:+ "/") with (Py.join "/" init +:+ String "/" "")
      by reflexivity.
    rewrite PyFacts.split_app, Hsplit. apply (norm_empties _ init 1).
  - rewrite Hjoin. destruct (Py.join "/" init) as [|c s] eqn:Hj.
    + apply (prefix_same_head "/" b "").
    + rewrite !prefix_slash_app by discriminate. reflexivity.
Qed.

Lemma resolve_dirname (cwd : path) (p : string) :
  removelast (Py.split "/" p) <> [] ->
  resolve cwd (Os.os_path_dirname p)
  = norm (if String.prefix "/" p then [] else cwd) (removelast (Py.split "/" p)).
Proof.
  intros Hinit. rewrite <- (resolve_split_head cwd p Hinit).
  unfold Os.os_path_dirname.
  destruct (Os.rstrip_slash (Os.split_head p)) eqn:Hr; [reflexivity|].
  rewrite <- Hr. apply resolve_rstrip. rewrite Hr. discriminate.
Qed.

Lemma dirname_plain (p : string) :
  Py.contains "/" p = false -> Os.os_path_dirname p = "".
Proof.
  intros H. unfold Os.os_path_dirname, Os.split_head.
  now rewrite (PyFacts.split_clean "/" p H).
Qed.

Lemma dirname_nonempty (p : string) :
  removelast (Py.split "/" p) <> [] -> Os.os_path_dirname p <> "".
Proof.
  intros Hinit. unfold Os.os_path_dirname, Os.split_head.
  destruct (Py.split "/" p) as [|a [|a' l]] eqn:Hs; [now destruct Hinit..|].
  set (h := Py.join "/" (removelast (a :: a' :: l)) +:+ "/").
  destruct (Os.rstrip_slash h) eqn:Hr; [|discriminate].
  subst h. destruct (Py.join "/" (removelast (a :: a' :: l))); discriminate.
Qed.

(** A path whose last component is a plain name resolves to its
    directory followed by that name. *)
Lemma resolve_dirname_basename (cwd : path) (p : string) :
  valid_name (Os.os_path_basename p) = true ->
  resolve cwd p = resolve cwd (Os.os_path_dirname p) ++ [Os.os_path_basename p].
Proof.
  intros Hb.
  destruct (removelast (Py.split "/" p)) as [|a init] eqn:Hinit.
  - pose proof (split_init_last p) as Hp. rewrite Hinit in Hp. simpl in Hp.
    assert (Hp' : p = Os.os_path_basename p).
    { rewrite <- (PyFacts.join_split "/" p) at 1. now rewrite Hp. }
    rewrite <- Hp' in *.
    rewrite dirname_plain by (now apply valid_name_inv in Hb).
    unfold resolve at 1. rewrite Hp, (valid_not_absolute p Hb), (norm_valid _ _ Hb).
    reflexivity.
  - rewrite resolve_dirname by (rewrite Hinit; discriminate).
    unfold resolve. rewrite (split_init_last p) at 1.
    rewrite norm_app, (norm_valid _ _ Hb). reflexivity.
Qed.

(** ** [rm] *)

Lemma rm_unfold (path : string) (w : world) :
  rm path w
  = match Os.node_at w path with
    | Some (Dir _) => Os.shutil_rmtree path w
    | Some (File _) => Os.os_remove path w
    | None => (Ok tt, w)
    end.
Proof.
  unfold rm, bind, Os.os_path_isdir, Os.os_path_exists, Os.path_isdir, Os.path_exists,
    is_dir, when, ret.
  destruct (Os.node_at w path) as [[c|es]|] eqn:Hn; cbv beta iota; rewrite ?Hn;
    reflexivity.
Qed.

Lemma node_at_absent (w : world) (p : string) (r : node) :
  resolve (cwd w) p <> [] ->
  Os.node_at (World (put (resolve (cwd w) p) None r) (cwd w) (stderr w)) p = None.
Proof.
  intros Hp. unfold Os.node_at. destruct p; [reflexivity|].
  cbn [cwd root]. now apply lookup_delete_self.
Qed.

Lemma rm_spec (path : string) (w : world) :
  resolve (cwd w) path <> [] ->
  exists w',
    rm path w = (Ok tt, w')
    /\ Os.path_exists w' path = false
    /\ cwd w' = cwd w
    /\ stderr w' = stderr w
    /\ (forall q, apart (resolve (cwd w) path) q -> lookup q (root w') = lookup q (root w))
    /\ (Os.path_exists w path = false -> w' = w).
Proof.
  intros Hp. rewrite rm_unfold.
  unfold Os.shutil_rmtree, Os.os_remove, Os.path_exists.
  destruct (Os.node_at w path) as [[c|es]|] eqn:Hn.
  - destruct (resolve (cwd w) path) as [|x p'] eqn:Hres; [now destruct Hp|].
    cbv iota. rewrite <- Hres in *.
    eexists. split; [reflexivity|]. unfold Os.put_at.
    split; [now rewrite node_at_absent|].
    repeat split; try discriminate.
    intros q Hq. cbn [root]. now apply lookup_put_apart.
  - destruct (resolve (cwd w) path) as [|x p'] eqn:Hres; [now destruct Hp|].
    cbv iota. rewrite <- Hres in *.
    eexists. split; [reflexivity|]. unfold Os.put_at.
    split; [now rewrite node_at_absent|].
    repeat split; try discriminate.
    intros q Hq. cbn [root]. now apply lookup_put_apart.
  - exists w. rewrite Hn. repeat split.
Qed.



(** ** [mv] *)

Section WithPlatform.
Context {P : Platform}.

(** The two halves of [mv]: making room at the destination, and moving
    what the source pattern matches. *)
Definition clear_destination (dst_path : string) : M unit :=
  ex <- Os.os_path_exists dst_path ;;
  when ex (rm dst_path) ;;
  ex <- Os.os_path_exists (Os.os_path_dirname dst_path) ;;
  when (negb ex) (Os.os_makedirs (Os.os_path_dirname dst_path)).

Definition move_matches (src_path dst_path : string) : M unit :=
  w <- get_world ;;
  for_each (glob_glob src_path w)
    (fun f =>
       let dst :=
         if Py.contains "*" dst_path
         then Py.os_path_join (Os.os_path_dirname dst_path) (Os.os_path_basename f)
         else dst_path in
       shutil_move f dst).

Lemma mv_steps (src_path dst_path : string) (w : world) :
  mv src_path dst_path w
  = match clear_destination dst_path w with
    | (Ok _, w1) => move_matches src_path dst_path w1
    | (Raise e, w1) => (Raise e, w1)
    end.
Proof.
  unfold mv, clear_destination, move_matches, bind, Os.os_path_exists.
  destruct (when (Os.path_exists w dst_path) (rm dst_path) w) as [[[]|e] w1];
    [|reflexivity].
  destruct (when (negb _) _ w1) as [[[]|e] w2]; reflexivity.
Qed.

Lemma clear_destination_unfold (dst_path : string) (w : world) :
  clear_destination dst_path w
  = match rm dst_path w with
    | (Ok _, w1) =>
        if Os.path_exists w1 (Os.os_path_dirname dst_path) then (Ok tt, w1)
        else Os.os_makedirs (Os.os_path_dirname dst_path) w1
    | (Raise e, w1) => (Raise e, w1)
    end.
Proof.
  unfold clear_destination, bind, Os.os_path_exists.
  assert (Hrm : when (Os.path_exists w dst_path) (rm dst_path) w = rm dst_path w).
  { unfold when. destruct (Os.path_exists w dst_path) eqn:Hex; [reflexivity|].
    rewrite rm_unfold. unfold Os.path_exists in Hex.
    destruct (Os.node_at w dst_path); [discriminate|reflexivity]. }
  rewrite Hrm. destruct (rm dst_path w) as [[[]|e] w1]; [|reflexivity].
  destruct (Os.path_exists w1 _); reflexivity.
Qed.



(** ** What [os.makedirs] leaves behind *)

Lemma mkdirs_from_creates (todo : path) :
  forall (done : path) (ok : bool) (r r' : node),
    is_dir (lookup done r) = true ->
    lookup (done ++ todo) r = None ->
    Os.mkdirs_from done todo ok r = Ok r' ->
    lookup (done ++ todo) r' = Some (Dir []).
Proof.
  induction todo as [|x todo IH]; intros done ok r r' Hdone Hnone Hrun.
  - rewrite app_nil_r in Hnone. now rewrite Hnone in Hdone.
  - cbn [Os.mkdirs_from] in Hrun.
    replace (done ++ x :: todo) with ((done ++ [x]) ++ todo) in *
      by (now rewrite <- app_assoc).
    destruct (lookup (done ++ [x]) r) as [[c|es]|] eqn:Hhere.
    + destruct todo; discriminate.
    + destruct todo as [|y todo].
      * rewrite app_nil_r in Hnone. congruence.
      * apply (IH _ _ _ _ ltac:(now rewrite Hhere) Hnone Hrun).
    + assert (Hnew : lookup (done ++ [x]) (put (done ++ [x]) (Some (Dir [])) r)
                     = Some (Dir [])).
      { destruct (lookup done r) as [[c|es]|] eqn:Hd; try discriminate.
        apply (lookup_put_same _ _ _ es); [now destruct done|].
        now rewrite removelast_last. }
      destruct todo as [|y todo].
      * injection Hrun as <-. now rewrite app_nil_r.
      * eapply IH; [| |exact Hrun]; [now rewrite Hnew|].
        rewrite lookup_app, Hnew. reflexivity.
Qed.

Lemma put_keeps_dir (p : path) (v : option node) (n : node) :
  is_dir (Some n) = true -> is_dir (Some (put p v n)) = true.
Proof.
  destruct n as [c|es]; [discriminate|]. intros _.
  destruct p as [|x [|y p]]; [reflexivity..|].
  cbn [put]. now destruct (entry_get x es).
Qed.

Lemma rm_keeps_root (path : string) (w w' : world) (r : result unit) :
  rm path w = (r, w') -> is_dir (Some (root w)) = true -> is_dir (Some (root w')) = true.
Proof.
  rewrite rm_unfold. unfold Os.shutil_rmtree, Os.os_remove, Os.put_at.
  intros Hrun Hroot.
  assert (H : root w' = root w \/ exists p, root w' = put p None (root w)).
  { destruct (Os.node_at w path) as [[c|es]|];
      [destruct (resolve (cwd w) path) as [|x p]..|];
      apply (f_equal (fun x => root (snd x))) in Hrun; cbn [snd root] in Hrun; eauto. }
  destruct H as [->|[p ->]]; [assumption|now apply put_keeps_dir].
Qed.

Lemma makedirs_creates (d : string) (w w' : world) :
  is_dir (Some (root w)) = true ->
  Os.path_exists w d = false ->
  Os.os_makedirs d w = (Ok tt, w') ->
  d <> ""
  /\ cwd w' = cwd w
  /\ lookup (resolve (cwd w) d) (root w') = Some (Dir []).
Proof.
  intros Hroot Hex Hrun. unfold Os.os_makedirs in Hrun.
  destruct d as [|c d]; [discriminate|]. split; [discriminate|].
  unfold Os.path_exists, Os.node_at in Hex. unfold Os.makedirs_path in Hrun.
  destruct (resolve (cwd w) (String c d)) as [|x there] eqn:Hthere; [discriminate|].
  destruct (Os.mkdirs_from [] (x :: there) false (root w)) as [r|e] eqn:Hmk;
    [|discriminate].
  injection Hrun as <-. split; [reflexivity|]. cbn [root].
  destruct (lookup (x :: there) (root w)) eqn:Hl; [discriminate|].
  exact (mkdirs_from_creates _ [] _ _ _ Hroot Hl Hmk).
Qed.

(** After the first half of [mv] and [cp]: room at the destination, and
    the directory it is to go into. *)
Lemma clear_destination_spec (dst_path : string) (w w1 : world) :
  is_dir (Some (root w)) = true ->
  valid_name (Os.os_path_basename dst_path) = true ->
  clear_destination dst_path w = (Ok tt, w1) ->
  Os.path_exists w1 dst_path = false
  /\ Os.path_exists w1 (Os.os_path_dirname dst_path) = true.
Proof.
  intros Hroot Hb Hclear.
  rewrite clear_destination_unfold in Hclear.
  pose proof (resolve_dirname_basename (cwd w) dst_path Hb) as Hres.
  destruct (rm_spec dst_path w) as (w0 & Hrm & Hgone & Hcwd & _).
  { rewrite Hres. now destruct (resolve (cwd w) (Os.os_path_dirname dst_path)). }
  pose proof (rm_keeps_root _ _ _ _ Hrm Hroot) as Hroot0.
  rewrite Hrm in Hclear.
  destruct (Os.path_exists w0 (Os.os_path_dirname dst_path)) eqn:Hex.
  - injection Hclear as <-. auto.
  - destruct (makedirs_creates _ _ _ Hroot0 Hex Hclear) as (Hd & Hcwd1 & Hnew).
    rewrite Hcwd in Hnew.
    assert (Hdst : dst_path <> "").
    { intros ->. discriminate. }
    unfold Os.path_exists, Os.node_at.
    destruct dst_path as [|c p]; [now destruct Hdst|].
    destruct (Os.os_path_dirname (String c p)) as [|c' d']; [now destruct Hd|].
    rewrite Hcwd1, Hcwd, Hres, Hnew, (lookup_snoc _ _ _ _ Hnew). auto.
Qed.

(** X3.  When the first half of [mv] ends normally for a destination
    whose last component is a plain name, nothing is left at the
    destination and the directory it is to go into exists: an existing
    destination is replaced, never merged into, and a missing parent
    directory has been made.  When the first half raises, so does [mv],
    in the same world, and nothing is moved. *)
Theorem mv_makes_room (src_path dst_path : string) (w : world) :
  is_dir (Some (root w)) = true ->
  valid_name (Os.os_path_basename dst_path) = true ->
  match clear_destination dst_path w with
  | (Ok _, w1) =>
      Os.path_exists w1 dst_path = false
      /\ Os.path_exists w1 (Os.os_path_dirname dst_path) = true
      /\ mv src_path dst_path w = move_matches src_path dst_path w1
  | (Raise e, w1) => mv src_path dst_path w = (Raise e, w1)
  end.
Proof.
  intros Hroot Hb. rewrite mv_steps.
  destruct (clear_destination dst_path w) as [[[]|e] w1] eqn:Hclear; [|reflexivity].
  destruct (clear_destination_spec _ _ _ Hroot Hb Hclear). auto.
Qed.

End WithPlatform.

(** ** [cp] *)

Section WithHost.
Context {P : Platform} {H : Script.Host}.




End WithHost.



Lemma mv_makes_room_witness :
  exists w1,
    clear_destination "out/lib" Demo.repo_world = (Ok tt, w1)
    /\ Os.path_exists w1 "out/lib" = false
    /\ Os.path_isdir w1 "out" = true
    /\ mv (P := Demo.platform) "gmaven/g/lib" "out/lib" Demo.repo_world
       = move_matches (P := Demo.platform) "gmaven/g/lib" "out/lib" w1.
Proof.
  pose proof (mv_makes_room (P := Demo.platform) "gmaven/g/lib" "out/lib" Demo.repo_world
                eq_refl eq_refl) as H.
  destruct (clear_destination "out/lib" Demo.repo_world) as [r w1] eqn:Hclear.
  assert (Hr : r = Ok tt) by (vm_compute in Hclear; now injection Hclear as <- _).
  subst r. destruct H as (Hgone & _ & Hmv).
  exists w1. split; [reflexivity|]. split; [exact Hgone|]. split; [|exact Hmv].
  vm_compute in Hclear. now injection Hclear as <-.
Defined.


End FileOpsFacts.

(* ===================================================================== *)
(** * What discovery records *)
(* ===================================================================== *)

Module RecordFacts.
Import Config Discovery.

(** ** Slices of a string built from three parts *)

Lemma take_append (a b : string) : Py.take (String.length a) (a +:+ b) = a.
Proof. induction a as [|c a IH]; [now destruct b|]. simpl. now rewrite IH. Qed.

Lemma take_more (a b : string) (n : nat) :
  Py.take (String.length a + n) (a +:+ b) = a +:+ Py.take n b.
Proof. induction a as [|c a IH]; [reflexivity|]. simpl. now rewrite IH. Qed.

Lemma take_less (a b : string) (n : nat) :
  n <= String.length a -> Py.take n (a +:+ b) = Py.take n a.
Proof.
  revert n. induction a as [|c a IH]; intros [|n] Hn; simpl in *; try reflexivity; try lia.
  rewrite IH by lia. reflexivity.
Qed.



Lemma drop_last_append (a b : string) (n : nat) :
  n <= String.length b -> Py.drop_last n (a +:+ b) = a +:+ Py.drop_last n b.
Proof.
  intros Hn. unfold Py.drop_last. rewrite PyFacts.length_append.
  replace (String.length a + String.length b - n)
    with (String.length a + (String.length b - n)) by lia.
  apply take_more.
Qed.

Lemma drop_last_all (a : string) : Py.drop_last (String.length a) a = "".
Proof. unfold Py.drop_last. rewrite Nat.sub_diag. now destruct a. Qed.

(** [s[a:-b]] on a string that has a prefix of [a] and a suffix of [b]
    characters: what lies between. *)
Lemma slice_between_spec (p x s : string) :
  Py.slice_between (String.length p) (String.length s) (p +:+ x +:+ s) = x.
Proof.
  unfold Py.slice_between.
  rewrite <- PyFacts.append_assoc.
  rewrite drop_last_append by lia.
  rewrite drop_last_all, PyFacts.append_nil_r.
  apply GMavenFacts.drop_append.
Qed.

Lemma length_take_le (n : nat) (s : string) : String.length (Py.take n s) <= n.
Proof.
  revert n. induction s as [|c s IH]; intros [|n]; simpl; try lia.
  specialize (IH n). lia.
Qed.

Lemma drop_short (n : nat) (s : string) : String.length s <= n -> Py.drop n s = "".
Proof.
  revert n. induction s as [|c s IH]; intros [|n] Hn; simpl in *; try reflexivity; try lia.
  apply IH. lia.
Qed.

(** The same with a suffix one character short: the value loses its last
    character. *)
Lemma slice_between_short (p x s : string) :
  Py.slice_between (String.length p) (S (String.length s)) (p +:+ x +:+ s)
  = Py.drop_last 1 x.
Proof.
  unfold Py.slice_between, Py.drop_last at 1. rewrite !PyFacts.length_append.
  destruct x as [|c x].
  - replace (String.length p + (String.length "" + String.length s) - S (String.length s))
      with (String.length p - 1) by (simpl; lia).
    apply drop_short. pose proof (length_take_le (String.length p - 1) (p +:+ "" +:+ s)).
    destruct p; simpl in *; [|lia]. now destruct s.
  - replace (String.length p + (String.length (String c x) + String.length s)
             - S (String.length s))
      with (String.length p + (String.length (String c x) - 1)) by (simpl; lia).
    rewrite take_more, GMavenFacts.drop_append. apply take_less. lia.
Qed.

Lemma slice_between_at (n m : nat) (p x s : string) :
  String.length p = n -> String.length s = m ->
  Py.slice_between n m (p +:+ x +:+ s) = x.
Proof. intros <- <-. apply slice_between_spec. Qed.

Lemma slice_between_short_at (n m : nat) (p x s : string) :
  String.length p = n -> S (String.length s) = m ->
  Py.slice_between n m (p +:+ x +:+ s) = Py.drop_last 1 x.
Proof. intros <- <-. apply slice_between_short. Qed.

(** ** The lines of a POM *)

(** X5.  A line made of the two-space indent, the opening tag, a value,
    the closing tag and the line terminator yields exactly the value
    (the slice runs from behind the opening tag to before the closing
    tag and the terminator), and leaves the other two fields alone.  On
    a last line that lacks its terminator the same slice cuts one
    character too many: the value loses its last character. *)
Theorem pom_line_values (g a v x : string) :
  read_pom_line (g, a, v) ("  <groupId>" +:+ x +:+ "</groupId>" +:+ Demo.nl) = (x, a, v)
  /\ read_pom_line (g, a, v) ("  <artifactId>" +:+ x +:+ "</artifactId>" +:+ Demo.nl)
     = (g, x, v)
  /\ read_pom_line (g, a, v) ("  <version>" +:+ x +:+ "</version>" +:+ Demo.nl) = (g, a, x)
  /\ read_pom_line (g, a, v) ("  <groupId>" +:+ x +:+ "</groupId>")
     = (Py.drop_last 1 x, a, v)
  /\ read_pom_line (g, a, v) ("  <artifactId>" +:+ x +:+ "</artifactId>")
     = (g, Py.drop_last 1 x, v)
  /\ read_pom_line (g, a, v) ("  <version>" +:+ x +:+ "</version>")
     = (g, a, Py.drop_last 1 x).
Proof.
  unfold read_pom_line.
  repeat split.
  - replace (String.eqb (Py.take 11 ("  <groupId>" +:+ x +:+ "</groupId>" +:+ Demo.nl))
                        "  <groupId>") with true by reflexivity.
    now rewrite (slice_between_at 11 11 "  <groupId>" x ("</groupId>" +:+ Demo.nl)).
  - replace (String.eqb (Py.take 11 ("  <artifactId>" +:+ x +:+ "</artifactId>" +:+ Demo.nl))
                        "  <groupId>") with false by reflexivity.
    replace (String.eqb (Py.take 14 ("  <artifactId>" +:+ x +:+ "</artifactId>" +:+ Demo.nl))
                        "  <artifactId>") with true by reflexivity.
    now rewrite (slice_between_at 14 14 "  <artifactId>" x ("</artifactId>" +:+ Demo.nl)).
  - replace (String.eqb (Py.take 11 ("  <version>" +:+ x +:+ "</version>" +:+ Demo.nl))
                        "  <groupId>") with false by reflexivity.
    replace (String.eqb (Py.take 14 ("  <version>" +:+ x +:+ "</version>" +:+ Demo.nl))
                        "  <artifactId>") with false by reflexivity.
    replace (String.eqb (Py.take 11 ("  <version>" +:+ x +:+ "</version>" +:+ Demo.nl))
                        "  <version>") with true by reflexivity.
    now rewrite (slice_between_at 11 11 "  <version>" x ("</version>" +:+ Demo.nl)).
  - replace (String.eqb (Py.take 11 ("  <groupId>" +:+ x +:+ "</groupId>"))
                        "  <groupId>") with true by reflexivity.
    now rewrite (slice_between_short_at 11 11 "  <groupId>" x "</groupId>").
  - replace (String.eqb (Py.take 11 ("  <artifactId>" +:+ x +:+ "</artifactId>"))
                        "  <groupId>") with false by reflexivity.
    replace (String.eqb (Py.take 14 ("  <artifactId>" +:+ x +:+ "</artifactId>"))
                        "  <artifactId>") with true by reflexivity.
    now rewrite (slice_between_short_at 14 14 "  <artifactId>" x "</artifactId>").
  - replace (String.eqb (Py.take 11 ("  <version>" +:+ x +:+ "</version>"))
                        "  <groupId>") with false by reflexivity.
    replace (String.eqb (Py.take 14 ("  <version>" +:+ x +:+ "</version>"))
                        "  <artifactId>") with false by reflexivity.
    replace (String.eqb (Py.take 11 ("  <version>" +:+ x +:+ "</version>"))
                        "  <version>") with true by reflexivity.
    now rewrite (slice_between_short_at 11 11 "  <version>" x "</version>").
Qed.

(** ** The record of one POM *)

Section WithPlatform.
Context {P : Platform}.


(** What [resolve_pom] has gone through when it hands back a record. *)
Lemma resolve_pom_some (maven_to_make : dict make_entry) (repo_dir root file : string)
    (w w' : world) (info : MavenLibraryInfo) :
  resolve_pom maven_to_make repo_dir root file w = (Ok (Some info), w') ->
  exists lines g a v ext k,
    w' = w
    /\ Os.read_lines (Py.os_path_join root file) w = (Ok lines, w)
    /\ read_pom lines = (g, a, v)
    /\ g <> "" /\ a <> "" /\ v <> ""
    /\ (ext = ".jar" \/ ext = ".aar")
    /\ Os.path_exists w (Py.drop_last 4 (Py.os_path_join root file) +:+ ext) = true
    /\ find_mapping maven_to_make g a = Some k
    /\ info = {| key := k; group_id := g; artifact_id := a; version := LooseVersion v;
                 dir := root; repo_dir := repo_dir;
                 file := Py.drop (String.length root + 1)
                           (Py.drop_last 4 (Py.os_path_join root file) +:+ ext) |}.
Proof.
  unfold resolve_pom, bind. intros H.
  destruct (Os.read_lines (Py.os_path_join root file) w) as [[lines|e] w1] eqn:Hread;
    [|discriminate].
  assert (w1 = w) as ->.
  { unfold Os.read_lines in Hread.
    destruct (Os.node_at w _) as [[[t|ms]|es]|]; now injection Hread as _ <-. }
  destruct (read_pom lines) as [[g a] v] eqn:Hpom.
  destruct (String.eqb g "") eqn:Hg; [discriminate|].
  destruct (String.eqb a "") eqn:Ha; [discriminate|].
  destruct (String.eqb v "") eqn:Hv; [discriminate|].
  apply String.eqb_neq in Hg, Ha, Hv. cbn [orb] in H.
  unfold Os.os_path_exists, ret in H.
  set (stem := Py.drop_last 4 (Py.os_path_join root file)) in *.
  destruct (Os.path_exists w (stem +:+ ".jar")) eqn:Hjar.
  - destruct (find_mapping maven_to_make g a) as [k|] eqn:Hk; [|discriminate].
    injection H as <- <-. exists lines, g, a, v, ".jar", k. repeat split; auto.
  - destruct (Os.path_exists w (stem +:+ ".aar")) eqn:Haar; [|discriminate].
    destruct (find_mapping maven_to_make g a) as [k|] eqn:Hk; [|discriminate].
    injection H as <- <-. exists lines, g, a, v, ".aar", k. repeat split; auto.
Qed.



(** ** What ends up in [maven_lib_info] *)

Lemma fold_each_inv {A S} (I : S -> Prop) (l : list A) (body : S -> A -> M S) :
  (forall s x w s' w', In x l -> I s -> body s x w = (Ok s', w') -> I s') ->
  forall s w s' w', I s -> fold_each l body s w = (Ok s', w') -> I s'.
Proof.
  induction l as [|x l IH]; intros Hbody s w s' w' Hs Hrun.
  - now injection Hrun as <- _.
  - cbn [fold_each] in Hrun. unfold bind in Hrun.
    destruct (body s x w) as [[s1|e] w1] eqn:Hx; [|discriminate].
    apply (IH (fun s x w s' w' Hin => Hbody s x w s' w' (or_intror Hin)) s1 w1 s' w');
      [|exact Hrun].
    apply (Hbody s x w s1 w1); [now left|exact Hs|exact Hx].
Qed.

Lemma dict_set_in {V} (k k' : string) (v v' : V) (d : dict V) :
  In (k', v') (dict_set k v d) -> In (k', v') d \/ (k' = k /\ v' = v).
Proof.
  induction d as [|[k0 v0] d IH]; simpl.
  - intros [[= <- <-]|[]]. now right.
  - destruct (String.eqb k0 k) eqn:Hk.
    + apply String.eqb_eq in Hk as ->. intros [[= <- <-]|Hin]; auto.
    + intros [Heq|Hin]; [auto|]. destruct (IH Hin); auto.
Qed.

Lemma store_latest_in (d : dict MavenLibraryInfo) (c : MavenLibraryInfo)
    (k : string) (i : MavenLibraryInfo) :
  In (k, i) (store_latest d c) -> In (k, i) d \/ (k = key c /\ i = c).
Proof.
  unfold store_latest.
  destruct (dict_get d (key c)) as [old|];
    [destruct (version_gt (version c) (version old)); [|now left]|];
    apply dict_set_in.
Qed.

Lemma store_latest_nodup (d : dict MavenLibraryInfo) (c : MavenLibraryInfo) :
  NoDup (dict_keys d) -> NoDup (dict_keys (store_latest d c)).
Proof.
  intros Hd. unfold store_latest.
  destruct (dict_get d (key c)) as [old|];
    [destruct (version_gt (version c) (version old)); [|exact Hd]|];
    now apply DiscoveryFacts.dict_set_nodup.
Qed.

Lemma find_mapping_some (maven_to_make : dict make_entry) (g a k : string) :
  find_mapping maven_to_make g a = Some k ->
  dict_mem maven_to_make k = true
  /\ (k = g +:+ ":" +:+ a
      \/ (k = a /\ dict_mem maven_to_make (g +:+ ":" +:+ a) = false)).
Proof.
  unfold find_mapping.
  destruct (dict_mem maven_to_make (g +:+ ":" +:+ a)) eqn:Hfull.
  - intros [= <-]. auto.
  - destruct (dict_mem maven_to_make a) eqn:Hbare; [|discriminate].
    intros [= <-]. auto.
Qed.

Lemma path_of_populate (raw : dict make_entry) (k : string) :
  dict_mem (populate raw) k = true ->
  exists n p, Emit.name_of (populate raw) k = Ok n /\ Emit.path_of (populate raw) k = Ok p.
Proof.
  unfold dict_mem, Emit.name_of, Emit.path_of, Emit.entry_of.
  rewrite ConfigFacts.dict_get_populate.
  destruct (dict_get raw k) as [e|]; [|discriminate]. intros _. cbn [option_map].
  unfold populate_entry.
  destruct (name e) as [n|] eqn:Hn, (Config.path e) as [p|] eqn:Hp; cbn;
    rewrite ?Hn, ?Hp; cbn; eauto.
Qed.

(** X7.  Every entry [detect_artifacts] returns sits under the key it
    carries, and that key is a key of [maven_to_make]: the full
    [group:artifact] coordinate of the POM where the table has it, the
    bare artifact id only where it has not.  Keys are pairwise distinct,
    group and artifact id are not empty, and the repository directory is
    one of those given.  With the table as the start-up loop leaves it,
    the lookups of the module name and the path in
    [transform_maven_lib] therefore find their entries. *)
Theorem detected_entries_are_mapped (maven_to_make : dict make_entry)
    (maven_repo_dirs : list string) (w w' : world)
    (maven_lib_info : dict MavenLibraryInfo) :
  detect_artifacts maven_to_make maven_repo_dirs w = (Ok maven_lib_info, w') ->
  NoDup (dict_keys maven_lib_info)
  /\ forall k info, In (k, info) maven_lib_info ->
       key info = k
       /\ dict_mem maven_to_make k = true
       /\ (k = group_id info +:+ ":" +:+ artifact_id info
           \/ (k = artifact_id info
               /\ dict_mem maven_to_make (group_id info +:+ ":" +:+ artifact_id info)
                  = false))
       /\ group_id info <> "" /\ artifact_id info <> ""
       /\ In (Discovery.repo_dir info) maven_repo_dirs
       /\ (forall raw, maven_to_make = populate raw ->
             exists n p, Emit.name_of maven_to_make k = Ok n
                         /\ Emit.path_of maven_to_make k = Ok p).
Proof.
  set (Q := fun (k : string) (info : MavenLibraryInfo) =>
         key info = k
         /\ dict_mem maven_to_make k = true
         /\ (k = group_id info +:+ ":" +:+ artifact_id info
             \/ (k = artifact_id info
                 /\ dict_mem maven_to_make (group_id info +:+ ":" +:+ artifact_id info)
                    = false))
         /\ group_id info <> "" /\ artifact_id info <> ""
         /\ In (Discovery.repo_dir info) maven_repo_dirs
         /\ (forall raw, maven_to_make = populate raw ->
               exists n p, Emit.name_of maven_to_make k = Ok n
                           /\ Emit.path_of maven_to_make k = Ok p)).
  set (I := fun d : dict MavenLibraryInfo =>
         NoDup (dict_keys d) /\ forall k info, In (k, info) d -> Q k info).
  intros Hrun. change (I maven_lib_info).
  unfold detect_artifacts in Hrun.
  refine (fold_each_inv I _ _ _ _ _ _ _ _ Hrun); [|split; [constructor|intros k i []]].
  intros s repo_dir w0 s' w0' Hin Hs Hbody. unfold bind in Hbody.
  destruct (Os.os_walk repo_dir w0) as [[triples|e] w1]; [|discriminate].
  refine (fold_each_inv I _ _ _ _ _ _ _ Hs Hbody).
  intros s1 [[root ds] files] w2 s2 w2' _ Hs1 Hfiles.
  refine (fold_each_inv I _ _ _ _ _ _ _ Hs1 Hfiles).
  intros s3 file w3 s4 w3' _ [Hnd Hall] Hvisit. unfold visit_file, bind in Hvisit.
  destruct (String.eqb (Py.take_last 4 file) ".pom"); [|now injection Hvisit as <- _].
  destruct (resolve_pom maven_to_make repo_dir root file w3) as [[[c|]|e] w4] eqn:Hpom;
    [| now injection Hvisit as <- _ | discriminate].
  injection Hvisit as <- _. split; [now apply store_latest_nodup|].
  intros k i Hki. apply store_latest_in in Hki as [Hold|[-> ->]]; [now apply Hall|].
  destruct (resolve_pom_some _ _ _ _ _ _ _ Hpom)
    as (lines & g & a & v & ext & k & _ & _ & _ & Hg & Ha & _ & _ & _ & Hk & ->).
  apply find_mapping_some in Hk as [Hmem Hkey].
  unfold Q. cbn [key group_id artifact_id Discovery.repo_dir].
  repeat split; try assumption.
  intros raw ->. now apply path_of_populate.
Qed.

(** ** What discovery leaves behind *)

Definition diagnostics_only (before after : list string) : Prop :=
  exists extra,
    after = before ++ extra
    /\ Forall (fun line => exists file, line = pom_diagnostic file) extra.

Definition reports_only {A} (m : M A) : Prop :=
  forall w r w', m w = (r, w') -> diagnostics_only (stderr w) (stderr w').

Lemma diagnostics_refl (l : list string) : diagnostics_only l l.
Proof. exists []. split; [now rewrite app_nil_r|constructor]. Qed.

Lemma rep_quiet {A} (m : M A) :
  (forall w r w', m w = (r, w') -> stderr w' = stderr w) -> reports_only m.
Proof. intros H w r w' Hrun. rewrite (H _ _ _ Hrun). apply diagnostics_refl. Qed.

Lemma rep_ret {A} (a : A) : reports_only (ret a).
Proof. apply rep_quiet. now intros w r w' [= _ <-]. Qed.

Lemma rep_bind {A B} (m : M A) (k : A -> M B) :
  reports_only m -> (forall a, reports_only (k a)) -> reports_only (bind m k).
Proof.
  intros Hm Hk w r w'. unfold bind.
  destruct (m w) as [[a|e] w1] eqn:Hmw; intros H.
  - destruct (Hm _ _ _ Hmw) as (x1 & E1 & F1), (Hk _ _ _ _ H) as (x2 & E2 & F2).
    exists (x1 ++ x2). split; [now rewrite E2, E1, app_assoc|now apply Forall_app].
  - injection H as _ <-. exact (Hm _ _ _ Hmw).
Qed.

Lemma rep_fold_each {A S} (l : list A) (body : S -> A -> M S) :
  (forall s x, reports_only (body s x)) -> forall s, reports_only (fold_each l body s).
Proof.
  intros Hb. induction l as [|x l IH]; intros s; simpl; [apply rep_ret|].
  apply rep_bind; [apply Hb|exact IH].
Qed.

Lemma rep_resolve_pom (tbl : dict make_entry) (repo_dir root file : string) :
  reports_only (resolve_pom tbl repo_dir root file).
Proof.
  unfold resolve_pom. apply rep_bind.
  { apply rep_quiet. intros w r w'. unfold Os.read_lines.
    destruct (Os.node_at w _) as [[[t|ms]|es]|]; now intros [= _ <-]. }
  intros lines. destruct (read_pom lines) as [[g a] v].
  destruct (_ || _ || _).
  - apply rep_bind; [|intros; apply rep_ret].
    intros w r w' [= _ <-]. cbn [stderr]. eexists. split; [reflexivity|].
    constructor; [eexists; reflexivity|constructor].
  - apply rep_bind; [apply rep_quiet; now intros w r w' [= _ <-]|]. intros jar.
    apply rep_bind.
    + destruct jar; [apply rep_ret|].
      apply rep_bind; [apply rep_quiet; now intros w r w' [= _ <-]|].
      intros aar. destruct aar; apply rep_ret.
    + intros [f|]; [|apply rep_ret].
      destruct (find_mapping tbl g a); apply rep_ret.
Qed.

Lemma rep_detect (tbl : dict make_entry) (dirs : list string) :
  reports_only (detect_artifacts tbl dirs).
Proof.
  unfold detect_artifacts. apply rep_fold_each. intros s repo_dir.
  apply rep_bind.
  { apply rep_quiet. intros w r w'. unfold Os.os_walk.
    destruct (Os.node_at w repo_dir); now intros [= _ <-]. }
  intros triples. apply rep_fold_each. intros s' [[root ds] files].
  apply rep_fold_each. intros s'' file. unfold visit_file.
  destruct (String.eqb _ ".pom"); [|apply rep_ret].
  apply rep_bind; [apply rep_resolve_pom|]. intros [info|]; apply rep_ret.
Qed.

(** X8.  Whatever it returns or raises, [detect_artifacts] leaves the
    directory tree and the working directory as they were; all it adds
    to the world are lines on the error stream, each the diagnostic for
    a POM in which a field was not found. *)
Theorem detect_artifacts_only_reports (maven_to_make : dict make_entry)
    (maven_repo_dirs : list string) (w : world) :
  let w' := snd (detect_artifacts maven_to_make maven_repo_dirs w) in
  root w' = root w
  /\ cwd w' = cwd w
  /\ exists extra,
       stderr w' = stderr w ++ extra
       /\ Forall (fun line => exists file, line = pom_diagnostic file) extra.
Proof.
  intros w'. subst w'.
  destruct (detect_artifacts maven_to_make maven_repo_dirs w) as [r w'] eqn:Hrun.
  cbn [snd].
  destruct (PipelineFacts.ro_detect _ _ _ _ _ Hrun) as [Hroot Hcwd].
  split; [exact Hroot|]. split; [exact Hcwd|]. exact (rep_detect _ _ _ _ _ Hrun).
Qed.

End WithPlatform.

#[local] Existing Instance Demo.platform.


Lemma detected_entries_are_mapped_witness :
  exists maven_lib_info w' info,
    detect_artifacts Demo.table ["gmaven"] Demo.repo_world = (Ok maven_lib_info, w')
    /\ In ("g:lib", info) maven_lib_info
    /\ key info = "g:lib"
    /\ dict_mem Demo.table "g:lib" = true
    /\ Discovery.repo_dir info = "gmaven".
Proof.
  destruct (detect_artifacts Demo.table ["gmaven"] Demo.repo_world) as [r w'] eqn:Hrun.
  assert (Hr : exists info rest, r = Ok (("g:lib", info) :: rest)).
  { vm_compute in Hrun. injection Hrun as <- _. do 2 eexists. reflexivity. }
  destruct Hr as (info & rest & ->).
  destruct (detected_entries_are_mapped _ _ _ _ _ Hrun) as [_ Hall].
  destruct (Hall "g:lib" info (or_introl eq_refl))
    as (Hkey & Hmem & _ & _ & _ & [Hdir|[]] & _).
  exists (("g:lib", info) :: rest), w', info.
  repeat split; auto. now left.
Defined.

End RecordFacts.

(* ===================================================================== *)
(** * The argument list and the names it needs *)
(* ===================================================================== *)

Module ArgsFacts.
Import Config Emit.

Lemma dict_get_in {V} (d : dict V) (k : string) (v : V) :
  dict_get d k = Some v -> In (k, v) d.
Proof.
  induction d as [|[k' v'] d IH]; simpl; [discriminate|].
  destruct (String.eqb_spec k' k) as [->|Hne].
  - intros [= ->]. now left.
  - intros H. right. now apply IH.
Qed.

Lemma in_dict_get {V} (d : dict V) (k : string) (v : V) :
  NoDup (dict_keys d) -> In (k, v) d -> dict_get d k = Some v.
Proof.
  induction d as [|[k' v'] d IH]; simpl; [contradiction|].
  intros Hnd [Heq|Hin].
  - injection Heq as -> ->. now rewrite String.eqb_refl.
  - inversion Hnd as [|? ? Hnotin Hnd']; subst.
    destruct (String.eqb_spec k' k) as [->|Hne]; [|now apply IH].
    destruct Hnotin. apply (in_map fst) in Hin. exact Hin.
Qed.

Lemma keys_have_entries {V} (d : dict V) (k : string) :
  In k (dict_keys d) -> exists v, dict_get d k = Some v.
Proof.
  induction d as [|[k' v'] d IH]; simpl; [contradiction|].
  destruct (String.eqb_spec k' k) as [->|Hne]; [eauto|].
  intros [Heq|Hin]; [congruence|auto].
Qed.

Lemma map_result_raise {A B} (f : A -> result B) (l : list A) (e : exn) :
  (forall x, In x l -> (exists y, f x = Ok y) \/ f x = Raise e) ->
  (exists x, In x l /\ f x = Raise e) ->
  map_result f l = Raise e.
Proof.
  induction l as [|x l IH]; intros Hall (x0 & Hin & Hx0); [contradiction|].
  simpl. destruct (Hall x (or_introl eq_refl)) as [[y Hy]|Hr].
  - rewrite Hy. rewrite IH; [reflexivity| |].
    + intros z Hz. apply Hall. now right.
    + destruct Hin as [<-|Hin]; [congruence|eauto].
  - now rewrite Hr.
Qed.

(** X9.  The argument list for [pom2bp] can be built exactly when every
    entry of the mapping table has a module name: then it ends with the
    directory argument [.]; as soon as one entry lacks its name the
    construction raises [KeyError] for ['name'].  The start-up loop that
    derives the missing names is what makes the construction safe. *)
Theorem pom2bp_args_needs_names (maven_to_make : dict make_entry) :
  NoDup (dict_keys maven_to_make) ->
  ((forall k e, In (k, e) maven_to_make -> name e <> None) ->
   exists args, pom2bp_args maven_to_make = Ok args /\ List.last args "" = ".")
  /\ ((exists k e, In (k, e) maven_to_make /\ name e = None) ->
      pom2bp_args maven_to_make = Raise (KeyError "name")).
Proof.
  intros Hnd. split.
  - intros Hnames. unfold pom2bp_args.
    assert (Hrw : exists rewrites, mapping_rewrites maven_to_make = Ok rewrites).
    { unfold mapping_rewrites.
      destruct (EmitFacts.map_result_ok
                  (fun name0 =>
                     match name_of maven_to_make name0 with
                     | Ok target => Ok (rewrite_rule name0 target)
                     | Raise e => Raise e
                     end) (rewriteNames maven_to_make)) as (l & Hl & _); [|eauto].
      intros k Hk.
      apply (Permutation_in _ (EmitFacts.rewriteNames_perm maven_to_make)) in Hk.
      destruct (keys_have_entries _ _ Hk) as [e He].
      unfold name_of, entry_of. rewrite He.
      destruct (name e) as [n|] eqn:Hn; [cbn; eauto|].
      now destruct (Hnames k e (dict_get_in _ _ _ He)). }
    assert (Hlibs : forall flag sel, exists l, libs_args flag sel maven_to_make = Ok l).
    { intros flag sel. unfold libs_args.
      destruct (EmitFacts.map_result_ok
                  (fun kv : string * make_entry =>
                     match field "name" (name (snd kv)), sel (snd kv) with
                     | Ok target, Some libs =>
                         Ok (flag +:+ target +:+ "=" +:+ Py.join "," (sorted libs))
                     | Raise e, _ => Raise e
                     | _, None => Raise (KeyError flag)
                     end)
                  (filter (fun kv => match sel (snd kv) with Some _ => true | None => false end)
                          maven_to_make)) as (l & Hl & _); [|eauto].
      intros [k e] Hin. apply filter_In in Hin as [Hin Hsel]. cbn [snd] in *.
      destruct (sel e); [|discriminate].
      destruct (name e) as [n|] eqn:Hn; [cbn; eauto|].
      now destruct (Hnames k e Hin). }
    destruct Hrw as [rewrites ->].
    destruct (Hlibs "-extra-static-libs=" extra_static_libs) as [extra ->].
    destruct (Hlibs "-optional-uses-libs=" optional_uses_libs) as [optional ->].
    eexists. split; [reflexivity|].
    rewrite !app_assoc. apply last_last.
  - intros (k & e & Hin & Hname). unfold pom2bp_args.
    assert (Hrw : mapping_rewrites maven_to_make = Raise (KeyError "name")).
    { unfold mapping_rewrites. apply map_result_raise.
      - intros k' Hk'.
        apply (Permutation_in _ (EmitFacts.rewriteNames_perm maven_to_make)) in Hk'.
        destruct (keys_have_entries _ _ Hk') as [e' He'].
        unfold name_of, entry_of. rewrite He'.
        destruct (name e'); cbn; eauto.
      - exists k. split.
        + apply (Permutation_in _ (Permutation_sym
                                     (EmitFacts.rewriteNames_perm maven_to_make))).
          apply (in_map fst) in Hin. exact Hin.
        + unfold name_of, entry_of. rewrite (in_dict_get _ _ _ Hnd Hin), Hname.
          reflexivity. }
    now rewrite Hrw.
Qed.

Lemma pom2bp_args_needs_names_witness :
  (exists args, pom2bp_args Demo.table = Ok args /\ List.last args "" = ".")
  /\ pom2bp_args [("g:lib", MakeEntry None None None None None None)]
     = Raise (KeyError "name").
Proof.
  split.
  - apply (pom2bp_args_needs_names Demo.table).
    + apply FsFacts.nodupb_sound. reflexivity.
    + intros k e Hin. vm_compute in Hin.
      destruct Hin as [[= <- <-]|[[= <- <-]|[]]]; discriminate.
  - apply (pom2bp_args_needs_names [("g:lib", MakeEntry None None None None None None)]).
    + apply FsFacts.nodupb_sound. reflexivity.
    + do 2 eexists. split; [now left|reflexivity].
Defined.

End ArgsFacts.

(* ===================================================================== *)
(** * [process_aar] stays inside its target directory *)
(* ===================================================================== *)

Module ConfineFacts.
Import Fs Pipeline FsFacts PathFacts.

(** ** Paths beside a directory *)

Lemma prefix_comparable (p a b : path) :
  prefix_of a p -> prefix_of b p -> prefix_of a b \/ prefix_of b a.
Proof.
  revert a b. induction p as [|x p IH]; intros a b [ra Ha] [rb Hb].
  - destruct a; [|discriminate]. left. now exists b.
  - destruct a as [|y a]; [left; now exists b|].
    destruct b as [|z b]; [right; now exists (y :: a)|].
    injection Ha as <- Ha. injection Hb as <- Hb.
    destruct (IH a b) as [[r ->]|[r ->]]; [now exists ra|now exists rb| |].
    + left. now exists r.
    + right. now exists r.
Qed.

Lemma prefix_of_trans (a b c : path) : prefix_of a b -> prefix_of b c -> prefix_of a c.
Proof. intros [r ->] [r' ->]. exists (r ++ r'). now rewrite app_assoc. Qed.

Lemma apart_below (t q p : path) : apart t q -> prefix_of t p -> apart p q.
Proof.
  intros [Htq Hqt] Htp. split.
  - intros Hpq. apply Htq. now apply (prefix_of_trans t p q).
  - intros Hqp. destruct (prefix_comparable p t q Htp Hqp); contradiction.
Qed.

Lemma apart_not_prefix (t q p : path) :
  apart t q -> prefix_of p t \/ prefix_of t p -> ~ prefix_of q p.
Proof.
  intros [Htq Hqt] [Hpt|Htp] Hqp.
  - apply Hqt. now apply (prefix_of_trans q p t).
  - destruct (prefix_comparable p t q Htp Hqp); contradiction.
Qed.

Lemma prefix_of_app (t r : path) : prefix_of t (t ++ r).
Proof. now exists r. Qed.

Lemma prefix_of_removelast (t r : path) :
  prefix_of (removelast (t ++ r)) t \/ prefix_of t (removelast (t ++ r)).
Proof.
  destruct r as [|x r].
  - left. rewrite app_nil_r. destruct t as [|y t] using rev_ind; [now exists []|].
    rewrite removelast_last. apply prefix_of_app.
  - right. rewrite removelast_app by discriminate. apply prefix_of_app.
Qed.

(** A directory made where nothing was changes what is found at the
    paths leading to it, and nowhere else. *)
Lemma lookup_put_fresh (a : path) :
  forall (r : node) (q : path),
    lookup a r = None -> ~ prefix_of q a ->
    lookup q (put a (Some (Dir [])) r) = lookup q r.
Proof.
  induction a as [|x a IH]; intros r q Hnone Hq; [discriminate|].
  destruct r as [c|es]; [reflexivity|].
  destruct q as [|y q]; [destruct Hq; now exists (x :: a)|].
  destruct a as [|z a].
  - cbn [put lookup] in *. rewrite entry_get_put.
    destruct (String.eqb_spec x y) as [->|Hne]; [|reflexivity].
    destruct (entry_get y es); [discriminate|].
    destruct q; [destruct Hq; now exists []|reflexivity].
  - cbn [lookup] in Hnone. change (put (x :: z :: a) (Some (Dir [])) (Dir es))
      with (match entry_get x es with
            | Some c => Dir (entry_put x (put (z :: a) (Some (Dir [])) c) es)
            | None => Dir es
            end).
    destruct (entry_get x es) as [c|] eqn:Hx; [|reflexivity].
    cbn [lookup]. rewrite entry_get_put.
    destruct (String.eqb_spec x y) as [->|Hne]; [|reflexivity].
    rewrite Hx. apply IH; [exact Hnone|].
    intros [r' Hr']. apply Hq. exists r'. now rewrite Hr'.
Qed.

Lemma mkdirs_from_frame (todo : path) :
  forall (done : path) (ok : bool) (r r' : node) (q : path),
    Os.mkdirs_from done todo ok r = Ok r' ->
    ~ prefix_of q (done ++ todo) ->
    lookup q r' = lookup q r.
Proof.
  induction todo as [|x todo IH]; intros done ok r r' q Hrun Hq.
  - now injection Hrun as <-.
  - cbn [Os.mkdirs_from] in Hrun.
    replace (done ++ x :: todo) with ((done ++ [x]) ++ todo) in Hq
      by (now rewrite <- app_assoc).
    destruct (lookup (done ++ [x]) r) as [[c|es]|] eqn:Hhere.
    + destruct todo; discriminate.
    + destruct todo as [|y todo].
      * destruct ok; [now injection Hrun as <-|discriminate].
      * exact (IH _ _ _ _ _ Hrun Hq).
    + rewrite (IH _ _ _ _ _ Hrun Hq). apply lookup_put_fresh; [exact Hhere|].
      intros Hp. apply Hq. apply (prefix_of_trans _ _ _ Hp), prefix_of_app.
Qed.

(** ** Steps confined to the part of the tree below a path *)

Section Confined.

Variable c : path.        (* the working directory *)
Variable t : path.        (* the directory the steps are confined to *)
Hypothesis c_valid : AarFacts.valid_path c.

Definition within {A} (m : M A) : Prop :=
  forall w r w',
    m w = (r, w') -> cwd w = c -> wf (root w) ->
    cwd w' = c
    /\ stderr w' = stderr w
    /\ wf (root w')
    /\ forall q, apart t q -> lookup q (root w') = lookup q (root w).

Lemma within_same {A} (m : M A) :
  (forall w r w', m w = (r, w') -> w' = w) -> within m.
Proof. intros H w r w' Hrun Hcwd Hwf. rewrite (H _ _ _ Hrun). auto. Qed.

Lemma within_ret {A} (a : A) : within (ret a).
Proof. apply within_same. now intros w r w' [= _ <-]. Qed.

Lemma within_raise {A} (e : exn) : within (@raise A e).
Proof. apply within_same. now intros w r w' [= _ <-]. Qed.

Lemma within_bind {A B} (m : M A) (k : A -> M B) :
  within m -> (forall a, within (k a)) -> within (bind m k).
Proof.
  intros Hm Hk w r w' Hrun Hcwd Hwf. unfold bind in Hrun.
  destruct (m w) as [[a|e] w1] eqn:Hmw.
  - destruct (Hm _ _ _ Hmw Hcwd Hwf) as (C1 & E1 & W1 & F1).
    destruct (Hk _ _ _ _ Hrun C1 W1) as (C2 & E2 & W2 & F2).
    repeat split; try assumption; [congruence|].
    intros q Hq. now rewrite F2, F1.
  - injection Hrun as <- <-. exact (Hm _ _ _ Hmw Hcwd Hwf).
Qed.

Lemma within_for_each {A} (l : list A) (body : A -> M unit) :
  (forall x, In x l -> within (body x)) -> within (for_each l body).
Proof.
  induction l as [|x l IH]; intros Hb; [apply within_ret|].
  cbn [for_each]. apply within_bind; [apply Hb; now left|].
  intros _. apply IH. intros y Hy. apply Hb. now right.
Qed.

Lemma within_when (b : bool) (m : M unit) : within m -> within (when b m).
Proof. destruct b; [auto|intros _; apply within_ret]. Qed.

Lemma within_exists (p : string) : within (Os.os_path_exists p).
Proof. apply within_same. now intros w r w' [= _ <-]. Qed.

Lemma within_listdir (p : string) : within (Os.os_listdir p).
Proof.
  apply within_same. intros w r w'. unfold Os.os_listdir.
  destruct (Os.node_at w p) as [[f|es]|]; now intros [= _ <-].
Qed.

Lemma within_ZipFile (p : string) : within (Os.ZipFile p).
Proof.
  apply within_same. intros w r w'. unfold Os.ZipFile.
  destruct (Os.node_at w p) as [[[s|ms]|es]|]; now intros [= _ <-].
Qed.

(** Deleting what is at a path below [t]. *)
Lemma within_delete (p : string) (w w' : world) (r : result unit) :
  prefix_of t (resolve c p) ->
  Os.put_at p None w = (r, w') -> cwd w = c -> wf (root w) ->
  cwd w' = c
  /\ stderr w' = stderr w
  /\ wf (root w')
  /\ forall q, apart t q -> lookup q (root w') = lookup q (root w).
Proof.
  intros Hp Hrun Hcwd Hwf. unfold Os.put_at in Hrun.
  apply (f_equal snd) in Hrun. cbn [snd] in Hrun. subst w'. cbn [cwd stderr root].
  repeat split; [exact Hcwd|now apply wf_delete|].
  intros q Hq. apply lookup_put_apart. rewrite Hcwd. exact (apart_below _ _ _ Hq Hp).
Qed.

Lemma within_remove (p : string) : prefix_of t (resolve c p) -> within (Os.os_remove p).
Proof.
  intros Hp w r w' Hrun Hcwd Hwf. unfold Os.os_remove in Hrun.
  destruct (Os.node_at w p) as [[f|es]|];
    [destruct (resolve (cwd w) p)|..];
    try (injection Hrun as _ <-; now auto).
  exact (within_delete p _ _ _ Hp Hrun Hcwd Hwf).
Qed.

Lemma within_rmdir (p : string) : prefix_of t (resolve c p) -> within (Os.os_rmdir p).
Proof.
  intros Hp w r w' Hrun Hcwd Hwf. unfold Os.os_rmdir in Hrun.
  destruct (Os.node_at w p) as [[f|[|e es]]|];
    [|destruct (resolve (cwd w) p)|..];
    try (injection Hrun as _ <-; now auto).
  exact (within_delete p _ _ _ Hp Hrun Hcwd Hwf).
Qed.

Lemma within_makedirs_path (p : path) (ok : bool) :
  prefix_of p t \/ prefix_of t p -> AarFacts.valid_path p ->
  within (Os.makedirs_path p ok).
Proof.
  intros Hp Hvalid w r w' Hrun Hcwd Hwf.
  destruct (AarFacts.kw_makedirs_path p ok _ _ _ Hrun) as [Hc' Hwf'].
  split; [congruence|]. split; [|split; [now apply Hwf'|]].
  - unfold Os.makedirs_path in Hrun. destruct p as [|x p].
    + now destruct ok; injection Hrun as _ <-.
    + destruct (Os.mkdirs_from [] (x :: p) ok (root w));
        now injection Hrun as _ <-.
  - intros q Hq. unfold Os.makedirs_path in Hrun. destruct p as [|x p].
    + now destruct ok; injection Hrun as _ <-.
    + destruct (Os.mkdirs_from [] (x :: p) ok (root w)) as [r'|e] eqn:Hmk;
        [|now injection Hrun as _ <-].
      apply (f_equal snd) in Hrun. cbn [snd] in Hrun. subst w'. cbn [root].
      apply (mkdirs_from_frame _ _ _ _ _ _ Hmk). cbn [app].
      exact (apart_not_prefix _ _ _ Hq Hp).
Qed.

Lemma within_write_path (p : path) (f : content) :
  prefix_of t p -> AarFacts.valid_path p -> within (Os.write_path p f).
Proof.
  intros Hp Hvalid w r w' Hrun Hcwd Hwf.
  destruct (AarFacts.kw_write_path p f _ _ _ Hrun) as [Hc' Hwf'].
  split; [congruence|]. split; [|split; [now apply Hwf'|]].
  - unfold Os.write_path in Hrun. destruct p as [|x p]; [now injection Hrun as _ <-|].
    destruct (lookup (x :: p) (root w)) as [[f0|es]|],
             (lookup (removelast (x :: p)) (root w)) as [[f1|es1]|];
      now injection Hrun as _ <-.
  - intros q Hq. unfold Os.write_path in Hrun.
    destruct p as [|x p]; [now injection Hrun as _ <-|].
    destruct (lookup (x :: p) (root w)) as [[f0|es]|],
             (lookup (removelast (x :: p)) (root w)) as [[f1|es1]|];
      try (now injection Hrun as _ <-);
      apply (f_equal snd) in Hrun; cbn [snd] in Hrun; subst w'; cbn [root];
      apply lookup_put_apart; exact (apart_below _ _ _ Hq Hp).
Qed.

(** The sweep over the empty directories. *)
Lemma within_remove_empty_dirs (top : string) (ds files : list string) :
  prefix_of t (resolve c top) ->
  (forall d, In d ds -> valid_name d = true) ->
  within (remove_empty_dirs top ds files).
Proof.
  intros Htop Hds. unfold remove_empty_dirs. apply within_for_each.
  intros d Hd. apply within_bind; [apply within_listdir|].
  intros [|x l]; [|apply within_ret].
  apply within_rmdir. rewrite (resolve_join _ _ _ (Hds d Hd)).
  apply (prefix_of_trans _ _ _ Htop), prefix_of_app.
Qed.

Lemma dir_names_valid (es : list (string * node)) (d : string) :
  wf (Dir es) -> In d (dir_names es) -> valid_name d = true.
Proof.
  intros Hwf Hd. apply wf_dir in Hwf as [_ Hes].
  unfold dir_names in Hd. apply in_map_iff in Hd as ([x n] & <- & Hin).
  apply filter_In in Hin as [Hin _].
  unfold wf_entries in Hes. rewrite Forall_forall in Hes. exact (proj1 (Hes _ Hin)).
Qed.

Lemma within_walk (fuel : nat) :
  forall top, prefix_of t (resolve c top) ->
              within (Os.walk_do fuel top remove_empty_dirs).
Proof.
  induction fuel as [|fuel IH]; intros top Htop w r w' Hrun Hcwd Hwf.
  - cbn [Os.walk_do] in Hrun. unfold bind, get_world in Hrun.
    destruct (Os.node_at w top) as [[f|es]|]; injection Hrun as _ <-; auto.
  - cbn [Os.walk_do] in Hrun. unfold bind at 1, get_world in Hrun.
    destruct (Os.node_at w top) as [[f|es]|] eqn:Hnode;
      [injection Hrun as _ <-; now auto| |injection Hrun as _ <-; now auto].
    assert (Hes : wf (Dir es)).
    { unfold Os.node_at in Hnode. destruct top; [discriminate|].
      exact (wf_lookup _ _ _ Hwf Hnode). }
    refine (within_bind _ _ _ _ w r w' Hrun Hcwd Hwf).
    + apply within_remove_empty_dirs; [exact Htop|].
      intros d Hd. exact (dir_names_valid _ _ Hes Hd).
    + intros _. apply within_for_each. intros d Hd. apply IH.
      rewrite (resolve_join _ _ _ (dir_names_valid _ _ Hes Hd)).
      apply (prefix_of_trans _ _ _ Htop), prefix_of_app.
Qed.

(** Extraction below [t]. *)
Lemma within_extract_member (target : string) (m : string * string) :
  resolve c target = t -> within (Os.extract_member target m).
Proof.
  intros Htarget w r w' Hrun Hcwd Hwf.
  unfold Os.extract_member in Hrun. unfold bind at 1, get_world in Hrun.
  rewrite Hcwd, Htarget in Hrun.
  set (arcname := filter (fun x => valid_name x) (Py.split "/" (fst m))) in *.
  assert (Hvalid : AarFacts.valid_path (t ++ arcname)).
  { apply Forall_app. split.
    - rewrite <- Htarget. now apply AarFacts.resolve_valid.
    - apply Forall_forall. intros x Hx. apply filter_In in Hx. tauto. }
  refine (within_bind _ _ _ _ w r w' Hrun Hcwd Hwf).
  - destruct (lookup (removelast (t ++ arcname)) (root w)); [apply within_ret|].
    apply within_makedirs_path;
      [apply prefix_of_removelast|now apply AarFacts.valid_removelast].
  - intros _. destruct (Os.ends_with_slash (fst m)).
    + intros w1 r1 w1' Hrun1. unfold bind, get_world in Hrun1. revert Hrun1.
      destruct (is_dir (lookup (t ++ arcname) (root w1))).
      * apply within_ret.
      * apply within_makedirs_path; [right; apply prefix_of_app|exact Hvalid].
    + apply within_write_path; [apply prefix_of_app|exact Hvalid].
Qed.

Lemma within_process_aar (artifact_file target_dir : string) :
  resolve c target_dir = t -> within (process_aar artifact_file target_dir).
Proof.
  intros Htarget.
  assert (Hrel : forall f, In f AarFacts.removed_names ->
            prefix_of t (resolve c (Py.os_path_join target_dir f))).
  { intros f Hf. rewrite (resolve_join_rel _ _ _ (AarFacts.removed_names_relative f Hf)).
    rewrite Htarget. apply prefix_of_app. }
  unfold process_aar.
  apply within_bind; [apply within_ZipFile|]. intros zip.
  apply within_bind.
  { apply within_for_each. intros m _. now apply within_extract_member. }
  intros _. apply within_bind; [apply within_exists|]. intros ex.
  apply within_bind.
  { apply within_when, within_remove, Hrel. now left. }
  intros _. intros w r w' Hrun. unfold bind at 1, get_world in Hrun. revert Hrun.
  apply within_bind.
  { apply within_walk. rewrite Htarget. exists []. now rewrite app_nil_r. }
  intros _. unfold remove_cruft. apply within_for_each. intros f Hf.
  apply within_bind; [apply within_exists|]. intros ex'.
  apply within_when, within_remove, Hrel. now right.
Qed.

End Confined.

(** X10.  Whatever the archive holds and whether the call ends normally
    or raises, [process_aar] changes nothing beside the target
    directory: every path that is neither inside the target directory
    nor on the way to it resolves afterwards to what it resolved to
    before.  The tree stays well formed, and the working directory and
    the error stream are as they were. *)
Theorem process_aar_stays_inside (artifact_file target_dir : string) (w : world) :
  wf (root w) ->
  AarFacts.valid_path (cwd w) ->
  let w' := snd (process_aar artifact_file target_dir w) in
  cwd w' = cwd w
  /\ stderr w' = stderr w
  /\ wf (root w')
  /\ forall q, apart (resolve (cwd w) target_dir) q ->
               lookup q (root w') = lookup q (root w).
Proof.
  intros Hwf Hcwd w'. subst w'.
  destruct (process_aar artifact_file target_dir w) as [r w'] eqn:Hrun. cbn [snd].
  exact (within_process_aar (cwd w) (resolve (cwd w) target_dir) Hcwd _ _ eq_refl
           _ _ _ Hrun eq_refl Hwf).
Qed.

Lemma process_aar_stays_inside_witness :
  lookup ["work"; "lib.aar"]
    (root (snd (process_aar "work/lib.aar" "work/out" Demo.aar_world)))
  = Some (File Demo.lib_aar).
Proof.
  destruct (process_aar_stays_inside "work/lib.aar" "work/out" Demo.aar_world)
    as (_ & _ & _ & Hframe).
  - apply wfb_sound. reflexivity.
  - constructor.
  - rewrite Hframe; [reflexivity|].
    split; intros [r Hr]; vm_compute in Hr; discriminate.
Defined.

End ConfineFacts.

(* ===================================================================== *)
(** * The small helpers *)
(* ===================================================================== *)

Module HelperFacts.
Import Script.

Lemma fold_left_join (sep : string) (l : list string) :
  forall x, fold_left (fun x y => x +:+ sep +:+ y) l x = Py.join sep (x :: l).
Proof.
  induction l as [|y l IH]; intros x; [reflexivity|].
  cbn [fold_left]. rewrite IH.
  destruct l as [|z l]; cbn [Py.join]; now rewrite ?PyFacts.append_assoc.
Qed.

(** X11.  [flatten] joins the strings of a non-empty list with single
    spaces, as [' '.join] does; on an empty list it raises the
    [TypeError] of [reduce]. *)
Theorem flatten_joins_with_spaces :
  (exists msg, flatten [] = Raised (TypeError msg))
  /\ forall x l, flatten (x :: l) = Done (Py.join " " (x :: l)).
Proof.
  split; [eexists; reflexivity|]. intros x l. unfold flatten.
  now rewrite fold_left_join.
Qed.

Lemma append_truthy (a b : string) : a <> "" -> Py.truthy (a +:+ b) = true.
Proof. destruct a; [now intros []|reflexivity]. Qed.

(** X12.  [append] hands back [more_text] alone while [text] is [None]
    or empty; starting from a non-empty text, appending the items of a
    list one after the other gives the items joined by a comma and a
    space. *)
Theorem append_accumulates (more_text x : string) (l : list string) :
  append None more_text = more_text
  /\ append (Some "") more_text = more_text
  /\ (x <> "" ->
      fold_left (fun text y => append (Some text) y) l (append None x)
      = Py.join ", " (x :: l)).
Proof.
  split; [reflexivity|]. split; [reflexivity|]. intros Hx. cbn [append].
  rewrite <- fold_left_join. revert x Hx.
  induction l as [|y l IH]; intros x Hx; [reflexivity|].
  cbn [fold_left]. destruct x as [|c x]; [now destruct Hx|].
  cbn [Py.truthy]. apply IH. discriminate.
Qed.

Lemma append_accumulates_witness :
  fold_left (fun text y => append (Some text) y) ["b"; "c"] (append None "a") = "a, b, c".
Proof.
  exact (proj2 (proj2 (append_accumulates "" "a" ["b"; "c"])) ltac:(discriminate)).
Defined.

(** X13.  [path] joins its parts with [os.path.join] from the left: a
    part that starts with a slash discards all the parts before it, and
    a call without parts raises the [TypeError] of [reduce]. *)
Theorem path_restarts_at_absolute (before after : list string) (a : string) :
  String.prefix "/" a = true ->
  (exists msg, path [] = Raised (TypeError msg))
  /\ path (before ++ a :: after) = path (a :: after).
Proof.
  intros Ha. split; [eexists; reflexivity|].
  destruct before as [|x before]; [reflexivity|].
  cbn [path app]. f_equal. rewrite fold_left_app. cbn [fold_left].
  unfold Py.os_path_join at 2. now rewrite Ha.
Qed.

Lemma path_restarts_at_absolute_witness :
  path ["a"; "b"; "/c"; "d"] = Done "/c/d".
Proof.
  exact (eq_trans (proj2 (path_restarts_at_absolute ["a"; "b"] ["d"] "/c" eq_refl))
           eq_refl).
Defined.

End HelperFacts.

(* ===================================================================== *)
(** * Downloads *)
(* ===================================================================== *)

Module DownloadFacts.
Import Script Fs FsFacts PathFacts.

Section WithHost.
Context {P : Platform} {H : Host}.

(** ** [os.makedirs] where there is something already *)

Lemma mkdirs_from_raises (todo : path) :
  forall (done : path) (ok : bool) (r : node) (e : exn),
    Os.mkdirs_from done todo ok r = Raise e -> exists msg, e = OSError msg.
Proof.
  induction todo as [|x todo IH]; intros done ok r e Hrun; [discriminate|].
  cbn [Os.mkdirs_from] in Hrun.
  destruct (lookup (done ++ [x]) r) as [[c|es]|].
  - destruct todo; injection Hrun as <-; eauto.
  - destruct todo as [|y todo]; [|exact (IH _ _ _ _ Hrun)].
    destruct ok; [discriminate|]. injection Hrun as <-. eauto.
  - exact (IH _ _ _ _ Hrun).
Qed.

Lemma mkdirs_from_exists (todo : path) :
  forall (done : path) (r : node) (n : node),
    todo <> [] ->
    lookup (done ++ todo) r = Some n ->
    exists msg, Os.mkdirs_from done todo false r = Raise (OSError msg).
Proof.
  induction todo as [|x todo IH]; intros done r n Hne Hlook; [now destruct Hne|].
  cbn [Os.mkdirs_from].
  replace (done ++ x :: todo) with ((done ++ [x]) ++ todo) in Hlook
    by (now rewrite <- app_assoc).
  rewrite lookup_app in Hlook.
  destruct (lookup (done ++ [x]) r) as [[c|es]|] eqn:Hhere; [| |discriminate].
  - destruct todo; eauto.
  - destruct todo as [|y todo]; [eauto|].
    apply (IH _ _ n); [discriminate|]. now rewrite lookup_app, Hhere.
Qed.

(** [os.makedirs] raises nothing but [OSError], and leaves the world as it
    was when it raises. *)
Lemma makedirs_raises (d : string) (w w' : world) (e : exn) :
  Os.os_makedirs d w = (Raise e, w') -> w' = w /\ exists msg, e = OSError msg.
Proof.
  unfold Os.os_makedirs, Os.makedirs_path.
  destruct d as [|c d]; [intros [= <- <-]; eauto|].
  destruct (resolve (cwd w) (String c d)) as [|x p].
  - intros [= <- <-]. eauto.
  - destruct (Os.mkdirs_from [] (x :: p) false (root w)) as [r|e0] eqn:Hmk;
      [discriminate|].
    intros [= <- <-]. split; [reflexivity|]. exact (mkdirs_from_raises _ _ _ _ _ Hmk).
Qed.

Lemma makedirs_existing (d : string) (w : world) :
  Os.path_exists w d = true -> exists msg, Os.os_makedirs d w = (Raise (OSError msg), w).
Proof.
  unfold Os.path_exists, Os.node_at, Os.os_makedirs, Os.makedirs_path.
  destruct d as [|c d]; [discriminate|].
  destruct (resolve (cwd w) (String c d)) as [|x p]; [eauto|].
  destruct (lookup (x :: p) (root w)) as [n|] eqn:Hl; [|discriminate]. intros _.
  destruct (mkdirs_from_exists (x :: p) [] (root w) n) as [msg ->];
    [discriminate|exact Hl|eauto].
Qed.

(** ** [_DownloadFileToDisk] *)

(** The first [try] statement: afterwards the directory has been made, or
    the world is as it was. *)
Definition ensure_directory (filepath : string) : IO unit :=
  try_except (on_disk (Os.os_makedirs (Os.os_path_dirname filepath)))
    (fun s => match s with
              | Exception (OSError _) => io_ret tt
              | _ => io_raise s
              end).

Lemma ensure_directory_done (filepath : string) (p : process net_t) :
  exists w1,
    ensure_directory filepath p
    = (Done tt, Process w1 (stdout p) (key_versions_map p) (net p))
    /\ (Os.os_makedirs (Os.os_path_dirname filepath) (disk p) = (Ok tt, w1)
        \/ (w1 = disk p
            /\ exists msg,
                 Os.os_makedirs (Os.os_path_dirname filepath) (disk p)
                 = (Raise (OSError msg), disk p))).
Proof.
  unfold ensure_directory, try_except, on_disk.
  destruct (Os.os_makedirs (Os.os_path_dirname filepath) (disk p)) as [[[]|e] w1] eqn:Hmk.
  - exists w1. auto.
  - destruct (makedirs_raises _ _ _ _ Hmk) as [-> [msg ->]].
    exists (disk p). split; [reflexivity|]. right. eauto.
Qed.

Lemma download_unfold (url filepath : string) (p : process net_t) :
  _DownloadFileToDisk url filepath p
  = match urlopen url (net p) with
    | (Ok body, n) =>
        let line := Line ("Downloading URL: " +:+ url) in
        match ensure_directory filepath
                (Process (disk p) (stdout p ++ [line]) (key_versions_map p) n) with
        | (Done _, p1) =>
            match Os.write_file filepath body (disk p1) with
            | (Ok _, w2) =>
                (Done tt, Process w2 (stdout p1) (key_versions_map p1) (net p1))
            | (Raise e, w2) =>
                match Os.os_remove (Os.os_path_dirname filepath) w2 with
                | (Ok _, w3) =>
                    (Raised (Exception e),
                     Process w3 (stdout p1) (key_versions_map p1) (net p1))
                | (Raise e', w3) =>
                    (Raised (Exception e'),
                     Process w3 (stdout p1) (key_versions_map p1) (net p1))
                end
            end
        | (Raised s, p1) => (Raised s, p1)
        end
    | (Raise e, n) =>
        (Raised (Exception e),
         Process (disk p) (stdout p ++ [Line ("Downloading URL: " +:+ url)])
           (key_versions_map p) n)
    end.
Proof.
  unfold _DownloadFileToDisk. fold (ensure_directory filepath).
  unfold io_bind at 1, print. unfold io_bind at 1, request. cbn [net disk stdout key_versions_map].
  destruct (urlopen url (net p)) as [[body|e] n]; [|reflexivity].
  unfold io_bind at 1. cbv zeta.
  destruct (ensure_directory filepath _) as [[[]|s] p1]; [|reflexivity].
  unfold try_except, on_disk.
  destruct (Os.write_file filepath body (disk p1)) as [[[]|e] w2]; [reflexivity|].
  unfold io_bind, on_disk, io_raise. cbn [disk stdout key_versions_map net].
  destruct (Os.os_remove (Os.os_path_dirname filepath) w2) as [[[]|e'] w3]; reflexivity.
Qed.

Lemma write_file_ok (filepath : string) (body : content) (w w' : world) :
  Os.write_file filepath body w = (Ok tt, w') ->
  Os.node_at w' filepath = Some (File body)
  /\ cwd w' = cwd w
  /\ stderr w' = stderr w
  /\ root w' = put (resolve (cwd w) filepath) (Some (File body)) (root w).
Proof.
  unfold Os.write_file. destruct filepath as [|c f]; [discriminate|]. intros Hrun.
  pose proof (PipelineFacts.write_path_ok _ _ _ _ Hrun) as Hlook.
  assert (Hw : cwd w' = cwd w /\ stderr w' = stderr w
               /\ root w' = put (resolve (cwd w) (String c f)) (Some (File body)) (root w)).
  { unfold Os.write_path in Hrun.
    destruct (resolve (cwd w) (String c f)) as [|x q]; [discriminate|].
    destruct (lookup (x :: q) (root w)) as [[d|es]|];
      destruct (lookup (removelast (x :: q)) (root w)) as [[d'|es']|];
      try discriminate;
      apply (f_equal snd) in Hrun; cbn [snd] in Hrun; subst w'; auto. }
  destruct Hw as (Hcwd & Herr & Hroot).
  unfold Os.node_at. rewrite Hcwd. auto.
Qed.

Lemma download_done (url filepath : string) (p p' : process net_t) :
  _DownloadFileToDisk url filepath p = (Done tt, p') ->
  exists body,
    urlopen url (net p) = (Ok body, net p')
    /\ Os.node_at (disk p') filepath = Some (File body)
    /\ stdout p' = stdout p ++ [Line ("Downloading URL: " +:+ url)]
    /\ key_versions_map p' = key_versions_map p.
Proof.
  rewrite download_unfold.
  destruct (urlopen url (net p)) as [[body|e] n]; [|discriminate]. cbv zeta.
  destruct (ensure_directory_done filepath
              (Process (disk p) (stdout p ++ [Line ("Downloading URL: " +:+ url)])
                 (key_versions_map p) n)) as (w1 & -> & _).
  cbn [disk stdout key_versions_map net].
  destruct (Os.write_file filepath body w1) as [[[]|e] w2] eqn:Hwrite.
  - intros [= <-]. exists body. cbn [disk stdout key_versions_map net].
    repeat split. exact (proj1 (write_file_ok _ _ _ _ Hwrite)).
  - destruct (Os.os_remove (Os.os_path_dirname filepath) w2) as [[[]|e'] w3];
      discriminate.
Qed.

(** X14.  A download that ends normally has printed its line, asked the
    network once for the URL, and left a file at [filepath] that holds
    exactly the body served; the version cache is untouched. *)
Theorem download_stores_body (url filepath : string) (p p' : process net_t) :
  _DownloadFileToDisk url filepath p = (Done tt, p') ->
  exists body,
    urlopen url (net p) = (Ok body, net p')
    /\ Os.node_at (disk p') filepath = Some (File body)
    /\ stdout p' = stdout p ++ [Line ("Downloading URL: " +:+ url)]
    /\ key_versions_map p' = key_versions_map p.
Proof. exact (download_done url filepath p p'). Qed.

(** X15.  When the directory part of [filepath] names a regular file,
    the download cannot write: the handler of the second [try] removes
    that regular file with [os.remove] and the [NotADirectoryError] of
    [open] goes on to the caller.  The request to the network has been
    made by then. *)
Theorem download_removes_blocking_file (url filepath : string) (p : process net_t)
    (body blocking : content) (n : net_t) :
  is_dir (Some (root (disk p))) = true ->
  valid_name (Os.os_path_basename filepath) = true ->
  Os.node_at (disk p) (Os.os_path_dirname filepath) = Some (File blocking) ->
  urlopen url (net p) = (Ok body, n) ->
  exists p',
    _DownloadFileToDisk url filepath p
    = (Raised (Exception (OSError "NotADirectoryError")), p')
    /\ Os.path_exists (disk p') (Os.os_path_dirname filepath) = false
    /\ Os.path_exists (disk p') filepath = false
    /\ net p' = n.
Proof.
  intros Hroot Hbase Hblock Hopen.
  rewrite download_unfold, Hopen. cbv zeta.
  set (p0 := Process (disk p) _ (key_versions_map p) n).
  destruct (ensure_directory_done filepath p0) as (w1 & -> & Hmk).
  subst p0. cbn [disk stdout key_versions_map net] in *.
  assert (Hw1 : w1 = disk p).
  { destruct Hmk as [Hok|[-> _]]; [|reflexivity].
    destruct (makedirs_existing (Os.os_path_dirname filepath) (disk p))
      as [msg Hraise]; [|congruence].
    unfold Os.path_exists. now rewrite Hblock. }
  subst w1. cbn [disk stdout key_versions_map net].
  pose proof (FileOpsFacts.resolve_dirname_basename (cwd (disk p)) filepath Hbase) as Hres.
  set (d := Os.os_path_dirname filepath) in *.
  remember (resolve (cwd (disk p)) d) as there eqn:Hthere_eq.
  assert (Hd : d <> "" /\ lookup there (root (disk p)) = Some (File blocking)).
  { unfold Os.node_at in Hblock. destruct d; [discriminate|]. split; [discriminate|].
    now rewrite Hthere_eq. }
  destruct Hd as [Hd Hthere].
  assert (Hne : there <> []).
  { intros E. rewrite E in Hthere. cbn in Hthere. injection Hthere as Hr.
    rewrite Hr in Hroot. discriminate. }
  assert (Hwrite : Os.write_file filepath body (disk p)
                   = (Raise (OSError "NotADirectoryError"), disk p)).
  { unfold Os.write_file. destruct filepath as [|c f]; [discriminate|].
    unfold Os.write_path. rewrite Hres.
    destruct (there ++ [Os.os_path_basename (String c f)]) as [|x q] eqn:Hq;
      [now destruct there|].
    rewrite <- Hq, removelast_last, lookup_app, Hthere. reflexivity. }
  rewrite Hwrite.
  assert (Hremove : Os.os_remove d (disk p)
                    = (Ok tt, World (put there None (root (disk p))) (cwd (disk p))
                                (stderr (disk p)))).
  { unfold Os.os_remove, Os.put_at. rewrite Hblock, <- Hthere_eq.
    destruct there; [now destruct Hne|reflexivity]. }
  rewrite Hremove. eexists. split; [reflexivity|]. cbn [disk net].
  split; [|split; [|reflexivity]].
  - rewrite Hthere_eq in *.
    apply (FileOpsFacts.node_at_absent (disk p) d (root (disk p))) in Hne.
    unfold Os.path_exists. now rewrite Hne.
  - unfold Os.path_exists, Os.node_at. destruct filepath as [|c f]; [reflexivity|].
    cbn [cwd root]. rewrite Hres, lookup_app.
    rewrite (lookup_delete_self there _ Hne). reflexivity.
Qed.

(** ** [fetch_gmaven_artifact] *)

Lemma basename_join (d name : string) :
  valid_name name = true -> Os.os_path_basename (Py.os_path_join d name) = name.
Proof.
  intros Hname. pose proof (valid_name_inv _ Hname) as (Hne & Hclean & _).
  unfold Os.os_path_basename, Py.os_path_join.
  rewrite (valid_not_absolute _ Hname).
  assert (Hlast : forall a, List.last (Py.split "/" (a +:+ String "/" name)) "" = name).
  { intros a. rewrite PyFacts.split_app, (PyFacts.split_clean "/" name Hclean).
    apply last_last. }
  destruct d as [|c d].
  - cbn. now rewrite (PyFacts.split_clean "/" name Hclean).
  - cbn [Py.truthy negb orb].
    destruct (String.eqb (Py.take_last 1 (String c d)) "/") eqn:Hslash.
    + apply String.eqb_eq, take_last_slash in Hslash as [a ->].
      rewrite PyFacts.append_assoc. apply Hlast.
    + apply Hlast.
Qed.

Lemma file_name_valid (a : GMaven.GMavenArtifact) (ext : string) :
  Py.contains "/" (GMaven.library a) = false ->
  Py.contains "/" (GMaven.version a) = false ->
  Py.contains "/" ext = false ->
  valid_name (file_name a ext) = true.
Proof.
  intros Hl Hv He. unfold valid_name, file_name.
  assert (Hdash : Py.contains "-" (GMaven.library a +:+ "-" +:+ GMaven.version a
                                   +:+ "." +:+ ext) = true).
  { rewrite GMavenFacts.contains_append. apply orb_true_iff. right. reflexivity. }
  set (s := GMaven.library a +:+ "-" +:+ GMaven.version a +:+ "." +:+ ext) in *.
  assert (Hslash : Py.contains "/" s = false).
  { subst s. rewrite !GMavenFacts.contains_append, Hl, Hv, He. reflexivity. }
  rewrite Hslash.
  destruct (String.eqb_spec s ".") as [E|_]; [rewrite E in Hdash; discriminate|].
  destruct (String.eqb_spec s "..") as [E|_]; [rewrite E in Hdash; discriminate|].
  destruct s; [discriminate|reflexivity].
Qed.

Lemma append_inv_head (a b c : string) : a +:+ b = a +:+ c -> b = c.
Proof. induction a as [|x a IH]; [auto|]. intros [= E]. auto. Qed.

Lemma node_at_lookup (w : world) (f : string) :
  f <> "" -> Os.node_at w f = lookup (resolve (cwd w) f) (root w).
Proof. destruct f; [now intros []|reflexivity]. Qed.

(** Where a file is, its directory is. *)
Lemma parent_of_file (there : path) (name : string) (n r : node) :
  lookup (there ++ [name]) r = Some n -> exists es, lookup there r = Some (Dir es).
Proof.
  rewrite lookup_app. destruct (lookup there r) as [[c|es]|]; [discriminate|eauto|discriminate].
Qed.

(** X16.  For an artifact whose library, version and extension hold no
    slash, a fetch that ends normally returns the directory
    [gmaven/<group>/<library>/<version>] (the group with its dots, not
    the group path of the URL), has asked for the POM and then for the
    artifact, and has left both under that directory, each holding the
    body served for it. *)
Theorem fetch_stores_pom_and_artifact (artifact : GMaven.GMavenArtifact)
    (p p' : process net_t) (download_to : string) :
  Py.contains "/" (GMaven.library artifact) = false ->
  Py.contains "/" (GMaven.version artifact) = false ->
  Py.contains "/" (GMaven.ext artifact) = false ->
  fetch_gmaven_artifact artifact p = (Done download_to, p') ->
  download_to
  = Py.os_path_join
      (Py.os_path_join (Py.os_path_join "gmaven" (GMaven.group artifact))
                       (GMaven.library artifact))
      (GMaven.version artifact)
  /\ exists pom body n,
       urlopen (GMaven.get_pom_file_url artifact) (net p) = (Ok pom, n)
       /\ urlopen (GMaven.get_artifact_url artifact) n = (Ok body, net p')
       /\ Os.node_at (disk p')
            (Py.os_path_join download_to (file_name artifact (GMaven.ext artifact)))
          = Some (File body)
       /\ (GMaven.ext artifact <> "pom" ->
           Os.node_at (disk p') (Py.os_path_join download_to (file_name artifact "pom"))
           = Some (File pom)).
Proof.
  intros Hl Hv He. unfold fetch_gmaven_artifact. cbv zeta. fold (download_dir artifact).
  set (d := download_dir artifact).
  set (f1 := Py.os_path_join d (file_name artifact "pom")).
  set (f2 := Py.os_path_join d (file_name artifact (GMaven.ext artifact))).
  unfold io_bind at 1.
  destruct (_DownloadFileToDisk (GMaven.get_pom_file_url artifact) f1 p)
    as [[[]|s] p1] eqn:H1; [|discriminate].
  unfold io_bind at 1.
  destruct (_DownloadFileToDisk (GMaven.get_artifact_url artifact) f2 p1)
    as [[[]|s] p2] eqn:H2; [|discriminate].
  intros [= <- <-]. split; [reflexivity|].
  destruct (download_done _ _ _ _ H1) as (pom & Hopen1 & Hfile1 & _).
  destruct (download_done _ _ _ _ H2) as (body & Hopen2 & Hfile2 & _).
  exists pom, body, (net p1). repeat split; try assumption.
  intros Hext.
  (* the second download leaves the first file alone *)
  pose proof (file_name_valid artifact "pom" Hl Hv eq_refl) as Hn1.
  pose proof (file_name_valid artifact (GMaven.ext artifact) Hl Hv He) as Hn2.
  assert (Hf1 : f1 <> "") by (apply join_nonempty; now apply valid_name_inv in Hn1).
  assert (Hf2 : f2 <> "") by (apply join_nonempty; now apply valid_name_inv in Hn2).
  set (c := cwd (disk p1)).
  assert (Hr1 : resolve c f1 = resolve c d ++ [file_name artifact "pom"])
    by (apply resolve_join; exact Hn1).
  assert (Hr2 : resolve c f2 = resolve c d ++ [file_name artifact (GMaven.ext artifact)])
    by (apply resolve_join; exact Hn2).
  assert (Hdir2 : resolve c (Os.os_path_dirname f2) = resolve c d).
  { pose proof (FileOpsFacts.resolve_dirname_basename c f2) as E.
    unfold f2 in E at 1. rewrite basename_join in E by exact Hn2.
    rewrite (E Hn2) in Hr2. now apply app_inj_tail in Hr2. }
  assert (Hlook1 : lookup (resolve c f1) (root (disk p1)) = Some (File pom)).
  { unfold c. now rewrite <- (node_at_lookup _ _ Hf1). }
  rewrite download_unfold in H2. rewrite Hopen2 in H2. cbv zeta in H2.
  set (p1' := Process (disk p1) _ (key_versions_map p1) (net p2)) in H2.
  destruct (ensure_directory_done f2 p1') as (w1 & Hens & Hmk).
  rewrite Hens in H2. subst p1'. cbn [disk stdout key_versions_map net] in H2, Hmk.
  assert (Hw1 : w1 = disk p1).
  { destruct Hmk as [Hok|[-> _]]; [|reflexivity].
    destruct (Os.os_path_dirname f2) as [|x dn] eqn:Hdn; [discriminate|].
    destruct (makedirs_existing (String x dn) (disk p1)) as [msg Hraise]; [|congruence].
    unfold Os.path_exists, Os.node_at. fold c. rewrite Hdir2.
    rewrite Hr1 in Hlook1. destruct (parent_of_file _ _ _ _ Hlook1) as [es ->].
    reflexivity. }
  subst w1.
  destruct (Os.write_file f2 body (disk p1)) as [[[]|e] w2] eqn:Hwrite.
  - injection H2 as <-. cbn [disk].
    destruct (write_file_ok _ _ _ _ Hwrite) as (_ & Hcwd & _ & Hroot).
    rewrite (node_at_lookup _ _ Hf1), Hcwd, Hroot.
    fold c. rewrite Hr2, Hr1, lookup_put_apart; [now rewrite <- Hr1|].
    apply AarFacts.apart_siblings. intros E. apply Hext.
    unfold file_name in E. do 4 apply append_inv_head in E. now symmetry.
  - destruct (Os.os_remove (Os.os_path_dirname f2) w2) as [[[]|e'] w3]; discriminate.
Qed.

End WithHost.
#[local] Existing Instance Demo.platform.
#[local] Existing Instance DemoHost.host.

Lemma download_stores_body_witness :
  exists p',
    _DownloadFileToDisk (H := DemoHost.host) (GMaven.get_pom_file_url DemoHost.lib_pinned)
      "gmaven/g/lib/1.2.0/lib-1.2.0.pom" DemoHost.start
    = (Done tt, p')
    /\ Os.node_at (disk p') "gmaven/g/lib/1.2.0/lib-1.2.0.pom"
       = Some (File (Text (Demo.pom_text "g" "lib" "1.2.0")))
    /\ net p' = [GMaven.get_pom_file_url DemoHost.lib_pinned].
Proof.
  destruct (_DownloadFileToDisk (H := DemoHost.host) (GMaven.get_pom_file_url DemoHost.lib_pinned)
              "gmaven/g/lib/1.2.0/lib-1.2.0.pom" DemoHost.start) as [r p'] eqn:Hrun.
  assert (Hr : r = Done tt) by (vm_compute in Hrun; now injection Hrun as <- _).
  subst r. destruct (download_stores_body _ _ _ _ Hrun) as (body & Hopen & Hfile & _).
  exists p'. split; [reflexivity|].
  vm_compute in Hopen. injection Hopen as <- Hnet. split; [exact Hfile|].
  symmetry. exact Hnet.
Defined.

(** A disk on which [blocked] is a regular file. *)
Definition blocked_disk : world :=
  {| root := Dir [("blocked", File (Text "in the way"))]; cwd := []; stderr := [] |}.

Lemma download_removes_blocking_file_witness :
  exists p',
    _DownloadFileToDisk (H := DemoHost.host) (GMaven.get_pom_file_url DemoHost.lib_pinned) "blocked/lib.pom"
      (Process blocked_disk [] [] [])
    = (Raised (Exception (OSError "NotADirectoryError")), p')
    /\ Os.path_exists (disk p') "blocked" = false.
Proof.
  destruct (download_removes_blocking_file (H := DemoHost.host)
              (GMaven.get_pom_file_url DemoHost.lib_pinned) "blocked/lib.pom"
              (Process blocked_disk [] [] [])
              (Text (Demo.pom_text "g" "lib" "1.2.0")) (Text "in the way")
              [GMaven.get_pom_file_url DemoHost.lib_pinned]
              eq_refl eq_refl eq_refl eq_refl)
    as (p' & Hrun & Hgone & _).
  exists p'. split; [exact Hrun|exact Hgone].
Defined.

Lemma fetch_stores_pom_and_artifact_witness :
  exists p',
    fetch_gmaven_artifact (H := DemoHost.host) DemoHost.lib_pinned DemoHost.start
    = (Done "gmaven/g/lib/1.2.0", p')
    /\ Os.node_at (disk p') "gmaven/g/lib/1.2.0/lib-1.2.0.aar" = Some (File Demo.lib_aar)
    /\ Os.node_at (disk p') "gmaven/g/lib/1.2.0/lib-1.2.0.pom"
       = Some (File (Text (Demo.pom_text "g" "lib" "1.2.0"))).
Proof.
  destruct (fetch_gmaven_artifact (H := DemoHost.host) DemoHost.lib_pinned DemoHost.start)
    as [r p'] eqn:Hrun.
  assert (Hr : r = Done "gmaven/g/lib/1.2.0")
    by (vm_compute in Hrun; now injection Hrun as <- _).
  subst r.
  destruct (fetch_stores_pom_and_artifact (H := DemoHost.host) DemoHost.lib_pinned DemoHost.start p'
              "gmaven/g/lib/1.2.0" eq_refl eq_refl eq_refl Hrun)
    as (_ & pom & body & n & Hopen1 & Hopen2 & Hfile2 & Hfile1).
  exists p'. split; [reflexivity|].
  vm_compute in Hopen1. injection Hopen1 as <- <-.
  vm_compute in Hopen2. injection Hopen2 as <- _.
  split; [exact Hfile2|]. apply Hfile1. discriminate.
Defined.

End DownloadFacts.

(* ===================================================================== *)
(** * The version cache, the update and the VCS guard *)
(* ===================================================================== *)

Module UpdateFacts.
Import Script.

Section WithHost.
Context {P : Platform} {H : Host}.

(** ** Filling the cache *)

Definition index_key (root library : element) : string :=
  tag root +:+ ":" +:+ tag library.

Definition cache_all (root : element) (libraries : list element)
    (versions : Config.dict string) : Config.dict string :=
  fold_left (fun m library =>
               Discovery.dict_set (index_key root library) (last_version library) m)
            libraries versions.

Lemma store_versions_done (root : element) (libraries : list element) :
  forall p : process net_t,
    io_for_each libraries
      (fun library => set_version (tag root +:+ ":" +:+ tag library) (last_version library)) p
    = (Done tt, Process (disk p) (stdout p)
                  (cache_all root libraries (key_versions_map p)) (net p)).
Proof.
  induction libraries as [|x l IH]; intros p; [now destruct p|].
  cbn [io_for_each]. unfold io_bind, set_version at 1. rewrite IH. reflexivity.
Qed.

Lemma cache_all_cons (root x : element) (l : list element)
    (versions : Config.dict string) :
  cache_all root (x :: l) versions
  = cache_all root l
      (Discovery.dict_set (index_key root x) (last_version x) versions).
Proof. reflexivity. Qed.

Lemma cache_all_other (root : element) (libraries : list element) (k : string) :
  forall versions,
    (forall library, In library libraries -> k <> index_key root library) ->
    Config.dict_get (cache_all root libraries versions) k = Config.dict_get versions k.
Proof.
  induction libraries as [|x l IH]; intros versions Hk; [reflexivity|].
  rewrite cache_all_cons.
  rewrite IH by (intros y Hy; apply Hk; now right).
  rewrite DiscoveryFacts.dict_get_set.
  destruct (String.eqb_spec (index_key root x) k) as [E|_]; [|reflexivity].
  destruct (Hk x (or_introl eq_refl)). now symmetry.
Qed.

Lemma index_key_inj (root a b : element) :
  index_key root a = index_key root b -> tag a = tag b.
Proof.
  unfold index_key. intros E. apply DownloadFacts.append_inv_head in E.
  now injection E.
Qed.

Lemma cache_all_listed (root : element) (libraries : list element) (library : element) :
  forall versions,
    NoDup (map tag libraries) ->
    In library libraries ->
    Config.dict_get (cache_all root libraries versions) (index_key root library)
    = Some (last_version library).
Proof.
  induction libraries as [|x l IH]; intros versions Hnd Hin; [contradiction|].
  rewrite cache_all_cons.
  inversion Hnd as [|? ? Hx Hl]; subst.
  destruct Hin as [->|Hin]; [|now apply IH].
  rewrite cache_all_other.
  - rewrite DiscoveryFacts.dict_get_set, String.eqb_refl. reflexivity.
  - intros y Hy E. apply Hx. apply index_key_inj in E. rewrite E. now apply in_map.
Qed.

(** What a look-up that goes to the network has done when it hands back
    a version. *)
Lemma fetch_versions_done (self : GMaven.GMavenArtifact) (p p1 : process net_t)
    (v : string) :
  fetch_versions self p = (Done v, p1) ->
  exists response root,
    urlopen (group_index_url self) (net p) = (Ok response, net p1)
    /\ ET_parse response = Done root
    /\ stdout p1
       = stdout p ++ [Line ("Fetching latest version for " +:+ GMaven.key self)]
    /\ disk p1 = disk p
    /\ key_versions_map p1 = cache_all root (libraries_of root) (key_versions_map p)
    /\ Config.dict_get (key_versions_map p1) (GMaven.key self) = Some v.
Proof.
  unfold fetch_versions. unfold io_bind at 1, print. unfold io_bind at 1, request.
  cbn [disk stdout key_versions_map net].
  destruct (urlopen (group_index_url self) (net p)) as [[response|e] n]; [|discriminate].
  unfold io_bind at 1, io_lift.
  destruct (ET_parse response) as [root|s] eqn:Hparse; [|discriminate].
  unfold io_bind at 1. rewrite store_versions_done.
  cbn [disk stdout key_versions_map net].
  unfold io_bind, get_versions. cbn [key_versions_map].
  destruct (Config.dict_get _ (GMaven.key self)) as [latest|] eqn:Hget; [|discriminate].
  intros [= <- <-]. exists response, root. cbn [disk stdout key_versions_map net].
  repeat split; try assumption.
Qed.

Lemma latest_version_hit (self : GMaven.GMavenArtifact) (p : process net_t) (v : string) :
  Config.dict_get (key_versions_map p) (GMaven.key self) = Some v -> v <> "" ->
  get_latest_version self p = (Done v, p).
Proof.
  intros Hget Hv. unfold get_latest_version, io_bind, get_versions. rewrite Hget.
  destruct v; [now destruct Hv|reflexivity].
Qed.

Lemma latest_version_done (self : GMaven.GMavenArtifact) (p p1 : process net_t)
    (v : string) :
  get_latest_version self p = (Done v, p1) ->
  Config.dict_get (key_versions_map p1) (GMaven.key self) = Some v.
Proof.
  unfold get_latest_version, io_bind, get_versions.
  destruct (Config.dict_get (key_versions_map p) (GMaven.key self)) as [v0|] eqn:Hget.
  - destruct (Py.truthy v0).
    + now intros [= <- <-].
    + intros Hrun. now destruct (fetch_versions_done _ _ _ _ Hrun) as (? & ? & ? & ? & ? & ? & ? & ?).
  - intros Hrun. now destruct (fetch_versions_done _ _ _ _ Hrun) as (? & ? & ? & ? & ? & ? & ? & ?).
Qed.

(** X17.  Once [get_latest_version] has handed back a non-empty version
    for an artifact, asking again gives the same version and changes
    nothing: no line is printed and the network is not asked, because
    the answer comes from [key_versions_map]. *)
Theorem latest_version_is_cached (self : GMaven.GMavenArtifact) (p p1 : process net_t)
    (v : string) :
  get_latest_version self p = (Done v, p1) ->
  v <> "" ->
  Config.dict_get (key_versions_map p1) (GMaven.key self) = Some v
  /\ get_latest_version self p1 = (Done v, p1).
Proof.
  intros Hrun Hv. pose proof (latest_version_done _ _ _ _ Hrun) as Hget.
  split; [exact Hget|]. now apply latest_version_hit.
Qed.

(** X18.  A look-up for a key that the cache does not hold (or holds with
    an empty version) prints its line, asks for the group index once and
    records, for every child element of the root that has a [versions]
    attribute, the last item of that comma-separated attribute under
    [<root tag>:<child tag>]; the other keys keep what they had.  The
    version handed back is the one then recorded under the artifact's
    key, and the disk is untouched. *)
Theorem index_fills_the_cache (self : GMaven.GMavenArtifact) (p p1 : process net_t)
    (v : string) :
  (Config.dict_get (key_versions_map p) (GMaven.key self) = None
   \/ Config.dict_get (key_versions_map p) (GMaven.key self) = Some "") ->
  get_latest_version self p = (Done v, p1) ->
  exists response root,
    urlopen (Config.GMAVEN_BASE_URL +:+ "/" +:+ GMaven.group_path self
             +:+ "/group-index.xml") (net p)
    = (Ok response, net p1)
    /\ ET_parse response = Done root
    /\ stdout p1
       = stdout p ++ [Line ("Fetching latest version for " +:+ GMaven.key self)]
    /\ disk p1 = disk p
    /\ Config.dict_get (key_versions_map p1) (GMaven.key self) = Some v
    /\ (NoDup (map tag (libraries_of root)) ->
        forall library versions,
          In library (children root) ->
          Config.dict_get (attrib library) "versions" = Some versions ->
          Config.dict_get (key_versions_map p1) (tag root +:+ ":" +:+ tag library)
          = Some (List.last (Py.split "," versions) ""))
    /\ (forall k,
          (forall library, In library (libraries_of root) ->
                           k <> tag root +:+ ":" +:+ tag library) ->
          Config.dict_get (key_versions_map p1) k
          = Config.dict_get (key_versions_map p) k).
Proof.
  intros Hmiss Hrun.
  assert (Hfetch : fetch_versions self p = (Done v, p1)).
  { unfold get_latest_version, io_bind, get_versions in Hrun.
    destruct Hmiss as [E|E]; rewrite E in Hrun; exact Hrun. }
  destruct (fetch_versions_done _ _ _ _ Hfetch)
    as (response & root & Hopen & Hparse & Hout & Hdisk & Hmap & Hget).
  exists response, root. repeat split; try assumption.
  - intros Hnd library versions Hin Hattr. rewrite Hmap.
    assert (Hlisted : In library (libraries_of root)).
    { apply filter_In. split; [exact Hin|]. unfold Config.dict_mem. now rewrite Hattr. }
    rewrite (cache_all_listed root _ library _ Hnd Hlisted).
    unfold last_version. now rewrite Hattr.
  - intros k Hk. rewrite Hmap. now apply cache_all_other.
Qed.

(** ** [update_gmaven] *)

Lemma init_raises (artifact_glob : string) (e : exn) :
  GMaven.init artifact_glob = Raise e -> e = GMaven.format_error artifact_glob.
Proof.
  unfold GMaven.init.
  destruct (Py.split ":" artifact_glob) as [|g [|l [|v [|x [|y r]]]]];
    try (now intros [= <-]).
  destruct (_ || _ || _ || _); [now intros [= <-]|discriminate].
Qed.

Lemma map_result_first_raise {A B} (f : A -> result B) (good rest : list A) (bad : A)
    (e : exn) :
  (forall x, In x good -> exists y, f x = Ok y) ->
  f bad = Raise e ->
  Emit.map_result f (good ++ bad :: rest) = Raise e.
Proof.
  induction good as [|x good IH]; intros Hgood Hbad; cbn [app Emit.map_result].
  - now rewrite Hbad.
  - destruct (Hgood x (or_introl eq_refl)) as [y ->].
    rewrite IH; [reflexivity| |exact Hbad]. intros z Hz. apply Hgood. now right.
Qed.

Lemma map_result_forall2 {A B} (f : A -> result B) (l : list A) (ys : list B) :
  Emit.map_result f l = Ok ys -> Forall2 (fun x y => f x = Ok y) l ys.
Proof.
  revert ys. induction l as [|x l IH]; intros ys; cbn [Emit.map_result].
  - intros [= <-]. constructor.
  - destruct (f x) as [y|e] eqn:Hx; [|discriminate].
    destruct (Emit.map_result f l) as [ys'|e]; [|discriminate].
    intros [= <-]. constructor; auto.
Qed.

Lemma io_map_done {A B} (f : A -> IO B) (l : list A) :
  forall (p p' : process net_t) (ys : list B),
    io_map f l p = (Done ys, p') ->
    Forall2 (fun x y => exists q q', f x q = (Done y, q')) l ys.
Proof.
  induction l as [|x l IH]; intros p p' ys; cbn [io_map].
  - intros [= <- _]. constructor.
  - unfold io_bind at 1. destruct (f x p) as [[y|s] p1] eqn:Hx; [|discriminate].
    unfold io_bind at 1. destruct (io_map f l p1) as [[ys'|s] p2] eqn:Hl; [|discriminate].
    intros [= <- _]. constructor; eauto.
Qed.

Lemma resolve_latest_key (artifact artifact' : GMaven.GMavenArtifact)
    (q q' : process net_t) :
  resolve_latest artifact q = (Done artifact', q') ->
  GMaven.key artifact' = GMaven.key artifact.
Proof.
  unfold resolve_latest. destruct (String.eqb _ "latest"); [|now intros [= <- _]].
  unfold io_bind. destruct (get_latest_version artifact q) as [[v|s] q1]; [|discriminate].
  now intros [= <- _].
Qed.

(** X19.  A malformed entry anywhere in [gmaven_artifacts] stops
    [update_gmaven] before it has printed, asked the network or touched
    the disk: all the entries are parsed first, and the call raises the
    [ValueError] of the first malformed one in a process left exactly as
    it was. *)
Theorem update_gmaven_validates_first (maven_to_make : Config.dict Config.make_entry)
    (good rest : list string) (bad : string) (p : process net_t) :
  (forall artifact_glob, In artifact_glob good ->
     exists artifact, GMaven.init artifact_glob = Ok artifact) ->
  raises (GMaven.init bad) ->
  update_gmaven maven_to_make (good ++ bad :: rest) p
  = (Raised (Exception (GMaven.format_error bad)), p).
Proof.
  intros Hgood Hbad. unfold update_gmaven, io_bind at 1, io_lift.
  destruct (GMaven.init bad) as [a|e] eqn:Hinit; [destruct Hbad|].
  rewrite (map_result_first_raise _ good rest bad e Hgood Hinit).
  now rewrite (init_raises _ _ Hinit).
Qed.

(** X20.  What [update_gmaven] returns is the empty list, or one key
    [group:library] for each entry of [gmaven_artifacts], in the order
    of the entries, also for the entries whose version was [latest]; it
    is the empty list whenever the transformation returned [False], and
    whenever there was no entry to begin with. *)
Theorem update_gmaven_returns_keys (maven_to_make : Config.dict Config.make_entry)
    (gmaven_artifacts : list string) (p p' : process net_t) (keys : list string) :
  update_gmaven maven_to_make gmaven_artifacts p = (Done keys, p') ->
  (keys = []
   \/ Forall2 (fun artifact_glob key =>
                 exists artifact, GMaven.init artifact_glob = Ok artifact
                                  /\ key = GMaven.group artifact +:+ ":"
                                           +:+ GMaven.library artifact)
              gmaven_artifacts keys)
  /\ (gmaven_artifacts = [] -> keys = []).
Proof.
  unfold update_gmaven. unfold io_bind at 1, io_lift.
  destruct (Emit.map_result GMaven.init gmaven_artifacts) as [artifacts|e] eqn:Hinit;
    [|discriminate].
  cbn [of_result]. unfold io_bind at 1.
  destruct (io_map resolve_latest artifacts p) as [[resolved|s] p1] eqn:Hres;
    [|discriminate].
  unfold io_bind at 1.
  destruct (io_map fetch_gmaven_artifact resolved p1) as [[dirs|s] p2]; [|discriminate].
  unfold io_bind at 1, print. unfold io_bind at 1.
  destruct (on_disk _ _) as [[ok|s] p3]; [|discriminate].
  assert (Hkeys : Forall2 (fun artifact_glob key =>
                    exists artifact, GMaven.init artifact_glob = Ok artifact
                                     /\ key = GMaven.group artifact +:+ ":"
                                              +:+ GMaven.library artifact)
                    gmaven_artifacts (map GMaven.key resolved)).
  { apply map_result_forall2 in Hinit. apply io_map_done in Hres.
    clear -Hinit Hres. revert resolved Hres.
    induction Hinit as [|g a gs arts Hg _ IH]; intros resolved Hres.
    - inversion Hres; subst. constructor.
    - inversion Hres as [|? a' ? rs (q & q' & Ha') Hrest]; subst. cbn [map].
      constructor; [|now apply IH].
      exists a. split; [exact Hg|]. rewrite (resolve_latest_key _ _ _ _ Ha').
      now destruct (GMavenFacts.init_ok_split _ _ Hg) as (_ & _ & _ & _ & _ & _ & ->). }
  destruct ok; cbn [negb]; intros [= <- _].
  - split; [now right|]. intros ->. inversion Hkeys. reflexivity.
  - split; [now left|reflexivity].
Qed.

(** ** [uncommittedChangesExist] *)

Lemma check_call_shell_unfold (command : string) (p : process net_t) :
  check_call_shell command p
  = match subprocess_shell command (disk p) with
    | (Ok out, w) =>
        (Done tt, Process w (stdout p ++ map Line out) (key_versions_map p) (net p))
    | (Raise e, w) =>
        (Raised (Exception e), Process w (stdout p) (key_versions_map p) (net p))
    end.
Proof.
  unfold check_call_shell, io_bind, on_disk.
  destruct (subprocess_shell command (disk p)) as [[out|e] w]; [|reflexivity].
  set (p0 := Process w (stdout p) (key_versions_map p) (net p)).
  assert (Hloop : forall (l : list string) (q : process net_t),
            io_for_each l (fun line => print (Line line)) q
            = (Done tt, Process (disk q) (stdout q ++ map Line l)
                          (key_versions_map q) (net q))).
  { induction l as [|x l IH]; intros q.
    - cbn. rewrite app_nil_r. now destruct q.
    - cbn [io_for_each]. unfold io_bind, print at 1. rewrite IH.
      cbn [disk stdout key_versions_map net map]. now rewrite <- app_assoc. }
  rewrite Hloop. reflexivity.
Qed.

(** X21.  [uncommittedChangesExist] answers [False] only when both
    [git diff --quiet] commands (the second with [--cached]) have ended
    normally, and [True] only when one of them has raised
    [CalledProcessError], the second not being run when the first has;
    it never lets a [CalledProcessError] through to its caller. *)
Theorem uncommitted_changes_answer (p p' : process net_t) (r : outcome bool) :
  uncommittedChangesExist p = (r, p') ->
  let diff := "cd " +:+ git_dir (disk p) +:+ " && git diff --quiet" in
  (forall msg, r <> Raised (Exception (CalledProcessError msg)))
  /\ (r = Done false ->
      exists out1 w1 out2,
        subprocess_shell diff (disk p) = (Ok out1, w1)
        /\ subprocess_shell (diff +:+ " --cached") w1 = (Ok out2, disk p'))
  /\ (r = Done true ->
      (exists msg, subprocess_shell diff (disk p)
                   = (Raise (CalledProcessError msg), disk p'))
      \/ (exists out1 w1 msg,
            subprocess_shell diff (disk p) = (Ok out1, w1)
            /\ subprocess_shell (diff +:+ " --cached") w1
               = (Raise (CalledProcessError msg), disk p'))).
Proof.
  intros Hrun diff. unfold uncommittedChangesExist, try_except in Hrun.
  unfold io_bind at 1 in Hrun. rewrite check_call_shell_unfold in Hrun.
  fold (diffCommand (disk p)) in diff. fold diff in Hrun.
  destruct (subprocess_shell diff (disk p)) as [[out1|e1] w1] eqn:H1.
  - unfold io_bind at 1 in Hrun. rewrite check_call_shell_unfold in Hrun.
    cbn [disk stdout key_versions_map net] in Hrun.
    destruct (subprocess_shell (diff +:+ " --cached") w1) as [[out2|e2] w2] eqn:H2.
    + cbn in Hrun. injection Hrun as <- <-. cbn [disk].
      split; [discriminate|]. split; [eauto|discriminate].
    + assert (Hcases : (exists msg, e2 = CalledProcessError msg
                                    /\ r = Done true /\ disk p' = w2)
                       \/ (r = Raised (Exception e2)
                           /\ forall msg, e2 <> CalledProcessError msg)).
      { destruct e2; cbn in Hrun; injection Hrun as <- <-;
          try (right; split; [reflexivity|discriminate]).
        left. eauto. }
      destruct Hcases as [(msg & -> & -> & <-)|[-> Hne]].
      * split; [discriminate|]. split; [discriminate|]. intros _. right. eauto.
      * split; [intros msg [= E]; now apply (Hne msg)|]. split; discriminate.
  - assert (Hcases : (exists msg, e1 = CalledProcessError msg
                                  /\ r = Done true /\ disk p' = w1)
                     \/ (r = Raised (Exception e1)
                         /\ forall msg, e1 <> CalledProcessError msg)).
    { destruct e1; cbn in Hrun; injection Hrun as <- <-;
        try (right; split; [reflexivity|discriminate]).
      left. eauto. }
    destruct Hcases as [(msg & -> & -> & <-)|[-> Hne]].
    + split; [discriminate|]. split; [discriminate|]. intros _. left. eauto.
    + split; [intros msg [= E]; now apply (Hne msg)|]. split; discriminate.
Qed.

End WithHost.

#[local] Existing Instance Demo.platform.
#[local] Existing Instance DemoHost.host.

Lemma latest_version_is_cached_witness :
  exists p1,
    get_latest_version (H := DemoHost.host) DemoHost.lib_latest DemoHost.start
    = (Done "1.2.0", p1)
    /\ get_latest_version (H := DemoHost.host) DemoHost.lib_latest p1 = (Done "1.2.0", p1).
Proof.
  destruct (get_latest_version (H := DemoHost.host) DemoHost.lib_latest DemoHost.start)
    as [r p1] eqn:Hrun.
  assert (Hr : r = Done "1.2.0") by (vm_compute in Hrun; now injection Hrun as <- _).
  subst r. exists p1. split; [reflexivity|].
  apply (latest_version_is_cached (H := DemoHost.host) _ _ _ _ Hrun). discriminate.
Defined.

Lemma index_fills_the_cache_witness :
  exists p1,
    get_latest_version (H := DemoHost.host) DemoHost.lib_latest DemoHost.start
    = (Done "1.2.0", p1)
    /\ stdout p1 = [Line "Fetching latest version for g:lib"]
    /\ Config.dict_get (key_versions_map p1) "g:lib" = Some "1.2.0"
    /\ Config.dict_get (key_versions_map p1) "g:doc" = None.
Proof.
  destruct (get_latest_version (H := DemoHost.host) DemoHost.lib_latest DemoHost.start)
    as [r p1] eqn:Hrun.
  assert (Hr : r = Done "1.2.0") by (vm_compute in Hrun; now injection Hrun as <- _).
  subst r.
  destruct (index_fills_the_cache (H := DemoHost.host) DemoHost.lib_latest DemoHost.start
              p1 "1.2.0" (or_introl eq_refl) Hrun)
    as (response & root & Hopen & Hparse & Hout & _ & Hget & _ & Hother).
  exists p1. split; [reflexivity|]. split; [exact Hout|]. split; [exact Hget|].
  vm_compute in Hopen. injection Hopen as <- _.
  vm_compute in Hparse. injection Hparse as <-.
  rewrite (Hother "g:doc"); [reflexivity|].
  intros library [<-|[]]. discriminate.
Defined.

Lemma update_gmaven_validates_first_witness :
  update_gmaven (H := DemoHost.host) Demo.table ["g:lib:1.2.0:aar"; "g:lib"; "g:doc:1:jar"]
    DemoHost.start
  = (Raised (Exception (GMaven.format_error "g:lib")), DemoHost.start).
Proof.
  apply (update_gmaven_validates_first (H := DemoHost.host) Demo.table
           ["g:lib:1.2.0:aar"] ["g:doc:1:jar"] "g:lib" DemoHost.start).
  - intros artifact_glob [<-|[]]. eexists. reflexivity.
  - vm_compute. exact I.
Defined.

Lemma update_gmaven_returns_keys_witness :
  exists p',
    update_gmaven (H := DemoHost.host) Demo.table ["g:lib:latest:aar"] DemoHost.start
    = (Done ["g:lib"], p')
    /\ exists artifact,
         GMaven.init "g:lib:latest:aar" = Ok artifact
         /\ "g:lib" = GMaven.group artifact +:+ ":" +:+ GMaven.library artifact.
Proof.
  destruct (update_gmaven (H := DemoHost.host) Demo.table ["g:lib:latest:aar"]
              DemoHost.start) as [r p'] eqn:Hrun.
  assert (Hr : r = Done ["g:lib"]) by (vm_compute in Hrun; now injection Hrun as <- _).
  subst r. exists p'. split; [reflexivity|].
  destruct (update_gmaven_returns_keys (H := DemoHost.host) _ _ _ _ _ Hrun)
    as [[Hnil|Hkeys] _]; [discriminate|].
  inversion Hkeys as [|? ? ? ? Hfirst _]; subst. exact Hfirst.
Defined.

Lemma uncommitted_changes_answer_witness :
  exists p' out1 w1 out2,
    uncommittedChangesExist (H := DemoHost.host) DemoHost.start = (Done false, p')
    /\ subprocess_shell "cd / && git diff --quiet" DemoHost.empty_disk = (Ok out1, w1)
    /\ subprocess_shell "cd / && git diff --quiet --cached" w1 = (Ok out2, disk p').
Proof.
  destruct (uncommittedChangesExist (H := DemoHost.host) DemoHost.start)
    as [r p'] eqn:Hrun.
  assert (Hr : r = Done false) by (vm_compute in Hrun; now injection Hrun as <- _).
  subst r.
  destruct (uncommitted_changes_answer (H := DemoHost.host) _ _ _ Hrun)
    as (_ & Hfalse & _).
  destruct (Hfalse eq_refl) as (out1 & w1 & out2 & H1 & H2).
  exists p', out1, w1, out2. split; [reflexivity|]. split; [exact H1|exact H2].
Defined.

End UpdateFacts.
